(** * Discount management: record store, bulk operation engine, date
    utilities, generator and CSV export.

    A shallow embedding of the TypeScript sources
    (composables/useDiscountData.ts, composables/useBulkOperations.ts,
    composables/useGridConfig.ts, utils/dateUtils.ts, utils/csvExport.ts,
    utils/mockDataGenerator.ts, types/discount.ts, and the script parts of
    components/BulkActions.vue, components/DiscountGrid.vue and
    components/FilterPanel.vue) and the properties stated about them.

    Conventions of the embedding:
    - a JavaScript string is a [string], the sequence of its units (a text
      beyond ASCII in its UTF-8 form); [toLowerCase] is the host's, with its
      Unicode tables, and is known on ASCII text, where it folds A-Z;
    - a JavaScript number that the program uses as a count, a percentage or
      a time value is a [Z];
    - what the host decides (time zone, date formats beyond yyyy-mm-dd,
      binary64 rounding of a progress ratio, case folding, the properties
      every object inherits) is a field of [Host];
    - randomness and the clock of the generator are an oracle argument. *)

From Stdlib Require Import ZArith String Ascii List Bool Lia.
From Stdlib Require Import DecimalString DecimalNat DecimalZ DecimalPos.
From Stdlib Require Import DecimalFacts.
From stdpp Require Import base list strings gmap sorting.

Local Open Scope string_scope.
Local Open Scope list_scope.
Local Open Scope Z_scope.

(** ** JavaScript strings *)

Module Js.

(** [c.toLowerCase()] on one code unit: A-Z become a-z. *)
Definition lowerUnit (c : ascii) : ascii :=
  let n := N_of_ascii c in
  if ((65 <=? n) && (n <=? 90))%N then ascii_of_N (n + 32) else c.

(** [s.toLowerCase()] on a text of ASCII units. *)
Fixpoint foldAscii (s : string) : string :=
  match s with
  | EmptyString => EmptyString
  | String c s' => String (lowerUnit c) (foldAscii s')
  end.

(** Every unit is below 128. *)
Fixpoint isAscii (s : string) : bool :=
  match s with
  | EmptyString => true
  | String c s' => (N_of_ascii c <? 128)%N && isAscii s'
  end.

(** [s.startsWith(p)] *)
Fixpoint startsWith (s p : string) {struct p} : bool :=
  match p, s with
  | EmptyString, _ => true
  | String a p', String b s' => Ascii.eqb a b && startsWith s' p'
  | String _ _, EmptyString => false
  end.

(** [s.includes(sub)]: [sub] occurs in [s] at some index. *)
Fixpoint includes (s sub : string) : bool :=
  startsWith s sub ||
  match s with
  | EmptyString => false
  | String _ s' => includes s' sub
  end.

(** [s.includes(c)] for a single code unit. *)
Fixpoint includesUnit (s : string) (c : ascii) : bool :=
  match s with
  | EmptyString => false
  | String b s' => Ascii.eqb b c || includesUnit s' c
  end.

(** [parts.join(sep)] *)
Fixpoint join (sep : string) (parts : list string) : string :=
  match parts with
  | [] => EmptyString
  | [p] => p
  | p :: rest => p +:+ sep +:+ join sep rest
  end.

(** [String(n)] for a non-negative integer. *)
Definition String_of_nat (n : nat) : string :=
  NilEmpty.string_of_uint (Nat.to_uint n).

(** [String(z)], [z.toString()] for an integer. *)
Definition String_of_number (z : Z) : string :=
  NilEmpty.string_of_int (Z.to_int z).

(** [String.fromCharCode(48)] repeated. *)
Fixpoint zeros (k : nat) : string :=
  match k with
  | O => EmptyString
  | S k' => String "0" (zeros k')
  end.

(** [s.padStart(width, '0')] *)
Definition padStart0 (width : nat) (s : string) : string :=
  zeros (width - String.length s)%nat +:+ s.

(** A value read from a record by a computed key: [record[field]].
    [VObject text] is an object or a function, with the text [String] gives
    it. *)
Inductive Value : Type :=
| VUndefined
| VString (s : string)
| VNumber (z : Z)
| VObject (text : string).

(** [String(v || '')]: a falsy value (undefined, the empty string, the number
    0) is replaced by the empty string before it is turned into a string; an
    object or a function is truthy. *)
Definition stringOrEmpty (v : Value) : string :=
  match v with
  | VUndefined => ""
  | VString s => s
  | VNumber z => if z =? 0 then "" else String_of_number z
  | VObject text => text
  end.

(** [String(v)] *)
Definition toString (v : Value) : string :=
  match v with
  | VUndefined => "undefined"
  | VString s => s
  | VNumber z => String_of_number z
  | VObject text => text
  end.

(** What a [throw] carries: an [Error] with its message, or another value. *)
Inductive Thrown : Type :=
| ErrorObject (message : string)
| OtherValue.

(** [err instanceof Error ? err.message : fallback] *)
Definition messageOr (fallback : string) (e : Thrown) : string :=
  match e with
  | ErrorObject m => m
  | OtherValue => fallback
  end.

End Js.

(** ** The host: what the JavaScript engine and the browser decide *)

(** [LocalTZA t] is the offset of local time from UTC, in milliseconds, at the
    time value [t]; [hostDateParse] is what [Date.parse] answers on a string
    that is not a plain calendar date [yyyy-mm-dd] (other ISO forms and the
    engine's own formats) or whose day overflows its month (engines differ
    there); [roundPercent a b] is [Math.round((a / b) * 100)] computed in
    binary64. [None] stands for NaN. [toLowerCase] is
    [String.prototype.toLowerCase], which folds every cased letter of the
    engine's Unicode tables; on a text of ASCII units it folds A-Z and leaves
    the rest. [inheritedProperty name] is what [record[name]] gives for a
    name that is none of the record's own: the property of that name on
    [Object.prototype] ([constructor], [toString], ...), undefined for most
    names. *)
Class Host : Type := {
  LocalTZA : Z -> Z;
  hostDateParse : string -> option Z;
  roundPercent : Z -> Z -> Z;
  toLowerCase : string -> string;
  toLowerCase_ascii :
    forall s, Js.isAscii s = true -> toLowerCase s = Js.foldAscii s;
  inheritedProperty : string -> Js.Value
}.

(** ** Dates: [new Date(s)], [getTime], [toLocaleDateString] *)

Module JsDate.

Definition msPerDay : Z := 86400000.

Definition isDigit (c : ascii) : bool :=
  let n := N_of_ascii c in ((48 <=? n) && (n <=? 57))%N.

Definition digitValue (c : ascii) : Z := Z.of_N (N_of_ascii c) - 48.

Fixpoint allDigits (s : string) : bool :=
  match s with
  | EmptyString => true
  | String c s' => isDigit c && allDigits s'
  end.

Fixpoint numberOfDigitsFrom (acc : Z) (s : string) : Z :=
  match s with
  | EmptyString => acc
  | String c s' => numberOfDigitsFrom (10 * acc + digitValue c) s'
  end.

Definition numberOfDigits (s : string) : Z := numberOfDigitsFrom 0 s.

Definition isDash (o : option ascii) : bool :=
  match o with
  | Some c => Ascii.eqb c "-"
  | None => false
  end.

(** The regular expression [/^\d{4}-\d{2}-\d{2}$/] of the sources. *)
Definition matchesDatePattern (s : string) : bool :=
  (String.length s =? 10)%nat
  && allDigits (substring 0 4 s) && isDash (get 4 s)
  && allDigits (substring 5 2 s) && isDash (get 7 s)
  && allDigits (substring 8 2 s).

Definition isLeapYear (y : Z) : bool :=
  (y mod 4 =? 0) && (negb (y mod 100 =? 0) || (y mod 400 =? 0)).

Definition daysInMonth (y m : Z) : Z :=
  match m with
  | 1 => 31 | 2 => if isLeapYear y then 29 else 28 | 3 => 31 | 4 => 30
  | 5 => 31 | 6 => 30 | 7 => 31 | 8 => 31 | 9 => 30 | 10 => 31 | 11 => 30
  | 12 => 31
  | _ => 0
  end.

(** ECMAScript [DayFromYear]: the day number of 1 January of year [y]. *)
Definition dayFromYear (y : Z) : Z :=
  365 * (y - 1970) + (y - 1969) / 4 - (y - 1901) / 100 + (y - 1601) / 400.

(** Days of year [y] before month [m] (1-12). *)
Definition daysBeforeMonth (y m : Z) : Z :=
  let leap := if isLeapYear y then 1 else 0 in
  match m with
  | 1 => 0 | 2 => 31 | 3 => 59 + leap | 4 => 90 + leap | 5 => 120 + leap
  | 6 => 151 + leap | 7 => 181 + leap | 8 => 212 + leap | 9 => 243 + leap
  | 10 => 273 + leap | 11 => 304 + leap | _ => 334 + leap
  end.

(** ECMAScript [MakeDay] for a date of the calendar: days since 1970-01-01. *)
Definition makeDay (y m d : Z) : Z :=
  dayFromYear y + daysBeforeMonth y m + (d - 1).

(** ECMAScript [Day(t)] and the calendar date of a day number. *)
Definition dayOfTime (t : Z) : Z := t / msPerDay.

Definition civilFromDays (day : Z) : Z * Z * Z :=
  let z := day + 719468 in
  let era := z / 146097 in
  let doe := z - era * 146097 in
  let yoe := (doe - doe / 1460 + doe / 36524 - doe / 146096) / 365 in
  let doy := doe - (365 * yoe + yoe / 4 - yoe / 100) in
  let mp := (5 * doy + 2) / 153 in
  let d := doy - (153 * mp + 2) / 5 + 1 in
  let m := if mp <? 10 then mp + 3 else mp - 9 in
  let y := yoe + era * 400 in
  (if m <=? 2 then y + 1 else y, m, d).

(** ECMAScript [MonthFromTime], counted 1-12. *)
Definition monthFromTime (t : Z) : Z :=
  let '(_, m, _) := civilFromDays (dayOfTime t) in m.

(** Month names of the locale [en-US], [{ month: 'long' }]. *)
Definition monthLong (m : Z) : string :=
  match m with
  | 1 => "January" | 2 => "February" | 3 => "March" | 4 => "April"
  | 5 => "May" | 6 => "June" | 7 => "July" | 8 => "August"
  | 9 => "September" | 10 => "October" | 11 => "November" | _ => "December"
  end.

(** The fields of a string that matches the pattern. *)
Definition isoFields (s : string) : Z * Z * Z :=
  (numberOfDigits (substring 0 4 s),
   numberOfDigits (substring 5 2 s),
   numberOfDigits (substring 8 2 s)).

Section WithHost.
Context `{Host}.

(** [new Date(s).getTime()], [None] for NaN. A calendar date [yyyy-mm-dd] is
    midnight UTC of that day; a month outside 01-12 or a day outside 01-31
    is NaN; the rest is the host's. *)
Definition parse (s : string) : option Z :=
  if matchesDatePattern s then
    let '(y, m, d) := isoFields s in
    if (1 <=? m) && (m <=? 12) && (1 <=? d) && (d <=? 31) then
      if d <=? daysInMonth y m then Some (makeDay y m d * msPerDay)
      else hostDateParse s
    else None
  else hostDateParse s.

(** [date.toLocaleDateString('en-US', { month: 'long' })]: the month of the
    local time of [t]. *)
Definition toLocaleMonthLong (t : Z) : string :=
  monthLong (monthFromTime (t + LocalTZA t)).

End WithHost.

End JsDate.

(** ** utils/dateUtils.ts *)

Section DateUtils.
Context `{Host}.

(** [!s] for a string. *)
Definition isEmptyString (s : string) : bool :=
  match s with
  | EmptyString => true
  | String _ _ => false
  end.

Definition getMonthName (dateString : string) : string :=
  if isEmptyString dateString then ""
  else
    match JsDate.parse dateString with
    | None => ""
    | Some t => JsDate.toLocaleMonthLong t
    end.

(** [Math.ceil(a / b)] for integers [a] and [b > 0]; the binary64 quotient
    of the source has the same ceiling for every span below 2^27 days. *)
Definition ceilDiv (a b : Z) : Z := - ((- a) / b).

Definition calculateDaysBetween (startDate endDate : string) : Z :=
  if isEmptyString startDate || isEmptyString endDate then 0
  else
    match JsDate.parse startDate, JsDate.parse endDate with
    | Some start, Some end_ =>
        let timeDifference := end_ - start in
        let daysDifference := ceilDiv timeDifference (1000 * 3600 * 24) in
        Z.max 0 daysDifference
    | _, _ => 0
    end.

Definition isValidDateString (dateString : string) : bool :=
  if isEmptyString dateString then false
  else if negb (JsDate.matchesDatePattern dateString) then false
  else
    match JsDate.parse dateString with
    | Some _ => true
    | None => false
    end.

End DateUtils.

(** ** types/discount.ts *)

Inductive Platform : Type :=
| STEAM | EPIC | GOG | XBOX | PLAYSTATION | NINTENDO | MOBILE.

Inductive Region : Type :=
| GLOBAL | NORTH_AMERICA | EUROPE | ASIA_PACIFIC | LATIN_AMERICA
| MIDDLE_EAST_AFRICA.

Inductive ImplementationStatus : Type :=
| IMPL_PENDING | IMPL_IN_PROGRESS | IMPL_COMPLETED | IMPL_FAILED
| IMPL_CANCELLED.

Inductive SalesEventStatus : Type :=
| SALES_PLANNED | SALES_ACTIVE | SALES_COMPLETED | SALES_CANCELLED.

(** The string each enum member stands for at run time. *)
Definition Platform_value (p : Platform) : string :=
  match p with
  | STEAM => "Steam" | EPIC => "Epic Games Store" | GOG => "GOG"
  | XBOX => "Xbox" | PLAYSTATION => "PlayStation"
  | NINTENDO => "Nintendo Switch" | MOBILE => "Mobile"
  end.

Definition Region_value (r : Region) : string :=
  match r with
  | GLOBAL => "Global" | NORTH_AMERICA => "North America"
  | EUROPE => "Europe" | ASIA_PACIFIC => "Asia Pacific"
  | LATIN_AMERICA => "Latin America"
  | MIDDLE_EAST_AFRICA => "Middle East & Africa"
  end.

Definition ImplementationStatus_value (x : ImplementationStatus) : string :=
  match x with
  | IMPL_PENDING => "Pending" | IMPL_IN_PROGRESS => "In Progress"
  | IMPL_COMPLETED => "Completed" | IMPL_FAILED => "Failed"
  | IMPL_CANCELLED => "Cancelled"
  end.

Definition SalesEventStatus_value (x : SalesEventStatus) : string :=
  match x with
  | SALES_PLANNED => "Planned" | SALES_ACTIVE => "Active"
  | SALES_COMPLETED => "Completed" | SALES_CANCELLED => "Cancelled"
  end.

(** [Object.values(E)] for each enum, in declaration order. *)
Definition Platform_values : list Platform :=
  [STEAM; EPIC; GOG; XBOX; PLAYSTATION; NINTENDO; MOBILE].

Definition Region_values : list Region :=
  [GLOBAL; NORTH_AMERICA; EUROPE; ASIA_PACIFIC; LATIN_AMERICA;
   MIDDLE_EAST_AFRICA].

Definition ImplementationStatus_values : list ImplementationStatus :=
  [IMPL_PENDING; IMPL_IN_PROGRESS; IMPL_COMPLETED; IMPL_FAILED;
   IMPL_CANCELLED].

Definition SalesEventStatus_values : list SalesEventStatus :=
  [SALES_PLANNED; SALES_ACTIVE; SALES_COMPLETED; SALES_CANCELLED].

(** [interface DiscountRecord]; the two computed fields are optional. *)
Record DiscountRecord : Type := {
  clientId : string;
  client : string;
  platform : Platform;
  region : Region;
  discount : string;
  startDate : string;
  startTime : string;
  endDate : string;
  endTime : string;
  percent : Z;
  deadline : string;
  implementationStatus : ImplementationStatus;
  salesEventStatus : SalesEventStatus;
  comments : string;
  month : option string;
  length : option Z
}.

(** [interface BulkUpdateData]: every field may be left out. *)
Module BulkUpdate.
Record BulkUpdateData : Type := {
  discountName : option string;
  discountPercent : option Z;
  startDate : option string;
  endDate : option string
}.
End BulkUpdate.
Abbreviation BulkUpdateData := BulkUpdate.BulkUpdateData.

Definition CLIENT_OPTIONS : list string :=
  ["Activision"; "Electronic Arts"; "Ubisoft"; "Take-Two Interactive";
   "Bandai Namco"; "Square Enix"; "SEGA"; "Capcom"; "Konami"; "Epic Games";
   "Valve Corporation"; "CD Projekt"; "Bethesda Game Studios"; "2K Games";
   "Warner Bros. Games"].

(** [(record as any)[field]] *)
Definition optionalString (o : option string) : Js.Value :=
  match o with
  | Some s => Js.VString s
  | None => Js.VUndefined
  end.

Definition optionalNumber (o : option Z) : Js.Value :=
  match o with
  | Some z => Js.VNumber z
  | None => Js.VUndefined
  end.

Section Fields.
Context `{Host}.

Definition getField (record : DiscountRecord) (field : string) : Js.Value :=
  if String.eqb field "clientId" then Js.VString (clientId record)
  else if String.eqb field "client" then Js.VString (client record)
  else if String.eqb field "platform" then
    Js.VString (Platform_value (platform record))
  else if String.eqb field "region" then
    Js.VString (Region_value (region record))
  else if String.eqb field "discount" then Js.VString (discount record)
  else if String.eqb field "startDate" then Js.VString (startDate record)
  else if String.eqb field "startTime" then Js.VString (startTime record)
  else if String.eqb field "endDate" then Js.VString (endDate record)
  else if String.eqb field "endTime" then Js.VString (endTime record)
  else if String.eqb field "percent" then Js.VNumber (percent record)
  else if String.eqb field "deadline" then Js.VString (deadline record)
  else if String.eqb field "implementationStatus" then
    Js.VString (ImplementationStatus_value (implementationStatus record))
  else if String.eqb field "salesEventStatus" then
    Js.VString (SalesEventStatus_value (salesEventStatus record))
  else if String.eqb field "comments" then Js.VString (comments record)
  else if String.eqb field "month" then optionalString (month record)
  else if String.eqb field "length" then optionalNumber (length record)
  else inheritedProperty field.

End Fields.

(** [{ ...record, month: m, length: l }] *)
Definition setComputedFields (record : DiscountRecord) (m : string) (l : Z)
  : DiscountRecord :=
  {| clientId := clientId record; client := client record;
     platform := platform record; region := region record;
     discount := discount record; startDate := startDate record;
     startTime := startTime record; endDate := endDate record;
     endTime := endTime record; percent := percent record;
     deadline := deadline record;
     implementationStatus := implementationStatus record;
     salesEventStatus := salesEventStatus record;
     comments := comments record; month := Some m; length := Some l |}.

(** ** utils/mockDataGenerator.ts *)

Definition DISCOUNT_TEMPLATES : list string :=
  ["Summer Sale"; "Black Friday"; "Holiday Special"; "Spring Break";
   "Back to School"; "Valentine's Day"; "Easter Sale"; "Labor Day Weekend";
   "Halloween Horror"; "Thanksgiving Deal"; "Year End Clearance";
   "New Year Special"; "Memorial Day"; "Independence Day";
   "Winter Wonderland"].

Definition GAME_GENRES : list string :=
  ["Action"; "Adventure"; "RPG"; "Strategy"; "Simulation"; "Sports";
   "Racing"; "Fighting"; "Puzzle"; "Indie"].

(** What [Math.random()] and [new Date()] give while one record is generated:
    each field is the outcome at one call site, an arbitrary natural number
    that the function below reduces to the range the source scales it to. *)
Record Draw : Type := {
  now : Z;
  startPick : nat;
  endDaysPick : nat;
  platformPick : nat;
  regionPick : nat;
  clientPick : nat;
  implementationPick : nat;
  salesPick : nat;
  templatePick : nat;
  genrePick : nat;
  namePercentPick : nat;
  nameWithGenre : bool;
  nameWithPercent : bool;
  startHourPick : nat;
  startMinutePick : nat;
  endHourPick : nat;
  endMinutePick : nat;
  percentPick : nat;
  deadlineDaysPick : nat;
  commentPick : nat
}.

(** [Math.floor(Math.random() * (max - min + 1)) + min] *)
Definition randomInt (min max : Z) (pick : nat) : Z :=
  Z.of_nat pick mod (max - min + 1) + min.

(** [array[Math.floor(Math.random() * array.length)]] *)
Definition randomChoice {A : Type} (array : list A) (pick : nat) (dflt : A) : A :=
  nth (pick mod List.length array) array dflt.

Definition generateDiscountName (d : Draw) : string :=
  let template := randomChoice DISCOUNT_TEMPLATES (templatePick d) "" in
  let genre := randomChoice GAME_GENRES (genrePick d) "" in
  let percent := randomInt 10 75 (namePercentPick d) in
  if nameWithGenre d then template +:+ " - " +:+ genre +:+ " Games"
  else if nameWithPercent d then
    template +:+ " " +:+ Js.String_of_number percent +:+ "% Off"
  else template.

Definition generateTime (hourPick minutePick : nat) : string :=
  let hour := randomInt 0 23 hourPick in
  let minute := randomInt 0 59 minutePick in
  Js.padStart0 2 (Js.String_of_number hour) +:+ ":"
  +:+ Js.padStart0 2 (Js.String_of_number minute).

Definition generateComment (implementationStatus : ImplementationStatus)
    (salesEventStatus : SalesEventStatus) (pick : nat) : string :=
  let comments :=
    ["Approved by management"; "Waiting for final confirmation";
     "Technical implementation in progress"; "Marketing campaign prepared";
     "Legal review completed"; "Revenue impact assessment done";
     "Coordinating with platform team"; "Customer support briefed";
     "Analytics tracking configured"; ""] in
  match implementationStatus with
  | IMPL_FAILED =>
      randomChoice
        ["Technical issues encountered"; "Platform API limitations";
         "Approval process delayed"; "Budget constraints";
         "Resource allocation conflict"] pick ""
  | _ =>
      match salesEventStatus with
      | SALES_CANCELLED =>
          randomChoice
            ["Market conditions changed"; "Strategic decision to postpone";
             "Competitor action influenced timing";
             "Internal priority shift"; "Platform policy change"] pick ""
      | _ => randomChoice comments pick ""
      end
  end.

Definition getValidRegions (platform : Platform) : list Region :=
  match platform with
  | STEAM => [GLOBAL]
  | _ => Region_values
  end.

(** [client.replace(/[^A-Z]/g, '')] *)
Definition isUpper (c : ascii) : bool :=
  let n := N_of_ascii c in ((65 <=? n) && (n <=? 90))%N.

Fixpoint upperLettersOnly (s : string) : string :=
  match s with
  | EmptyString => EmptyString
  | String c s' =>
      if isUpper c then String c (upperLettersOnly s') else upperLettersOnly s'
  end.

(** The template [`ORG_${...}_${String(index).padStart(6, '0')}`]. *)
Definition makeClientId (client : string) (index : nat) : string :=
  "ORG_" +:+ upperLettersOnly client +:+ "_"
  +:+ Js.padStart0 6 (Js.String_of_nat index).

Section Generator.
Context `{Host}.

(** [formatDate(date)] of dateUtils.ts: the calendar date of the local time. *)
Definition formatDate (t : Z) : string :=
  let '(year, month, day) :=
    JsDate.civilFromDays (JsDate.dayOfTime (t + LocalTZA t)) in
  Js.String_of_number year +:+ "-"
  +:+ Js.padStart0 2 (Js.String_of_number month) +:+ "-"
  +:+ Js.padStart0 2 (Js.String_of_number day).

Definition generateDiscountRecord (index : nat) (d : Draw) : DiscountRecord :=
  let sixMonthsAgo := now d - 6 * 30 * 24 * 60 * 60 * 1000 in
  let sixMonthsFromNow := now d + 6 * 30 * 24 * 60 * 60 * 1000 in
  let startDate :=
    sixMonthsAgo + Z.of_nat (startPick d) mod (sixMonthsFromNow - sixMonthsAgo) in
  let endDate :=
    startDate + randomInt 1 30 (endDaysPick d) * 24 * 60 * 60 * 1000 in
  let platform := randomChoice Platform_values (platformPick d) STEAM in
  let validRegions := getValidRegions platform in
  let region := randomChoice validRegions (regionPick d) GLOBAL in
  let client := randomChoice CLIENT_OPTIONS (clientPick d) "" in
  let clientId := makeClientId client index in
  let implementationStatus :=
    randomChoice ImplementationStatus_values (implementationPick d)
      IMPL_PENDING in
  let salesEventStatus :=
    randomChoice SalesEventStatus_values (salesPick d) SALES_PLANNED in
  {| clientId := clientId;
     client := client;
     platform := platform;
     region := region;
     discount := generateDiscountName d;
     startDate := formatDate startDate;
     startTime := generateTime (startHourPick d) (startMinutePick d);
     endDate := formatDate endDate;
     endTime := generateTime (endHourPick d) (endMinutePick d);
     percent := randomInt 5 75 (percentPick d);
     deadline :=
       formatDate
         (startDate - randomInt 1 14 (deadlineDaysPick d) * 24 * 60 * 60 * 1000);
     implementationStatus := implementationStatus;
     salesEventStatus := salesEventStatus;
     comments := generateComment implementationStatus salesEventStatus (commentPick d);
     month := None;
     length := None |}.

(** The oracle of one call of [generateMockData]: for the record of each
    index, either the draws, or what the host throws while that record is
    generated (an allocation that fails, a missing global). *)
Definition Oracle : Type := nat -> Js.Thrown + Draw.

(** The loop [for (let i = 0; i < count; i++) records.push(...)], started at
    index [i] with [n] rounds to go. *)
Fixpoint generateFrom (oracle : Oracle) (i n : nat)
  : Js.Thrown + list DiscountRecord :=
  match n with
  | O => inr []
  | S n' =>
      match oracle i with
      | inl e => inl e
      | inr d =>
          match generateFrom oracle (S i) n' with
          | inl e => inl e
          | inr records => inr (generateDiscountRecord i d :: records)
          end
      end
  end.

Definition generateMockData (oracle : Oracle) (count : Z)
  : Js.Thrown + list DiscountRecord :=
  generateFrom oracle 0 (Z.to_nat count).

Definition generateTestData (oracle : Oracle) (count : Z)
  : Js.Thrown + list DiscountRecord :=
  generateMockData oracle count.

End Generator.

(** ** composables/useDiscountData.ts: the record store *)

(** [interface FilterState { [key: string]: string[] | null }] is a finite
    map from field names to accepted values; [Object.keys], [Object.entries]
    enumerate it. *)
Record Store : Type := {
  rawData : list DiscountRecord;
  isLoading : bool;
  filters : gmap string (option (list string));
  error : option string
}.

Definition initialStore : Store :=
  {| rawData := []; isLoading := false; filters := ∅; error := None |}.

Definition setRawData (st : Store) (records : list DiscountRecord) : Store :=
  {| rawData := records; isLoading := isLoading st; filters := filters st;
     error := error st |}.

Definition setIsLoading (st : Store) (b : bool) : Store :=
  {| rawData := rawData st; isLoading := b; filters := filters st;
     error := error st |}.

Definition setError (st : Store) (e : option string) : Store :=
  {| rawData := rawData st; isLoading := isLoading st; filters := filters st;
     error := e |}.

Definition setFilters (st : Store) (f : gmap string (option (list string)))
  : Store :=
  {| rawData := rawData st; isLoading := isLoading st; filters := f;
     error := error st |}.

Section StoreWithHost.
Context `{Host}.

(** [values.some(filterValue =>
       fieldValue.toLowerCase().includes(filterValue.toLowerCase()))]
    with [fieldValue = String(record[field] || '')]. *)
Definition matchesSome (field : string) (values : list string)
    (record : DiscountRecord) : bool :=
  let fieldValue := Js.stringOrEmpty (getField record field) in
  existsb
    (fun filterValue =>
       Js.includes (toLowerCase fieldValue) (toLowerCase filterValue))
    values.

(** One round of [Object.entries(filters).forEach(([field, values]) => ...)]. *)
Definition applyFilter (result : list DiscountRecord)
    (entry : string * option (list string)) : list DiscountRecord :=
  match entry.2 with
  | Some (v :: vs) => List.filter (matchesSome entry.1 (v :: vs)) result
  | Some [] | None => result
  end.

(** The computed [filteredData]. *)
Definition filteredData (st : Store) : list DiscountRecord :=
  if decide (map_to_list (filters st) = []) then rawData st
  else foldl applyFilter (rawData st) (map_to_list (filters st)).

(** [values.add(value)] on a [Set], kept in insertion order. *)
Definition setAdd (value : string) (values : list string) : list string :=
  if decide (value ∈ values) then values else values ++ [value].

Definition updateFilter (field : string) (values : option (list string))
    (st : Store) : Store :=
  match values with
  | Some (v :: vs) => setFilters st (<[field := Some (v :: vs)]> (filters st))
  | Some [] | None => setFilters st (delete field (filters st))
  end.

Definition clearFilters (st : Store) : Store := setFilters st ∅.

(** [findIndex(record => record.clientId === id)], [None] for [-1]. *)
Fixpoint findIndex (id : string) (records : list DiscountRecord) : option nat :=
  match records with
  | [] => None
  | record :: rest =>
      if String.eqb (clientId record) id then Some O
      else option_map S (findIndex id rest)
  end.

Definition deleteRecord (id : string) (st : Store) : Store :=
  match findIndex id (rawData st) with
  | Some index => setRawData st (delete index (rawData st))
  | None => st
  end.

(** [clientIds.includes(id)] *)
Definition includesId (clientIds : list string) (id : string) : bool :=
  existsb (String.eqb id) clientIds.

Definition deleteRecords (clientIds : list string) (st : Store) : Store :=
  setRawData st
    (List.filter (fun record => negb (includesId clientIds (clientId record)))
       (rawData st)).

Definition totalRecords (st : Store) : nat := List.length (rawData st).

Definition filteredRecords (st : Store) : nat := List.length (filteredData st).

Definition hasActiveFilters (st : Store) : bool :=
  negb (bool_decide (map_to_list (filters st) = [])).

(** [{ ...record, month: getMonthName(record.startDate),
       length: calculateDaysBetween(record.startDate, record.endDate) }] *)
Definition withComputedFields (record : DiscountRecord) : DiscountRecord :=
  setComputedFields record
    (getMonthName (startDate record))
    (calculateDaysBetween (startDate record) (endDate record)).

(** [loadData(count)]. The awaited timer is a point where the function
    gives up control; the store is taken not to be touched meanwhile. *)
Definition loadData (oracle : Oracle) (count : Z) (st : Store) : Store :=
  let st := setIsLoading st true in
  let st := setError st None in
  let st :=
    match (if count <=? 5000 then generateTestData oracle count
           else generateMockData oracle count) with
    | inr data =>
        let dataWithComputedFields := map withComputedFields data in
        setRawData st dataWithComputedFields
    | inl err => setError st (Some (Js.messageOr "Failed to load data" err))
    end in
  setIsLoading st false.

(** The value [getUniqueValues] reads from one record. *)
Definition uniqueValueOf (field : string) (record : DiscountRecord) : string :=
  if String.eqb field "month" then getMonthName (startDate record)
  else if String.eqb field "length" then
    Js.String_of_number
      (calculateDaysBetween (startDate record) (endDate record))
  else Js.stringOrEmpty (getField record field).

(** The body of [rawData.value.forEach(record => ...)]. The result is
    [Array.from(values).sort()]: sorted by code units, the order [String.le]. *)
Definition collectValue (field : string) (values : list string)
    (record : DiscountRecord) : list string :=
  let value := uniqueValueOf field record in
  if isEmptyString value then values else setAdd value values.

Definition getUniqueValues (field : string) (st : Store) : list string :=
  let values := foldl (collectValue field) [] (rawData st) in
  merge_sort String.le values.

Definition updateRecord (updatedRecord : DiscountRecord) (st : Store) : Store :=
  match findIndex (clientId updatedRecord) (rawData st) with
  | Some index =>
      let recordWithComputedFields := withComputedFields updatedRecord in
      setRawData st (<[index := recordWithComputedFields]> (rawData st))
  | None => st
  end.

Definition addRecord (newRecord : DiscountRecord) (st : Store) : Store :=
  let recordWithComputedFields := withComputedFields newRecord in
  setRawData st (rawData st ++ [recordWithComputedFields]).

(** The operations a client of the store can call. *)
Inductive StoreOp : Type :=
| OpLoadData (oracle : Oracle) (count : Z)
| OpUpdateFilter (field : string) (values : option (list string))
| OpClearFilters
| OpUpdateRecord (updatedRecord : DiscountRecord)
| OpDeleteRecord (id : string)
| OpDeleteRecords (clientIds : list string)
| OpAddRecord (newRecord : DiscountRecord).

Definition runOp (op : StoreOp) (st : Store) : Store :=
  match op with
  | OpLoadData oracle count => loadData oracle count st
  | OpUpdateFilter field values => updateFilter field values st
  | OpClearFilters => clearFilters st
  | OpUpdateRecord r => updateRecord r st
  | OpDeleteRecord id => deleteRecord id st
  | OpDeleteRecords ids => deleteRecords ids st
  | OpAddRecord r => addRecord r st
  end.

(** The states of the store: the initial one and what the operations make
    of a state. *)
Inductive reachable : Store -> Prop :=
| reachable_initial : reachable initialStore
| reachable_step op st : reachable st -> reachable (runOp op st).

End StoreWithHost.

(** ** utils/csvExport.ts *)

Module Csv.

Definition comma : ascii := ","%char.
Definition dquote : ascii := "034"%char.
Definition newline : ascii := "010"%char.

Definition headers : list string :=
  ["Client Id"; "Client"; "Platform"; "Region"; "Discount"; "Start Date";
   "Start Time"; "End Date"; "End Time"; "Percent"; "Deadline";
   "Implementation Status"; "Sales Event Status"; "Comments"; "Month";
   "Length (Days)"].

(** The [replace] of [escapeCSVValue]: every double quote is doubled. *)
Fixpoint doubleQuotes (s : string) : string :=
  match s with
  | EmptyString => EmptyString
  | String c s' =>
      if Ascii.eqb c dquote then String dquote (String dquote (doubleQuotes s'))
      else String c (doubleQuotes s')
  end.

Definition escapeCSVValue (stringValue : string) : string :=
  if Js.includesUnit stringValue comma
     || Js.includesUnit stringValue dquote
     || Js.includesUnit stringValue newline
  then String dquote (doubleQuotes stringValue +:+ String dquote EmptyString)
  else stringValue.

Section WithHost.
Context `{Host}.

(** The sixteen values of a record's row, before escaping. *)
Definition fieldValues (record : DiscountRecord) : list string :=
  let month := getMonthName (startDate record) in
  let length := calculateDaysBetween (startDate record) (endDate record) in
  [clientId record; client record; Platform_value (platform record);
   Region_value (region record); discount record; startDate record;
   startTime record; endDate record; endTime record;
   Js.String_of_number (percent record); deadline record;
   ImplementationStatus_value (implementationStatus record);
   SalesEventStatus_value (salesEventStatus record); comments record;
   month; Js.String_of_number length].

(** The body of [records.map(record => [...].join(','))]: every value goes
    through [escapeCSVValue] but the two numbers, which are written by
    [toString()]. *)
Definition csvRow (record : DiscountRecord) : string :=
  let month := getMonthName (startDate record) in
  let length := calculateDaysBetween (startDate record) (endDate record) in
  Js.join ","
    [escapeCSVValue (clientId record);
     escapeCSVValue (client record);
     escapeCSVValue (Platform_value (platform record));
     escapeCSVValue (Region_value (region record));
     escapeCSVValue (discount record);
     escapeCSVValue (startDate record);
     escapeCSVValue (startTime record);
     escapeCSVValue (endDate record);
     escapeCSVValue (endTime record);
     Js.String_of_number (percent record);
     escapeCSVValue (deadline record);
     escapeCSVValue (ImplementationStatus_value (implementationStatus record));
     escapeCSVValue (SalesEventStatus_value (salesEventStatus record));
     escapeCSVValue (comments record);
     escapeCSVValue month;
     Js.String_of_number length].

Definition convertToCSV (records : list DiscountRecord) : string :=
  match records with
  | [] => ""
  | _ :: _ =>
      let rows := map csvRow records in
      Js.join (String newline EmptyString) (Js.join "," headers :: rows)
  end.

End WithHost.

(** [generateFilename(prefix)], given [new Date().toISOString()]. *)
Fixpoint colonsToDashes (s : string) : string :=
  match s with
  | EmptyString => EmptyString
  | String c s' =>
      String (if Ascii.eqb c ":" then "-"%char else c) (colonsToDashes s')
  end.

Definition generateFilename (isoNow : string) (prefix : string) : string :=
  let timestamp := colonsToDashes (substring 0 19 isoNow) in
  prefix +:+ "-" +:+ timestamp +:+ ".csv".

(** *** The reader the export is measured against

    CSV as RFC 4180 describes it, in the dialect the export writes: records
    end at a line feed, fields are separated by commas, a field that opens
    with a double quote runs to its closing quote and holds a doubled quote
    for each quote of its text. A carriage return has no special meaning. A
    quote inside an unquoted field, text after a closing quote and an
    unclosed quote are malformed ([None]). *)
Inductive Mode : Type := Plain | Quoted | QuoteSeen.

(** [acc] is the text of the field being read, [row] the fields of the record
    being read (last first), [rows] the records read (last first). *)
Fixpoint read (mode : Mode) (acc : string) (row : list string)
    (rows : list (list string)) (input : string)
  : option (list (list string)) :=
  match input with
  | EmptyString =>
      match mode with
      | Quoted => None
      | Plain | QuoteSeen => Some (rev (rev (acc :: row) :: rows))
      end
  | String c rest =>
      match mode with
      | Plain =>
          if Ascii.eqb c comma then read Plain "" (acc :: row) rows rest
          else if Ascii.eqb c newline then
            read Plain "" [] (rev (acc :: row) :: rows) rest
          else if Ascii.eqb c dquote then
            if isEmptyString acc then read Quoted "" row rows rest else None
          else read Plain (acc +:+ String c EmptyString) row rows rest
      | Quoted =>
          if Ascii.eqb c dquote then read QuoteSeen acc row rows rest
          else read Quoted (acc +:+ String c EmptyString) row rows rest
      | QuoteSeen =>
          if Ascii.eqb c dquote then
            read Quoted (acc +:+ String dquote EmptyString) row rows rest
          else if Ascii.eqb c comma then read Plain "" (acc :: row) rows rest
          else if Ascii.eqb c newline then
            read Plain "" [] (rev (acc :: row) :: rows) rest
          else None
      end
  end.

Definition parseCSV (text : string) : option (list (list string)) :=
  read Plain "" [] [] text.

End Csv.

(** ** composables/useBulkOperations.ts: the bulk operation engine *)

Module Bulk.

(** The three refs of [useBulkOperations]. *)
Record State : Type := {
  isProcessing : bool;
  operationProgress : Z;
  lastOperationResult : option string
}.

Definition initialState : State :=
  {| isProcessing := false; operationProgress := 0;
     lastOperationResult := None |}.

(** What the engine calls outside itself: the two callbacks of its caller
    and the download of csvExport.ts (with the text it saves). *)
Inductive Call : Type :=
| CallOnUpdate (record : DiscountRecord)
| CallOnDelete (clientIds : list string)
| CallDownloadCSV (csvContent : string) (filename : string).

Section Engine.
Context `{Host}.
Context {W : Type}.

(** The engine runs against the state of its caller, [W] (the store, in the
    application); [calls] records the calls made, oldest first. *)
Record Machine : Type := {
  engine : State;
  world : W;
  calls : list Call
}.

(** A computation either returns or throws, and leaves a machine either
    way: what was written before a [throw] stays written. *)
Definition M (A : Type) : Type := Machine -> (Js.Thrown + A) * Machine.

Definition ret {A : Type} (a : A) : M A := fun m => (inr a, m).

Definition bind {A B : Type} (x : M A) (f : A -> M B) : M B :=
  fun m =>
    match x m with
    | (inl e, m') => (inl e, m')
    | (inr a, m') => f a m'
    end.

Definition throw {A : Type} (e : Js.Thrown) : M A := fun m => (inl e, m).

(** [try { body } catch (error) { handler } finally { finalizer }] *)
Definition tryCatchFinally {A : Type} (body : M A)
    (handler : Js.Thrown -> M A) (finalizer : M unit) : M A :=
  fun m =>
    let '(r, m1) :=
      match body m with
      | (inl e, m') => handler e m'
      | (inr a, m') => (inr a, m')
      end in
    match finalizer m1 with
    | (inl e, m2) => (inl e, m2)
    | (inr _, m2) => (r, m2)
    end.

Local Notation "x <- c1 ;; c2" := (bind c1 (fun x => c2))
  (at level 100, c1 at next level, right associativity).
Local Notation "c1 ;; c2" := (bind c1 (fun _ => c2))
  (at level 100, right associativity).

Definition setIsProcessing (b : bool) : M unit :=
  fun m =>
    (inr tt,
     {| engine :=
          {| isProcessing := b;
             operationProgress := operationProgress (engine m);
             lastOperationResult := lastOperationResult (engine m) |};
        world := world m; calls := calls m |}).

Definition setOperationProgress (p : Z) : M unit :=
  fun m =>
    (inr tt,
     {| engine :=
          {| isProcessing := isProcessing (engine m);
             operationProgress := p;
             lastOperationResult := lastOperationResult (engine m) |};
        world := world m; calls := calls m |}).

Definition setLastOperationResult (r : option string) : M unit :=
  fun m =>
    (inr tt,
     {| engine :=
          {| isProcessing := isProcessing (engine m);
             operationProgress := operationProgress (engine m);
             lastOperationResult := r |};
        world := world m; calls := calls m |}).

(** A function of the caller: it works on the caller's state and may throw. *)
Definition Callback (A : Type) : Type := A -> W -> option Js.Thrown * W.

Definition invoke {A : Type} (label : A -> Call) (f : Callback A) (a : A)
  : M unit :=
  fun m =>
    let '(outcome, w) := f a (world m) in
    let m' :=
      {| engine := engine m; world := w; calls := calls m ++ [label a] |} in
    match outcome with
    | Some e => (inl e, m')
    | None => (inr tt, m')
    end.

(** [await new Promise(resolve => setTimeout(resolve, ms))]: the operation
    gives up control and goes on later; nothing else is taken to run on the
    engine or on the caller's state meanwhile. *)
Definition yield : M unit := ret tt.

Fixpoint forEach {A : Type} (items : list A) (body : A -> M unit) : M unit :=
  match items with
  | [] => ret tt
  | a :: rest => body a ;; forEach rest body
  end.

(** [x && y] for an optional string: the string when defined and not empty. *)
Definition truthyString (o : option string) : option string :=
  match o with
  | Some (String c s) => Some (String c s)
  | Some EmptyString | None => None
  end.

(** The record literal of [bulkUpdate]: [record] overwritten by the fields of
    [updateData] that are given. *)
Definition applyUpdate (record : DiscountRecord) (updateData : BulkUpdateData)
  : DiscountRecord :=
  {| clientId := clientId record; client := client record;
     platform := platform record; region := region record;
     discount := default (discount record)
                   (truthyString (BulkUpdate.discountName updateData));
     startDate := default (startDate record)
                    (truthyString (BulkUpdate.startDate updateData));
     startTime := startTime record;
     endDate := default (endDate record)
                  (truthyString (BulkUpdate.endDate updateData));
     endTime := endTime record;
     percent := default (percent record)
                  (BulkUpdate.discountPercent updateData);
     deadline := deadline record;
     implementationStatus := implementationStatus record;
     salesEventStatus := salesEventStatus record;
     comments := comments record; month := month record;
     length := length record |}.

(** The loop [for (const record of records)] of [bulkUpdate]; it returns
    [processed]. *)
Fixpoint updateLoop (updateData : BulkUpdateData)
    (onUpdate : Callback DiscountRecord) (total : nat)
    (records : list DiscountRecord) (processed : nat) : M nat :=
  match records with
  | [] => ret processed
  | record :: rest =>
      let updatedRecord := applyUpdate record updateData in
      invoke CallOnUpdate onUpdate updatedRecord ;;
      let processed := S processed in
      setOperationProgress (roundPercent (Z.of_nat processed) (Z.of_nat total)) ;;
      (if (processed mod 100 =? 0)%nat then yield else ret tt) ;;
      updateLoop updateData onUpdate total rest processed
  end.

Definition bulkUpdate (records : list DiscountRecord)
    (updateData : BulkUpdateData) (onUpdate : Callback DiscountRecord)
  : M unit :=
  if (List.length records =? 0)%nat then
    throw (Js.ErrorObject "No records selected for bulk update")
  else
    setIsProcessing true ;;
    setOperationProgress 0 ;;
    setLastOperationResult None ;;
    tryCatchFinally
      (let total := List.length records in
       processed <- updateLoop updateData onUpdate total records 0 ;;
       setLastOperationResult
         (Some ("Successfully updated " +:+ Js.String_of_nat processed
                +:+ " records")))
      (fun error =>
         let errorMessage := Js.messageOr "Unknown error occurred" error in
         setLastOperationResult
           (Some ("Error during bulk update: " +:+ errorMessage)) ;;
         throw error)
      (setIsProcessing false ;;
       setOperationProgress 0).

(** The values [i] takes in
    [for (let i = 0; i <= total; i += Math.max(1, Math.floor(total / 10)))]. *)
Definition deleteTicks (total : nat) : list nat :=
  let step := Nat.max 1 (total / 10) in
  map (fun k => k * step)%nat (seq 0 (total / step + 1)).

Definition bulkDelete (records : list DiscountRecord)
    (onDelete : Callback (list string)) : M unit :=
  if (List.length records =? 0)%nat then
    throw (Js.ErrorObject "No records selected for deletion")
  else
    setIsProcessing true ;;
    setOperationProgress 0 ;;
    setLastOperationResult None ;;
    tryCatchFinally
      (let clientIds := map clientId records in
       let total := List.length clientIds in
       forEach (deleteTicks total)
         (fun i =>
            setOperationProgress
              (roundPercent (Z.of_nat (Nat.min i total)) (Z.of_nat total)) ;;
            if (i <? total)%nat then yield else ret tt) ;;
       invoke CallOnDelete onDelete clientIds ;;
       setLastOperationResult
         (Some ("Successfully deleted " +:+ Js.String_of_nat total
                +:+ " records")))
      (fun error =>
         let errorMessage := Js.messageOr "Unknown error occurred" error in
         setLastOperationResult
           (Some ("Error during bulk delete: " +:+ errorMessage)) ;;
         throw error)
      (setIsProcessing false ;;
       setOperationProgress 0).

(** [downloadCSV(records, filename)]: the text is built, the browser saves
    it; [save] is the browser's part. *)
Definition downloadCSV (save : Callback (string * string))
    (records : list DiscountRecord) (filename : string) : M unit :=
  let csvContent := Csv.convertToCSV records in
  invoke (fun a => CallDownloadCSV a.1 a.2) save (csvContent, filename).

(** [exportToCSV(records, filename)]; [isoNow] is what
    [new Date().toISOString()] gives if the default name is needed. *)
Definition exportToCSV (save : Callback (string * string)) (isoNow : string)
    (records : list DiscountRecord) (filename : option string) : M unit :=
  if (List.length records =? 0)%nat then
    throw (Js.ErrorObject "No records to export")
  else
    setIsProcessing true ;;
    setOperationProgress 0 ;;
    setLastOperationResult None ;;
    tryCatchFinally
      (forEach (map (fun k => 10 * k)%nat (seq 0 11))
         (fun i => setOperationProgress (Z.of_nat i) ;; yield) ;;
       let exportFilename :=
         default (Csv.generateFilename isoNow "filtered-discounts")
           (truthyString filename) in
       downloadCSV save records exportFilename ;;
       setLastOperationResult
         (Some ("Successfully exported "
                +:+ Js.String_of_nat (List.length records)
                +:+ " records to " +:+ exportFilename)))
      (fun error =>
         let errorMessage := Js.messageOr "Unknown error occurred" error in
         setLastOperationResult
           (Some ("Error during CSV export: " +:+ errorMessage)) ;;
         throw error)
      (setIsProcessing false ;;
       setOperationProgress 0).

End Engine.

(** [validateBulkUpdateData]: the messages pushed, in order. *)
Section Validation.
Context `{Host}.

(** [endDate <= startDate] on two [Date]s: false when either is invalid. *)
Definition dateLe (a b : option Z) : bool :=
  match a, b with
  | Some x, Some y => x <=? y
  | _, _ => false
  end.

Definition validateBulkUpdateData (updateData : BulkUpdateData) : list string :=
  let errors : list string := [] in
  let errors : list string :=
    match BulkUpdate.discountPercent updateData with
    | Some p =>
        if (p <? 0) || (100 <? p) then
          (errors ++ ["Discount percent must be between 0 and 100"])%list
        else errors
    | None => errors
    end in
  let errors : list string :=
    match truthyString (BulkUpdate.startDate updateData) with
    | Some s =>
        if negb (JsDate.matchesDatePattern s) then
          (errors ++ ["Start date must be in YYYY-MM-DD format"])%list
        else errors
    | None => errors
    end in
  let errors : list string :=
    match truthyString (BulkUpdate.endDate updateData) with
    | Some s =>
        if negb (JsDate.matchesDatePattern s) then
          (errors ++ ["End date must be in YYYY-MM-DD format"])%list
        else errors
    | None => errors
    end in
  let errors : list string :=
    match truthyString (BulkUpdate.startDate updateData),
          truthyString (BulkUpdate.endDate updateData) with
    | Some s, Some e =>
        let startDate := JsDate.parse s in
        let endDate := JsDate.parse e in
        if dateLe endDate startDate then
          (errors ++ ["End date must be after start date"])%list
        else errors
    | _, _ => errors
    end in
  errors.

End Validation.

End Bulk.

(** ** Predicates of the specification *)

Section Predicates.
Context `{Host}.

(** The computed fields of a record are those of its dates. *)
Definition computedFieldsInSync (record : DiscountRecord) : Prop :=
  month record = Some (getMonthName (startDate record))
  /\ length record
     = Some (calculateDaysBetween (startDate record) (endDate record)).

Definition storeInSync (st : Store) : Prop :=
  Forall computedFieldsInSync (rawData st).

(** No two stored records share a [clientId]. *)
Definition uniqueClientIds (st : Store) : Prop :=
  NoDup (map clientId (rawData st)).

(** An operation that is not an [addRecord] of a [clientId] already stored. *)
Definition addsFreshId (op : StoreOp) (st : Store) : Prop :=
  match op with
  | OpAddRecord newRecord => clientId newRecord ∉ map clientId (rawData st)
  | _ => True
  end.

(** The states reached when every [addRecord] brings a new [clientId]. *)
Inductive reachableFreshAdds : Store -> Prop :=
| reachableFreshAdds_initial : reachableFreshAdds initialStore
| reachableFreshAdds_step op st :
    reachableFreshAdds st -> addsFreshId op st ->
    reachableFreshAdds (runOp op st).

End Predicates.

(** The index a generated [clientId] ends with: what follows the second
    underscore, read as a decimal number. *)
Fixpoint afterUnderscore (s : string) : string :=
  match s with
  | EmptyString => EmptyString
  | String c s' => if Ascii.eqb c "_" then s' else afterUnderscore s'
  end.

Definition indexOfClientId (id : string) : option nat :=
  option_map Nat.of_uint
    (NilEmpty.uint_of_string (afterUnderscore (afterUnderscore id))).

(** ** Predicates on the filtered view *)

Section FilterPredicates.
Context `{Host}.

(** The value of [field] contains one of [values], whatever the case of the
    letters; [stringify] turns the value of the field into a string. *)
Definition acceptedBy (stringify : Js.Value -> string) (field : string)
    (values : list string) (record : DiscountRecord) : Prop :=
  exists v pre post,
    v ∈ values
    /\ toLowerCase (stringify (getField record field))
       = pre +:+ toLowerCase v +:+ post.

(** The record passes every filter that is active (an entry that holds a
    list of values that is not empty). *)
Definition passesFilters (stringify : Js.Value -> string)
    (filters : gmap string (option (list string))) (record : DiscountRecord)
  : Prop :=
  forall field values,
    filters !! field = Some (Some values) -> values <> [] ->
    acceptedBy stringify field values record.

(** What one entry of the filters asks of a record. *)
Definition entryAccepts (record : DiscountRecord)
    (entry : string * option (list string)) : bool :=
  match entry.2 with
  | Some (v :: vs) => matchesSome entry.1 (v :: vs) record
  | Some [] | None => true
  end.

End FilterPredicates.

(** ** Predicates on the bulk operation engine *)

(** A computation that returns and touches neither the caller nor the
    record of calls. *)
Definition quiet (W : Type) (c : @Bulk.M W unit) : Prop :=
  forall m : @Bulk.Machine W,
    exists m' : @Bulk.Machine W,
      c m = (inr tt, m')
      /\ Bulk.world m' = Bulk.world m /\ Bulk.calls m' = Bulk.calls m.

(** The caller's state after its callback was given, in order, the merged
    record of each selected record. *)
Fixpoint worldAfterUpdates {W : Type} (cb : @Bulk.Callback W DiscountRecord)
    (updateData : BulkUpdateData) (records : list DiscountRecord) (w : W) : W :=
  match records with
  | [] => w
  | record :: rest =>
      worldAfterUpdates cb updateData rest
        (cb (Bulk.applyUpdate record updateData) w).2
  end.

(** The patch [{ discountPercent: 50 }]. *)
Definition percentOnly (p : Z) : BulkUpdateData :=
  {| BulkUpdate.discountName := None;
     BulkUpdate.discountPercent := Some p;
     BulkUpdate.startDate := None;
     BulkUpdate.endDate := None |}.

(** [record] with [percent] replaced. *)
Definition withPercent (record : DiscountRecord) (p : Z) : DiscountRecord :=
  {| clientId := clientId record; client := client record;
     platform := platform record; region := region record;
     discount := discount record; startDate := startDate record;
     startTime := startTime record; endDate := endDate record;
     endTime := endTime record; percent := p; deadline := deadline record;
     implementationStatus := implementationStatus record;
     salesEventStatus := salesEventStatus record;
     comments := comments record; month := month record;
     length := length record |}.

Section ValidationPredicates.
Context `{Host}.

(** The end date is a date after the start date. *)
Definition strictlyFollows (endDate startDate : string) : Prop :=
  exists ts te : Z,
    JsDate.parse startDate = Some ts /\ JsDate.parse endDate = Some te
    /\ ts < te.

(** The patch is valid as the specification words it (a field is present
    when it is given and not empty). *)
Definition validAsSpecified (updateData : BulkUpdateData) : Prop :=
  (forall p, BulkUpdate.discountPercent updateData = Some p -> 0 <= p <= 100)
  /\ (forall s, Bulk.truthyString (BulkUpdate.startDate updateData) = Some s ->
        JsDate.matchesDatePattern s = true)
  /\ (forall e, Bulk.truthyString (BulkUpdate.endDate updateData) = Some e ->
        JsDate.matchesDatePattern e = true)
  /\ (forall s e,
        Bulk.truthyString (BulkUpdate.startDate updateData) = Some s ->
        Bulk.truthyString (BulkUpdate.endDate updateData) = Some e ->
        strictlyFollows e s).

(** The patch is valid as the code decides it: the order of the dates is
    looked at only when both are dates. *)
Definition validAsChecked (updateData : BulkUpdateData) : Prop :=
  (forall p, BulkUpdate.discountPercent updateData = Some p -> 0 <= p <= 100)
  /\ (forall s, Bulk.truthyString (BulkUpdate.startDate updateData) = Some s ->
        JsDate.matchesDatePattern s = true)
  /\ (forall e, Bulk.truthyString (BulkUpdate.endDate updateData) = Some e ->
        JsDate.matchesDatePattern e = true)
  /\ (forall s e ts te,
        Bulk.truthyString (BulkUpdate.startDate updateData) = Some s ->
        Bulk.truthyString (BulkUpdate.endDate updateData) = Some e ->
        JsDate.parse s = Some ts -> JsDate.parse e = Some te ->
        ts < te).

End ValidationPredicates.

(** ** Predicates on the CSV reader *)

(** A text without comma, double quote and line feed. *)
Definition isPlain (s : string) : bool :=
  negb (Js.includesUnit s Csv.comma || Js.includesUnit s Csv.dquote
        || Js.includesUnit s Csv.newline).

(** The reader at the end of a field. *)
Definition afterField (cells : list string) (rows : list (list string))
    (rest : string) : option (list (list string)) :=
  match rest with
  | EmptyString => Some (rev (rev cells :: rows))
  | String c rest' =>
      if Ascii.eqb c Csv.comma then Csv.read Csv.Plain "" cells rows rest'
      else if Ascii.eqb c Csv.newline then
        Csv.read Csv.Plain "" [] (rev cells :: rows) rest'
      else None
  end.

(** The input goes on with the end of a field: it is over, or a comma or a
    line feed comes next. *)
Definition fieldEnd (rest : string) : Prop :=
  match rest with
  | EmptyString => True
  | String c _ => Ascii.eqb c Csv.comma = true \/ Ascii.eqb c Csv.newline = true
  end.

(** The reader reads [text] as one field of value [v]. *)
Definition readsAs (text v : string) : Prop :=
  forall row rows rest,
    fieldEnd rest ->
    Csv.read Csv.Plain "" row rows (text +:+ rest)
    = afterField (v :: row) rows rest.

(** ** Calendar helpers *)

(** The day before the first day of a month. *)
Definition lastDayBefore (y m : Z) : Z * Z * Z :=
  if m =? 1 then (y - 1, 12, 31)
  else (y, m - 1, JsDate.daysInMonth y (m - 1)).

(** ** Hosts and sample data *)

(** What every object inherits on the sample hosts: the functions of
    [Object.prototype], each with the text of a native function. *)
Definition objectPrototype (name : string) : Js.Value :=
  if existsb (String.eqb name)
       ["constructor"; "toString"; "toLocaleString"; "valueOf";
        "hasOwnProperty"; "isPrototypeOf"; "propertyIsEnumerable"]
  then Js.VObject ("function " +:+ (if String.eqb name "constructor"
                                    then "Object" else name)
                   +:+ "() { [native code] }")
  else if String.eqb name "__proto__" then Js.VObject "[object Object]"
  else Js.VUndefined.

(** [toLowerCase] on the sample hosts: the letters A-Z and the capital
    letters of the Latin-1 supplement (U+00C0 to U+00DE but the
    multiplication sign U+00D7; in UTF-8 the unit 195 and a unit from 128 to
    158) are folded, every other unit is kept. *)
Fixpoint foldLatin (s : string) : string :=
  match s with
  | EmptyString => EmptyString
  | String c s' =>
      if (N_of_ascii c =? 195)%N then
        match s' with
        | String d s'' =>
            let n := N_of_ascii d in
            if ((128 <=? n) && (n <=? 158) && negb (n =? 151))%N
            then String c (String (ascii_of_N (n + 32)) (foldLatin s''))
            else String c (foldLatin s')
        | EmptyString => String c EmptyString
        end
      else String (Js.lowerUnit c) (foldLatin s')
  end.

Definition foldLatin_ascii (s : string) :
  Js.isAscii s = true -> foldLatin s = Js.foldAscii s.
Proof.
  induction s as [|c s IH]; [reflexivity|].
  cbn [Js.isAscii foldLatin Js.foldAscii]. intros Hascii.
  apply andb_prop in Hascii as [Hc Hs]. apply N.ltb_lt in Hc.
  replace (N_of_ascii c =? 195)%N with false
    by (symmetry; apply N.eqb_neq; lia).
  rewrite (IH Hs). reflexivity.
Qed.

(** A host in the time zone UTC that knows no date format beyond the
    calendar date. *)
Definition utcHost : Host :=
  {| LocalTZA := fun _ => 0;
     hostDateParse := fun _ => None;
     roundPercent := fun a b => (200 * a + b) / (2 * b);
     toLowerCase := foldLatin;
     toLowerCase_ascii := foldLatin_ascii;
     inheritedProperty := objectPrototype |}.

(** The same host five hours west of UTC. *)
Definition westHost : Host :=
  {| LocalTZA := fun _ => -18000000;
     hostDateParse := fun _ => None;
     roundPercent := fun a b => (200 * a + b) / (2 * b);
     toLowerCase := foldLatin;
     toLowerCase_ascii := foldLatin_ascii;
     inheritedProperty := objectPrototype |}.

(** A record with [clientId] X and [percent] 0. *)
Definition recordX : DiscountRecord :=
  {| clientId := "X"; client := "SEGA"; platform := GOG; region := EUROPE;
     discount := "Summer Sale"; startDate := "2024-05-01";
     startTime := "09:00"; endDate := "2024-05-10"; endTime := "18:00";
     percent := 0; deadline := "2024-04-20";
     implementationStatus := IMPL_PENDING; salesEventStatus := SALES_PLANNED;
     comments := ""; month := None; length := None |}.

(** The store after [addRecord(recordX)] and
    [updateFilter('percent', ['0'])]. *)
Definition percentZeroStore : Store :=
  @runOp utcHost (OpUpdateFilter "percent" (Some ["0"]))
    (@runOp utcHost (OpAddRecord recordX) initialStore).

(** A record that starts and ends on the same day. *)
Definition recordZ : DiscountRecord :=
  {| clientId := "Z"; client := "Konami"; platform := XBOX;
     region := NORTH_AMERICA; discount := "Flash Sale";
     startDate := "2024-05-10"; startTime := "09:00";
     endDate := "2024-05-10"; endTime := "21:00"; percent := 20;
     deadline := "2024-05-03"; implementationStatus := IMPL_COMPLETED;
     salesEventStatus := SALES_ACTIVE; comments := ""; month := None;
     length := None |}.

(** The store after [addRecord(recordZ)] and
    [updateFilter('length', ['0'])]. *)
Definition lengthZeroStore : Store :=
  @runOp utcHost (OpUpdateFilter "length" (Some ["0"]))
    (@runOp utcHost (OpAddRecord recordZ) initialStore).

(** The callback of a caller that keeps the records it is given. *)
Definition keepRecord : @Bulk.Callback (list DiscountRecord) DiscountRecord :=
  fun record w => (None, record :: w).

Definition freshMachine : @Bulk.Machine (list DiscountRecord) :=
  {| Bulk.engine := Bulk.initialState; Bulk.world := []; Bulk.calls := [] |}.

(** An oracle whose every draw is the same. *)
Definition constantDraw : Draw :=
  {| now := 1715299200000; startPick := 0; endDaysPick := 0;
     platformPick := 0; regionPick := 0; clientPick := 6;
     implementationPick := 0; salesPick := 0; templatePick := 0;
     genrePick := 0; namePercentPick := 0; nameWithGenre := false;
     nameWithPercent := false; startHourPick := 0; startMinutePick := 0;
     endHourPick := 0; endMinutePick := 0; percentPick := 0;
     deadlineDaysPick := 0; commentPick := 0 |}.

Definition constantOracle : Oracle := fun _ => inr constantDraw.

(** An oracle under which generation fails at the first record. *)
Definition failingOracle : Oracle :=
  fun _ => inl (Js.ErrorObject "Invalid array length").

(** A patch whose start date matches the pattern and is no date. *)
Definition month13Patch : BulkUpdateData :=
  {| BulkUpdate.discountName := None;
     BulkUpdate.discountPercent := None;
     BulkUpdate.startDate := Some "2024-13-01";
     BulkUpdate.endDate := Some "2024-01-01" |}.

(** ** types/discount.ts and composables/useGridConfig.ts: the regions
    offered by the editor *)

Definition PLATFORM_REGION_CONSTRAINTS (platform : Platform) : list Region :=
  match platform with
  | STEAM => [GLOBAL; NORTH_AMERICA; EUROPE; ASIA_PACIFIC]
  | EPIC => [GLOBAL]
  | GOG => [GLOBAL; NORTH_AMERICA; EUROPE]
  | XBOX => [GLOBAL; NORTH_AMERICA; EUROPE; ASIA_PACIFIC]
  | PLAYSTATION => [GLOBAL; NORTH_AMERICA; EUROPE; ASIA_PACIFIC]
  | NINTENDO => [GLOBAL; NORTH_AMERICA; EUROPE; ASIA_PACIFIC]
  | MOBILE =>
      [GLOBAL; NORTH_AMERICA; EUROPE; ASIA_PACIFIC; LATIN_AMERICA;
       MIDDLE_EAST_AFRICA]
  end.

(** [cellEditorParams] of the Region column; [None] is a row without
    platform. *)
Definition regionEditorValues (platform : option Platform) : list Region :=
  match platform with
  | Some p => PLATFORM_REGION_CONSTRAINTS p
  | None => Region_values
  end.

(** ** components/DiscountGrid.vue: validation of an edited record *)

Section GridValidation.
Context `{Host}.

Definition validateRecord (record : DiscountRecord) : bool :=
  if isEmptyString (clientId record) || isEmptyString (client record)
     || isEmptyString (Platform_value (platform record))
  then false
  else if (percent record <? 0) || (100 <? percent record) then false
  else if negb (isEmptyString (startDate record))
          && negb (isEmptyString (endDate record))
          && Bulk.dateLe (JsDate.parse (endDate record))
               (JsDate.parse (startDate record))
  then false
  else true.

End GridValidation.

(** ** components/BulkActions.vue: the engine wired to the store *)

Section BulkActions.
Context `{Host}.

(** The callbacks the component hands to the engine. *)
Definition commitUpdate : @Bulk.Callback Store DiscountRecord :=
  fun updatedRecord st => (None, updateRecord updatedRecord st).

Definition commitDelete : @Bulk.Callback Store (list string) :=
  fun clientIds st => (None, deleteRecords clientIds st).

(** [handleBulkUpdate]: the form is validated first; a failure of the
    operation is logged and goes no further. The result is the list of
    validation errors shown and the machine afterwards. *)
Definition handleBulkUpdate (selectedRows : list DiscountRecord)
    (updateForm : BulkUpdateData) (m : @Bulk.Machine Store)
  : list string * @Bulk.Machine Store :=
  let errors := Bulk.validateBulkUpdateData updateForm in
  if (0 <? List.length errors)%nat then (errors, m)
  else ([], (Bulk.bulkUpdate selectedRows updateForm commitUpdate m).2).

(** [handleBulkDelete]; [confirmed] is the answer to the dialog. *)
Definition handleBulkDelete (confirmed : bool)
    (selectedRows : list DiscountRecord) (m : @Bulk.Machine Store)
  : @Bulk.Machine Store :=
  if negb confirmed then m
  else (Bulk.bulkDelete selectedRows commitDelete m).2.

End BulkActions.

(** [resultClass]: how the last result is shown. *)
Definition resultClass (st : Bulk.State) : string :=
  match Bulk.lastOperationResult st with
  | None => ""
  | Some result =>
      if isEmptyString result then ""
      else if Js.includes result "Error" then "error" else "success"
  end.

(** ** components/FilterPanel.vue *)

(** [activeFilters]: the entries that hold a list of values that is not
    empty. *)
Definition activeFilters (st : Store) : gmap string (list string) :=
  omap (fun values =>
          match values with
          | Some (v :: vs) => Some (v :: vs)
          | Some [] | None => None
          end)
    (filters st).

(** ** Predicates and sample data of the further properties *)

(** Every entry of the filters holds a list of values that is not empty. *)
Definition filtersWellFormed (st : Store) : Prop :=
  forall field values,
    filters st !! field = Some values ->
    exists v vs, values = Some (v :: vs).

Section OutcomePredicates.
Context `{Host}.

(** What a bulk update makes of a stored record: the last selected row with
    its [clientId], merged with the form and recomputed; the record itself
    when no row with its [clientId] was selected. *)
Definition afterBulkUpdate (selectedRows : list DiscountRecord)
    (updateForm : BulkUpdateData) (old : DiscountRecord) : DiscountRecord :=
  match List.find (fun row => String.eqb (clientId row) (clientId old))
          (rev selectedRows) with
  | Some row => withComputedFields (Bulk.applyUpdate row updateForm)
  | None => old
  end.

(** Local time in the years 1000 to 9999, which [formatDate] writes with
    four digits. *)
Definition fourDigitYear (t : Z) : Prop :=
  -30610224000000 <= t + LocalTZA t < 253402300800000.

End OutcomePredicates.

(** A text of [k] digits that reads as [z]. *)
Definition digitsOf (k : nat) (z : Z) (s : string) : bool :=
  (String.length s =? k)%nat && JsDate.allDigits s
  && (JsDate.numberOfDigits s =? z).

(** A record with [clientId] Y and [percent] 10. *)
Definition recordY : DiscountRecord :=
  {| clientId := "Y"; client := "Capcom"; platform := EPIC; region := GLOBAL;
     discount := "Black Friday"; startDate := "2024-11-25";
     startTime := "08:00"; endDate := "2024-12-02"; endTime := "20:00";
     percent := 10; deadline := "2024-11-11";
     implementationStatus := IMPL_COMPLETED; salesEventStatus := SALES_ACTIVE;
     comments := "Approved by management"; month := None; length := None |}.

(** The patch [{ discountName: 'Winter Sale' }]. *)
Definition renameOnly : BulkUpdateData :=
  {| BulkUpdate.discountName := Some "Winter Sale";
     BulkUpdate.discountPercent := None;
     BulkUpdate.startDate := None;
     BulkUpdate.endDate := None |}.

(** A patch with a percent out of range. *)
Definition percent150Patch : BulkUpdateData := percentOnly 150.

(** A callback that refuses a record whose [percent] is 0 and keeps the
    others. *)
Definition keepUnlessFree : @Bulk.Callback (list DiscountRecord) DiscountRecord :=
  fun record w =>
    if percent record =? 0
    then (Some (Js.ErrorObject "Nothing to discount"), w)
    else (None, record :: w).

(** A download that always succeeds. *)
Definition saveFile : @Bulk.Callback (list DiscountRecord) (string * string) :=
  fun _ w => (None, w).

(** The engine at rest on the store that holds [recordX]. *)
Definition storeMachine : @Bulk.Machine Store :=
  {| Bulk.engine := Bulk.initialState; Bulk.world := percentZeroStore;
     Bulk.calls := [] |}.

(** * Properties *)

Example toLowerCase_ex : @toLowerCase utcHost "Epic Games" = "epic games".
Proof. reflexivity. Qed.

Example toLowerCase_latin_ex : @toLowerCase utcHost "CAFÉ" = "café".
Proof. reflexivity. Qed.

(** A filter on a name every object inherits reads the inherited property,
    and letters beyond ASCII are matched case apart. *)
Example matchesSome_ex :
  @matchesSome utcHost "constructor" ["Object"] recordX = true
  /\ @matchesSome utcHost "discount" ["SALE"] recordX = true
  /\ @matchesSome utcHost "comments" ["café"]
       {| clientId := "C"; client := "SEGA"; platform := GOG;
          region := EUROPE; discount := "Summer Sale";
          startDate := "2024-05-01"; startTime := "09:00";
          endDate := "2024-05-10"; endTime := "18:00"; percent := 15;
          deadline := "2024-04-20"; implementationStatus := IMPL_PENDING;
          salesEventStatus := SALES_PLANNED; comments := "Launch at the CAFÉ";
          month := None; length := None |} = true
  /\ @matchesSome utcHost "unknown" ["x"] recordX = false.
Proof. repeat split; reflexivity. Qed.

Example includes_ex : Js.includes "north america" "amer" = true.
Proof. reflexivity. Qed.

Example String_of_number_ex : Js.String_of_number 50 = "50" /\ Js.String_of_number 0 = "0".
Proof. split; reflexivity. Qed.

Example padStart_ex : Js.padStart0 6 (Js.String_of_nat 42) = "000042".
Proof. reflexivity. Qed.

Example makeDay_ex : JsDate.makeDay 1970 1 1 = 0 /\ JsDate.makeDay 2024 5 10 = 19853 /\ JsDate.makeDay 2000 3 1 = 11017.
Proof. repeat split; reflexivity. Qed.

Example civil_ex : JsDate.civilFromDays 19853 = (2024, 5, 10) /\ JsDate.civilFromDays 0 = (1970,1,1) /\ JsDate.civilFromDays (-1) = (1969,12,31) /\ JsDate.civilFromDays 11016 = (2000, 2, 29).
Proof. repeat split; reflexivity. Qed.

Example parse_ex : @JsDate.parse utcHost "2024-05-10" = Some 1715299200000.
Proof. reflexivity. Qed.

Example month_ex : @getMonthName utcHost "2024-05-10" = "May" /\ @getMonthName utcHost "2024-02-31" = "" /\ @getMonthName utcHost "" = "".
Proof. repeat split; reflexivity. Qed.

Example convertToCSV_empty : @Csv.convertToCSV utcHost [] = "".
Proof. reflexivity. Qed.

Example days_ex : @calculateDaysBetween utcHost "2024-05-01" "2024-05-10" = 9 /\ @calculateDaysBetween utcHost "2024-05-10" "2024-05-01" = 0 .
Proof. split; reflexivity. Qed.

Example escape_ex : Csv.escapeCSVValue "a,b" = String Csv.dquote ("a,b" +:+ String Csv.dquote "") /\ Csv.escapeCSVValue "plain" = "plain".
Proof. split; reflexivity. Qed.

Example parse_csv_ex : Csv.parseCSV ("a,b" +:+ String Csv.newline "" +:+ String Csv.dquote ("x,y" +:+ String Csv.dquote ",z")) = Some [["a";"b"];["x,y";"z"]].
Proof. reflexivity. Qed.

(** ** The record store: computed fields *)

Section StoreProperties.
Context `{Host}.

Lemma withComputedFields_inSync record :
  computedFieldsInSync (withComputedFields record).
Proof. split; reflexivity. Qed.

Lemma withComputedFields_clientId record :
  clientId (withComputedFields record) = clientId record.
Proof. reflexivity. Qed.

Lemma Forall_List_filter {A : Type} (P : A -> Prop) (f : A -> bool) (l : list A) :
  Forall P l -> Forall P (List.filter f l).
Proof.
  induction 1 as [|x l Hx Hl IH]; simpl; [constructor|].
  destruct (f x); [constructor|]; assumption.
Qed.

Lemma generate_cases (oracle : Oracle) (count : Z) :
  (if count <=? 5000 then generateTestData oracle count
   else generateMockData oracle count) = generateMockData oracle count.
Proof. destruct (count <=? 5000); reflexivity. Qed.

Lemma loadData_inSync oracle count st :
  storeInSync st -> storeInSync (loadData oracle count st).
Proof.
  intros Hst. unfold storeInSync, loadData. rewrite generate_cases.
  destruct (generateMockData oracle count) as [e|data]; simpl; [exact Hst|].
  apply Forall_fmap, Forall_true. intros r. apply withComputedFields_inSync.
Qed.

Lemma updateRecord_inSync r st :
  storeInSync st -> storeInSync (updateRecord r st).
Proof.
  intros Hst. unfold storeInSync, updateRecord.
  destruct (findIndex (clientId r) (rawData st)); simpl; [|exact Hst].
  apply Forall_insert; [exact Hst | apply withComputedFields_inSync].
Qed.

Lemma addRecord_inSync r st :
  storeInSync st -> storeInSync (addRecord r st).
Proof.
  intros Hst. unfold storeInSync, addRecord; simpl.
  apply Forall_app; split; [exact Hst|].
  constructor; [apply withComputedFields_inSync | constructor].
Qed.

Lemma deleteRecord_inSync id st :
  storeInSync st -> storeInSync (deleteRecord id st).
Proof.
  intros Hst. unfold storeInSync, deleteRecord.
  destruct (findIndex id (rawData st)); simpl; [|exact Hst].
  apply Forall_delete, Hst.
Qed.

Lemma deleteRecords_inSync ids st :
  storeInSync st -> storeInSync (deleteRecords ids st).
Proof. intros Hst. apply Forall_List_filter, Hst. Qed.

Lemma runOp_inSync op st : storeInSync st -> storeInSync (runOp op st).
Proof.
  destruct op; simpl; intros Hst.
  - apply loadData_inSync, Hst.
  - destruct values as [[|v vs]|]; exact Hst.
  - exact Hst.
  - apply updateRecord_inSync, Hst.
  - apply deleteRecord_inSync, Hst.
  - apply deleteRecords_inSync, Hst.
  - apply addRecord_inSync, Hst.
Qed.

(** C3. In every state the store can reach, each stored record has
    [month = getMonthName(startDate)] and
    [length = calculateDaysBetween(startDate, endDate)], and every operation
    of the store (loadData, updateRecord, addRecord, deleteRecord,
    deleteRecords, and the two filter operations) leads to a state where that
    holds again: a record enters the store only through
    [withComputedFields]. *)
Theorem computed_fields_never_drift (st : Store) :
  reachable st ->
  storeInSync st /\ forall op : StoreOp, storeInSync (runOp op st).
Proof.
  intros Hreach.
  assert (Hsync : storeInSync st).
  { induction Hreach as [|op st Hreach IH].
    - constructor.
    - apply runOp_inSync, IH. }
  split; [exact Hsync|]. intros op. apply runOp_inSync, Hsync.
Qed.

(** C5. When generation throws during [loadData(count)], the store ends with
    the failure message in [error] (the message of the [Error] thrown, or
    the fixed text for another thrown value), [isLoading] cleared and
    [rawData] as it was before the call. *)
Theorem loadData_failure_keeps_records (oracle : Oracle) (count : Z)
    (st : Store) (err : Js.Thrown) :
  generateMockData oracle count = inl err ->
  error (loadData oracle count st)
    = Some (Js.messageOr "Failed to load data" err)
  /\ isLoading (loadData oracle count st) = false
  /\ rawData (loadData oracle count st) = rawData st.
Proof.
  intros Hgen. unfold loadData. rewrite generate_cases, Hgen. simpl.
  repeat split; reflexivity.
Qed.

End StoreProperties.

(** ** The record store: uniqueness of [clientId] *)

Lemma afterUnderscore_upperLettersOnly (client rest : string) :
  afterUnderscore (upperLettersOnly client +:+ "_" +:+ rest) = rest.
Proof.
  induction client as [|c client IH]; simpl; [reflexivity|].
  destruct (isUpper c) eqn:Hc; [|exact IH].
  simpl. destruct (Ascii.eqb c "_") eqn:Hu; [|exact IH].
  apply Ascii.eqb_eq in Hu. subst c. discriminate Hc.
Qed.

Lemma uint_of_string_zeros (k : nat) (s : string) (d : Decimal.uint) :
  NilEmpty.uint_of_string s = Some d ->
  exists d', NilEmpty.uint_of_string (Js.zeros k +:+ s) = Some d'
             /\ Nat.of_uint d' = Nat.of_uint d.
Proof.
  intros Hs. induction k as [|k [d' [Hd' Heq]]]; simpl.
  - exists d. split; [exact Hs | reflexivity].
  - exists (Decimal.D0 d'). rewrite Hd'. split; [reflexivity | exact Heq].
Qed.

Lemma indexOfClientId_makeClientId (client : string) (index : nat) :
  indexOfClientId (makeClientId client index) = Some index.
Proof.
  unfold indexOfClientId, makeClientId.
  change (afterUnderscore ("ORG_" +:+ ?x)) with x.
  rewrite afterUnderscore_upperLettersOnly.
  unfold Js.padStart0, Js.String_of_nat.
  destruct (uint_of_string_zeros
              (6 - String.length (NilEmpty.string_of_uint (Nat.to_uint index)))
              _ _ (NilEmpty.usu (Nat.to_uint index))) as [d' [Hd' Heq]].
  rewrite Hd'. simpl. rewrite Heq. f_equal. apply DecimalNat.Unsigned.of_to.
Qed.

Section UniqueClientIds.
Context `{Host}.

Lemma generateFrom_indices oracle i n records :
  generateFrom oracle i n = inr records ->
  map indexOfClientId (map clientId records) = map Some (seq i n).
Proof.
  revert i records. induction n as [|n IH]; simpl; intros i records Hgen.
  - injection Hgen as <-. reflexivity.
  - destruct (oracle i) as [e|d]; [discriminate|].
    destruct (generateFrom oracle (S i) n) as [e|rest] eqn:Hrest; [discriminate|].
    injection Hgen as <-. simpl.
    rewrite indexOfClientId_makeClientId. f_equal. apply IH, Hrest.
Qed.

Lemma generateMockData_unique oracle count records :
  generateMockData oracle count = inr records ->
  NoDup (map clientId records).
Proof.
  intros Hgen. apply generateFrom_indices in Hgen.
  apply (NoDup_fmap_1 indexOfClientId).
  change (NoDup (map indexOfClientId (map clientId records))).
  rewrite Hgen. apply (NoDup_fmap_2 Some), NoDup_seq.
Qed.

Lemma map_clientId_withComputedFields records :
  map clientId (map withComputedFields records) = map clientId records.
Proof. induction records as [|r rs IH]; simpl; [|rewrite IH]; reflexivity. Qed.

Lemma loadData_unique oracle count st :
  uniqueClientIds st -> uniqueClientIds (loadData oracle count st).
Proof.
  intros Hst. unfold uniqueClientIds, loadData. rewrite generate_cases.
  destruct (generateMockData oracle count) as [e|data] eqn:Hgen; simpl;
    [exact Hst|].
  rewrite map_clientId_withComputedFields.
  eapply generateMockData_unique, Hgen.
Qed.

Lemma findIndex_lookup id records index :
  findIndex id records = Some index ->
  map clientId records !! index = Some id.
Proof.
  revert index. induction records as [|r rs IH]; simpl; intros index Hfind;
    [discriminate|].
  destruct (String.eqb (clientId r) id) eqn:Heq.
  - injection Hfind as <-. apply String.eqb_eq in Heq. simpl. congruence.
  - destruct (findIndex id rs) as [j|]; [|discriminate].
    injection Hfind as <-. simpl. apply IH. reflexivity.
Qed.

Lemma updateRecord_clientIds r st :
  map clientId (rawData (updateRecord r st)) = map clientId (rawData st).
Proof.
  unfold updateRecord.
  destruct (findIndex (clientId r) (rawData st)) as [index|] eqn:Hfind;
    [|reflexivity].
  simpl. change (clientId <$> <[index := withComputedFields r]> (rawData st)
                 = clientId <$> rawData st).
  rewrite list_fmap_insert. apply list_insert_id.
  apply findIndex_lookup, Hfind.
Qed.

Lemma deleteRecord_unique id st :
  uniqueClientIds st -> uniqueClientIds (deleteRecord id st).
Proof.
  intros Hst. unfold uniqueClientIds, deleteRecord.
  destruct (findIndex id (rawData st)) as [index|]; [|exact Hst]. simpl.
  change (NoDup (clientId <$> delete index (rawData st))).
  rewrite list_fmap_delete.
  eapply sublist_NoDup; [exact Hst | apply sublist_delete].
Qed.

Lemma NoDup_map_List_filter {A B : Type} (f : A -> B) (p : A -> bool) (l : list A) :
  NoDup (map f l) -> NoDup (map f (List.filter p l)).
Proof.
  induction l as [|x l IH]; simpl; intros Hnd; [constructor|].
  apply NoDup_cons in Hnd as [Hx Hl].
  destruct (p x); simpl; [|apply IH, Hl].
  apply NoDup_cons. split; [|apply IH, Hl].
  intros Hin. apply Hx.
  apply list_elem_of_fmap in Hin as [y [-> Hy]].
  apply list_elem_of_fmap. exists y. split; [reflexivity|].
  apply list_elem_of_In. apply list_elem_of_In in Hy.
  apply filter_In in Hy. tauto.
Qed.

Lemma deleteRecords_unique ids st :
  uniqueClientIds st -> uniqueClientIds (deleteRecords ids st).
Proof. intros Hst. apply NoDup_map_List_filter, Hst. Qed.

Lemma addRecord_unique_iff r st :
  uniqueClientIds st ->
  uniqueClientIds (addRecord r st)
  <-> clientId r ∉ map clientId (rawData st).
Proof.
  intros Hst. unfold uniqueClientIds, addRecord. simpl.
  rewrite map_app. simpl. rewrite NoDup_app. split.
  - intros (_ & Hdisj & _) Hin. apply (Hdisj _ Hin). constructor.
  - intros Hfresh. split; [exact Hst|]. split.
    + intros x Hx Hx'. apply list_elem_of_singleton in Hx'. subst x.
      apply Hfresh, Hx.
    + apply NoDup_singleton.
Qed.

Lemma runOp_unique op st :
  uniqueClientIds st -> addsFreshId op st -> uniqueClientIds (runOp op st).
Proof.
  intros Hst Hfresh. destruct op; simpl in *.
  - apply loadData_unique, Hst.
  - destruct values as [[|v vs]|]; exact Hst.
  - exact Hst.
  - unfold uniqueClientIds. rewrite updateRecord_clientIds. exact Hst.
  - apply deleteRecord_unique, Hst.
  - apply deleteRecords_unique, Hst.
  - apply addRecord_unique_iff; assumption.
Qed.

(** C4, as the code has it. [loadData] establishes uniqueness of [clientId]
    whatever the store held (the generated id ends with the record's index);
    in every state reached by operations whose [addRecord]s each bring a
    [clientId] not yet stored, [clientId] is unique, and [loadData],
    [updateRecord], [deleteRecord] and [deleteRecords] keep it so;
    [addRecord] makes no check: it keeps uniqueness exactly when the new
    [clientId] is not stored yet. *)
Theorem clientId_unique_when_adds_are_fresh (st : Store) :
  reachableFreshAdds st ->
  uniqueClientIds st
  /\ (forall st0 oracle count data,
        generateMockData oracle count = inr data ->
        uniqueClientIds (loadData oracle count st0))
  /\ (forall oracle count, uniqueClientIds (loadData oracle count st))
  /\ (forall r, uniqueClientIds (updateRecord r st))
  /\ (forall id, uniqueClientIds (deleteRecord id st))
  /\ (forall ids, uniqueClientIds (deleteRecords ids st))
  /\ (forall r, uniqueClientIds (addRecord r st)
                <-> clientId r ∉ map clientId (rawData st)).
Proof.
  intros Hreach.
  assert (Hst : uniqueClientIds st).
  { induction Hreach as [|op st Hreach IH Hfresh].
    - constructor.
    - apply runOp_unique; assumption. }
  split; [exact Hst|]. split.
  { intros st0 oracle count data Hgen.
    unfold uniqueClientIds, loadData. rewrite generate_cases, Hgen. simpl.
    rewrite map_clientId_withComputedFields.
    eapply generateMockData_unique, Hgen. }
  split; [intros; apply loadData_unique, Hst|].
  split; [intros r; apply (runOp_unique (OpUpdateRecord r)); [exact Hst|exact I]|].
  split; [intros; apply deleteRecord_unique, Hst|].
  split; [intros; apply deleteRecords_unique, Hst|].
  intros r. apply addRecord_unique_iff, Hst.
Qed.

End UniqueClientIds.

(** ** The bulk operation engine *)

Section EngineProperties.
Context `{Host} {W : Type}.

Local Abbreviation Machine := (@Bulk.Machine W).
Local Abbreviation M := (@Bulk.M W).

Lemma quiet_ret : quiet W (Bulk.ret tt).
Proof. intros m. exists m. repeat split. Qed.

Lemma quiet_setOperationProgress p : quiet W (Bulk.setOperationProgress p).
Proof. intros m. eexists. repeat split. Qed.

Lemma quiet_bind (c1 c2 : M unit) :
  quiet W c1 -> quiet W c2 -> quiet W (Bulk.bind c1 (fun _ => c2)).
Proof.
  intros H1 H2 m. destruct (H1 m) as (m1 & E1 & Hw1 & Hc1).
  destruct (H2 m1) as (m2 & E2 & Hw2 & Hc2).
  exists m2. unfold Bulk.bind. rewrite E1. split; [exact E2|].
  split; congruence.
Qed.

Lemma quiet_forEach {A : Type} (items : list A) (body : A -> M unit) :
  (forall a, quiet W (body a)) -> quiet W (Bulk.forEach items body).
Proof.
  intros Hbody. induction items as [|a items IH]; simpl.
  - apply quiet_ret.
  - apply quiet_bind; [apply Hbody | exact IH].
Qed.

Lemma quiet_deleteTick (total i : nat) :
  quiet W (Bulk.bind
           (Bulk.setOperationProgress
              (roundPercent (Z.of_nat (Nat.min i total)) (Z.of_nat total)))
           (fun _ => if (i <? total)%nat then Bulk.yield else Bulk.ret tt)).
Proof.
  apply quiet_bind; [apply quiet_setOperationProgress|].
  destruct (i <? total)%nat; apply quiet_ret.
Qed.

(** C2. [bulkUpdate([recordA], { discountPercent: 50 }, cb)], with a [cb]
    that returns: [cb] is called exactly once, with the record that equals
    [recordA] in every field but [percent], which is 50; the operation
    resolves; [operationProgress] is 0 afterwards and [lastOperationResult]
    holds a text that contains "Successfully updated 1". *)
Theorem bulkUpdate_one_record_percent (recordA : DiscountRecord)
    (cb : Bulk.Callback DiscountRecord) (m : Machine) (w' : W) :
  cb (withPercent recordA 50) (Bulk.world m) = (None, w') ->
  exists m' : Machine,
    Bulk.bulkUpdate [recordA] (percentOnly 50) cb m = (inr tt, m')
    /\ Bulk.calls m' = Bulk.calls m ++ [Bulk.CallOnUpdate (withPercent recordA 50)]
    /\ Bulk.world m' = w'
    /\ Bulk.operationProgress (Bulk.engine m') = 0
    /\ Bulk.isProcessing (Bulk.engine m') = false
    /\ Bulk.lastOperationResult (Bulk.engine m')
       = Some "Successfully updated 1 records"
    /\ Js.includes "Successfully updated 1 records" "Successfully updated 1"
       = true.
Proof.
  intros Hcb. eexists.
  unfold Bulk.bulkUpdate, Bulk.tryCatchFinally, Bulk.bind. simpl.
  unfold Bulk.invoke, Bulk.bind. simpl.
  change (Bulk.applyUpdate recordA (percentOnly 50)) with (withPercent recordA 50).
  rewrite Hcb. simpl.
  repeat split; reflexivity.
Qed.

(** The same call with a [cb] that throws: [cb] was still called once, the
    failure is passed on, the indicator is reset and the result names the
    error. *)
Lemma bulkUpdate_one_record_cb_throws (recordA : DiscountRecord)
    (cb : Bulk.Callback DiscountRecord) (m : Machine) (w' : W)
    (err : Js.Thrown) :
  cb (withPercent recordA 50) (Bulk.world m) = (Some err, w') ->
  exists m' : Machine,
    Bulk.bulkUpdate [recordA] (percentOnly 50) cb m = (inl err, m')
    /\ Bulk.calls m' = Bulk.calls m ++ [Bulk.CallOnUpdate (withPercent recordA 50)]
    /\ Bulk.operationProgress (Bulk.engine m') = 0
    /\ Bulk.isProcessing (Bulk.engine m') = false
    /\ Bulk.lastOperationResult (Bulk.engine m')
       = Some ("Error during bulk update: "
               +:+ Js.messageOr "Unknown error occurred" err).
Proof.
  intros Hcb. eexists.
  unfold Bulk.bulkUpdate, Bulk.tryCatchFinally, Bulk.bind. simpl.
  unfold Bulk.invoke, Bulk.bind. simpl.
  change (Bulk.applyUpdate recordA (percentOnly 50)) with (withPercent recordA 50).
  rewrite Hcb. simpl.
  repeat split; reflexivity.
Qed.

Lemma quiet_setIsProcessing b : quiet W (Bulk.setIsProcessing b).
Proof. intros m. eexists. repeat split. Qed.

Lemma quiet_setLastOperationResult r : quiet W (Bulk.setLastOperationResult r).
Proof. intros m. eexists. repeat split. Qed.

Lemma quiet_then {A : Type} (c1 : M unit) (k : unit -> M A) (m : Machine) :
  quiet W c1 ->
  exists m1 : Machine,
    Bulk.bind c1 k m = k tt m1
    /\ Bulk.world m1 = Bulk.world m /\ Bulk.calls m1 = Bulk.calls m.
Proof.
  intros Hq. destruct (Hq m) as (m1 & E1 & Hw & Hc).
  exists m1. unfold Bulk.bind. rewrite E1. auto.
Qed.

(** Run the first step of the computation in the goal, which is quiet. *)
Ltac run_quiet :=
  match goal with
  | |- context [Bulk.bind ?c ?k ?m] =>
      let m1 := fresh "m" in
      let Hw := fresh "Hw" in
      let Hc := fresh "Hc" in
      let Hq := fresh "Hq" in
      assert (Hq : quiet W c)
        by first
             [ apply quiet_setIsProcessing
             | apply quiet_setOperationProgress
             | apply quiet_setLastOperationResult
             | apply quiet_forEach; intros ?; apply quiet_deleteTick
             | destruct (_ =? _)%nat; apply quiet_ret ];
      destruct (quiet_then c k m Hq) as (m1 & -> & Hw & Hc);
      clear Hq; cbv beta
  end.

Lemma updateLoop_cons (updateData : BulkUpdateData)
    (cb : Bulk.Callback DiscountRecord) (total : nat)
    (record : DiscountRecord) (rest : list DiscountRecord) (processed : nat) :
  Bulk.updateLoop updateData cb total (record :: rest) processed
  = Bulk.bind
      (Bulk.invoke Bulk.CallOnUpdate cb (Bulk.applyUpdate record updateData))
      (fun _ =>
         Bulk.bind
           (Bulk.setOperationProgress (W:=W)
              (roundPercent (Z.of_nat (S processed)) (Z.of_nat total)))
           (fun _ =>
              Bulk.bind
                (if (S processed mod 100 =? 0)%nat then Bulk.yield (W:=W)
                 else Bulk.ret tt)
                (fun _ =>
                   Bulk.updateLoop updateData cb total rest (S processed)))).
Proof. reflexivity. Qed.

(** With a callback that never throws, the loop of [bulkUpdate] calls it on
    the merged record of every selected record, in order, and counts them. *)
Lemma updateLoop_all (updateData : BulkUpdateData)
    (cb : Bulk.Callback DiscountRecord) (total : nat) :
  (forall record w, (cb record w).1 = None) ->
  forall (records : list DiscountRecord) (processed : nat) (m : Machine),
    exists m' : Machine,
      Bulk.updateLoop updateData cb total records processed m
      = (inr (processed + List.length records)%nat, m')
      /\ Bulk.calls m'
         = Bulk.calls m
           ++ map (fun record =>
                     Bulk.CallOnUpdate (Bulk.applyUpdate record updateData))
                records
      /\ Bulk.world m' = worldAfterUpdates cb updateData records (Bulk.world m).
Proof.
  intros Hcb records. induction records as [|record rest IH]; intros processed m.
  - exists m. simpl. rewrite Nat.add_0_r, app_nil_r. repeat split.
  - rewrite updateLoop_cons. unfold Bulk.bind at 1. unfold Bulk.invoke.
    pose proof (Hcb (Bulk.applyUpdate record updateData) (Bulk.world m)) as Hnone.
    destruct (cb (Bulk.applyUpdate record updateData) (Bulk.world m))
      as [outcome w1] eqn:Hcall.
    simpl in Hnone. subst outcome. cbv beta iota zeta.
    run_quiet. run_quiet.
    destruct (IH (S processed) m1) as (m' & E & Hc' & Hw').
    exists m'. rewrite E. split; [do 2 f_equal; simpl; lia|].
    split.
    + rewrite Hc', Hc0, Hc. simpl. rewrite <- app_assoc. reflexivity.
    + rewrite Hw', Hw0, Hw. simpl. rewrite Hcall. reflexivity.
Qed.

(** [bulkUpdate] on a selection that is not empty, with a callback that never
    throws: one call per record, in order, with the merged record; then the
    indicator is reset and the result counts the records. *)
Lemma bulkUpdate_all_records (record : DiscountRecord)
    (rest : list DiscountRecord) (updateData : BulkUpdateData)
    (cb : Bulk.Callback DiscountRecord) (m : Machine) :
  (forall r w, (cb r w).1 = None) ->
  exists m' : Machine,
    Bulk.bulkUpdate (record :: rest) updateData cb m = (inr tt, m')
    /\ Bulk.calls m'
       = Bulk.calls m
         ++ map (fun r => Bulk.CallOnUpdate (Bulk.applyUpdate r updateData))
              (record :: rest)
    /\ Bulk.world m'
       = worldAfterUpdates cb updateData (record :: rest) (Bulk.world m)
    /\ Bulk.operationProgress (Bulk.engine m') = 0
    /\ Bulk.isProcessing (Bulk.engine m') = false
    /\ Bulk.lastOperationResult (Bulk.engine m')
       = Some ("Successfully updated "
               +:+ Js.String_of_nat (S (List.length rest)) +:+ " records").
Proof.
  intros Hcb. unfold Bulk.bulkUpdate.
  change (List.length (record :: rest) =? 0)%nat with false. cbv iota.
  run_quiet. run_quiet. run_quiet.
  unfold Bulk.tryCatchFinally, Bulk.bind at 1. cbv zeta.
  match goal with
  | |- context [Bulk.updateLoop ?u ?c ?t ?rs ?p ?m0] =>
      destruct (updateLoop_all u c t Hcb rs p m0) as (m3 & E & Hc3 & Hw3)
  end.
  rewrite E. eexists. split; [reflexivity|]. simpl.
  split; [rewrite Hc3, Hc1, Hc0, Hc; reflexivity|].
  split; [rewrite Hw3, Hw1, Hw0, Hw; reflexivity|]. repeat split.
Qed.

(** What a [try] leaves in the record of calls is what its body leaves,
    when the handler only writes a result and rethrows and the finalizer
    only resets the indicator. *)
Lemma tryCatchFinally_calls {A : Type} (body : M A) (report : Js.Thrown -> string)
    (m : Machine) :
  Bulk.calls
    (Bulk.tryCatchFinally body
       (fun error =>
          Bulk.bind (Bulk.setLastOperationResult (Some (report error)))
            (fun _ => Bulk.throw error))
       (Bulk.bind (Bulk.setIsProcessing false)
          (fun _ => Bulk.setOperationProgress 0)) m).2
  = Bulk.calls (body m).2.
Proof.
  unfold Bulk.tryCatchFinally.
  destruct (body m) as [[e|a] m1]; reflexivity.
Qed.

Lemma bulkDelete_calls (record : DiscountRecord) (rest : list DiscountRecord)
    (onDelete : Bulk.Callback (list string)) (m : Machine) :
  Bulk.calls (Bulk.bulkDelete (record :: rest) onDelete m).2
  = Bulk.calls m ++ [Bulk.CallOnDelete (map clientId (record :: rest))].
Proof.
  unfold Bulk.bulkDelete.
  change (List.length (record :: rest) =? 0)%nat with false. cbv iota.
  run_quiet. run_quiet. run_quiet.
  rewrite (tryCatchFinally_calls _
             (fun error => "Error during bulk delete: "
                           +:+ Js.messageOr "Unknown error occurred" error)).
  cbv zeta. run_quiet.
  unfold Bulk.bind, Bulk.invoke.
  destruct (onDelete (map clientId (record :: rest)) (Bulk.world m3))
    as [[err|] w1]; simpl; congruence.
Qed.

(** What [bulkDelete] does with its callback on a selection that is not
    empty: one call, on the caller's state as it was, whose outcome is the
    outcome of the operation. *)
Lemma bulkDelete_invokes (record : DiscountRecord) (rest : list DiscountRecord)
    (onDelete : Bulk.Callback (list string)) (m : Machine) :
  let clientIds := map clientId (record :: rest) in
  let run := Bulk.bulkDelete (record :: rest) onDelete m in
  Bulk.calls run.2 = Bulk.calls m ++ [Bulk.CallOnDelete clientIds]
  /\ Bulk.world run.2 = (onDelete clientIds (Bulk.world m)).2
  /\ run.1 = match (onDelete clientIds (Bulk.world m)).1 with
             | Some err => inl err
             | None => inr tt
             end.
Proof.
  intros clientIds run. subst run. unfold Bulk.bulkDelete.
  change (List.length (record :: rest) =? 0)%nat with false. cbv iota.
  run_quiet. run_quiet. run_quiet.
  unfold Bulk.tryCatchFinally. cbv zeta. run_quiet.
  unfold Bulk.bind, Bulk.invoke. fold clientIds.
  rewrite Hw2, Hw1, Hw0, Hw.
  destruct (onDelete clientIds (Bulk.world m)) as [[err|] w1]; simpl;
    rewrite Hc2, Hc1, Hc0, Hc; repeat split.
Qed.

(** C6. On an empty selection [bulkDelete], [bulkUpdate] and [exportToCSV]
    reject with their error while the machine is as it was: no callback
    was called and [isProcessing], [operationProgress] and
    [lastOperationResult] were not written. On a selection that is not empty
    [bulkDelete] invokes its callback exactly once, with the list of the
    [clientId]s of the selected records — so with the one-element list of
    its [clientId] for a single record: the record of calls grows by that one
    call, the caller's state afterwards is what the callback made of the
    state as it was, and the operation resolves when the callback returns
    and rejects with what the callback throws. *)
Theorem empty_selection_rejects_and_bulkDelete_calls_once :
  (forall (cb : Bulk.Callback (list string)) (m : Machine),
     Bulk.bulkDelete [] cb m
     = (inl (Js.ErrorObject "No records selected for deletion"), m))
  /\ (forall updateData (cb : Bulk.Callback DiscountRecord) (m : Machine),
        Bulk.bulkUpdate [] updateData cb m
        = (inl (Js.ErrorObject "No records selected for bulk update"), m))
  /\ (forall (save : Bulk.Callback (string * string)) isoNow filename
             (m : Machine),
        Bulk.exportToCSV save isoNow [] filename m
        = (inl (Js.ErrorObject "No records to export"), m))
  /\ (forall record rest (cb : Bulk.Callback (list string)) (m : Machine),
        let clientIds := map clientId (record :: rest) in
        let run := Bulk.bulkDelete (record :: rest) cb m in
        Bulk.calls run.2 = Bulk.calls m ++ [Bulk.CallOnDelete clientIds]
        /\ Bulk.world run.2 = (cb clientIds (Bulk.world m)).2
        /\ run.1 = match (cb clientIds (Bulk.world m)).1 with
                   | Some err => inl err
                   | None => inr tt
                   end)
  /\ (forall record (cb : Bulk.Callback (list string)) (m : Machine),
        let run := Bulk.bulkDelete [record] cb m in
        Bulk.calls run.2
        = Bulk.calls m ++ [Bulk.CallOnDelete [clientId record]]
        /\ Bulk.world run.2 = (cb [clientId record] (Bulk.world m)).2
        /\ run.1 = match (cb [clientId record] (Bulk.world m)).1 with
                   | Some err => inl err
                   | None => inr tt
                   end).
Proof.
  split; [reflexivity|]. split; [reflexivity|]. split; [reflexivity|].
  split; [apply bulkDelete_invokes|].
  intros record cb m. apply (bulkDelete_invokes record []).
Qed.

End EngineProperties.

(** ** Validation of a bulk update *)

Section ValidationProperties.
Context `{Host}.

Lemma snoc_not_nil {A : Type} (l : list A) (x : A) : l ++ [x] <> [].
Proof. destruct l; discriminate. Qed.

Lemma dateLe_false_iff (a b : option Z) :
  Bulk.dateLe a b = false
  <-> forall x y, a = Some x -> b = Some y -> y < x.
Proof.
  destruct a as [x|], b as [y|]; simpl.
  - rewrite Z.leb_gt. split.
    + intros Hlt ? ? [= <-] [= <-]. exact Hlt.
    + intros Hall. apply Hall; reflexivity.
  - split; [intros _ ? ? _ [=] | reflexivity].
  - split; [intros _ ? ? [=] | reflexivity].
  - split; [intros _ ? ? [=] | reflexivity].
Qed.

(** The four checks, one after the other. *)
Lemma validateBulkUpdateData_checks (updateData : BulkUpdateData) :
  Bulk.validateBulkUpdateData updateData
  = match BulkUpdate.discountPercent updateData with
    | Some p =>
        if (p <? 0) || (100 <? p)
        then ["Discount percent must be between 0 and 100"] else []
    | None => []
    end
    ++ match Bulk.truthyString (BulkUpdate.startDate updateData) with
       | Some s =>
           if JsDate.matchesDatePattern s then []
           else ["Start date must be in YYYY-MM-DD format"]
       | None => []
       end
    ++ match Bulk.truthyString (BulkUpdate.endDate updateData) with
       | Some e =>
           if JsDate.matchesDatePattern e then []
           else ["End date must be in YYYY-MM-DD format"]
       | None => []
       end
    ++ match Bulk.truthyString (BulkUpdate.startDate updateData),
             Bulk.truthyString (BulkUpdate.endDate updateData) with
       | Some s, Some e =>
           if Bulk.dateLe (JsDate.parse e) (JsDate.parse s)
           then ["End date must be after start date"] else []
       | _, _ => []
       end.
Proof.
  unfold Bulk.validateBulkUpdateData.
  destruct (BulkUpdate.discountPercent updateData) as [p|];
    [destruct ((p <? 0) || (100 <? p))|];
    (destruct (Bulk.truthyString (BulkUpdate.startDate updateData)) as [s|];
     [destruct (JsDate.matchesDatePattern s)|]);
    (destruct (Bulk.truthyString (BulkUpdate.endDate updateData)) as [e|];
     [destruct (JsDate.matchesDatePattern e)|]);
    simpl;
    try destruct (Bulk.dateLe (JsDate.parse e) (JsDate.parse s));
    reflexivity.
Qed.

(** C7, as the code has it. [validateBulkUpdateData(patch)] returns the
    empty list exactly when: [discountPercent], if given, lies in [0, 100];
    [startDate] and [endDate], if given and not empty, match the pattern
    yyyy-mm-dd; and, if both are given, not empty and both are dates, the end
    date is after the start date. For the patch with start 2024-05-10 and end
    2024-05-01 it returns the end-before-start message. *)
Theorem validateBulkUpdateData_empty_iff (updateData : BulkUpdateData) :
  (Bulk.validateBulkUpdateData updateData = [] <-> validAsChecked updateData)
  /\ Bulk.validateBulkUpdateData
       {| BulkUpdate.discountName := None;
          BulkUpdate.discountPercent := None;
          BulkUpdate.startDate := Some "2024-05-10";
          BulkUpdate.endDate := Some "2024-05-01" |}
     = ["End date must be after start date"].
Proof.
  split; [|reflexivity].
  rewrite validateBulkUpdateData_checks. unfold validAsChecked.
  rewrite !app_nil. split.
  - intros (H1 & H2 & H3 & H4). repeat split.
    + destruct (BulkUpdate.discountPercent updateData) as [q|]; [|discriminate].
      injection H0 as ->.
      destruct (p <? 0) eqn:Hlt; [discriminate|]. apply Z.ltb_ge, Hlt.
    + destruct (BulkUpdate.discountPercent updateData) as [q|]; [|discriminate].
      injection H0 as ->.
      destruct (100 <? p) eqn:Hgt;
        [rewrite orb_true_r in H1; discriminate|]. apply Z.ltb_ge, Hgt.
    + intros s Hs. rewrite Hs in H2.
      destruct (JsDate.matchesDatePattern s); [reflexivity | discriminate].
    + intros e He. rewrite He in H3.
      destruct (JsDate.matchesDatePattern e); [reflexivity | discriminate].
    + intros s e ts te Hs He Hps Hpe. rewrite Hs, He, Hps, Hpe in H4.
      simpl in H4. destruct (te <=? ts) eqn:Hle; [discriminate|].
      apply Z.leb_gt, Hle.
  - intros (Hpct & Hsd & Hed & Hord). repeat split.
    + destruct (BulkUpdate.discountPercent updateData) as [p|]; [|reflexivity].
      specialize (Hpct p eq_refl).
      destruct (p <? 0) eqn:Hlt; [apply Z.ltb_lt in Hlt; lia|].
      destruct (100 <? p) eqn:Hgt; [apply Z.ltb_lt in Hgt; lia|]. reflexivity.
    + destruct (Bulk.truthyString (BulkUpdate.startDate updateData)) as [s|];
        [|reflexivity].
      rewrite (Hsd s eq_refl). reflexivity.
    + destruct (Bulk.truthyString (BulkUpdate.endDate updateData)) as [e|];
        [|reflexivity].
      rewrite (Hed e eq_refl). reflexivity.
    + destruct (Bulk.truthyString (BulkUpdate.startDate updateData)) as [s|];
        [|reflexivity].
      destruct (Bulk.truthyString (BulkUpdate.endDate updateData)) as [e|];
        [|reflexivity].
      destruct (JsDate.parse e) as [te|] eqn:Hpe; [|reflexivity].
      destruct (JsDate.parse s) as [ts|] eqn:Hps; [|reflexivity].
      specialize (Hord s e ts te eq_refl eq_refl Hps Hpe).
      simpl. destruct (te <=? ts) eqn:Hle; [apply Z.leb_le in Hle; lia|].
      reflexivity.
Qed.

End ValidationProperties.

(** ** The filtered view *)

Lemma startsWith_spec (s p : string) :
  Js.startsWith s p = true <-> exists post, s = p +:+ post.
Proof.
  revert s. induction p as [|a p IH]; intros s; simpl.
  - split; [intros _; exists s; reflexivity | reflexivity].
  - destruct s as [|b s].
    + split; [discriminate | intros [post Hpost]; discriminate].
    + rewrite andb_true_iff, Ascii.eqb_eq, IH. split.
      * intros [-> [post ->]]. exists post. reflexivity.
      * intros [post [= -> ->]]. split; [reflexivity | exists post; reflexivity].
Qed.

(** [s.includes(sub)] is true exactly when [sub] is a substring of [s]. *)
Lemma includes_spec (s sub : string) :
  Js.includes s sub = true
  <-> exists pre post, s = pre +:+ sub +:+ post.
Proof.
  induction s as [|c s IH]; simpl.
  - rewrite orb_false_r, startsWith_spec. split.
    + intros [post Hpost]. exists "", post. exact Hpost.
    + intros [pre [post Hs]]. destruct pre; [|discriminate].
      exists post. exact Hs.
  - rewrite orb_true_iff, startsWith_spec, IH. split.
    + intros [[post Hpost]|[pre [post Hs]]].
      * exists "", post. exact Hpost.
      * exists (String c pre), post. simpl. rewrite Hs. reflexivity.
    + intros [pre [post Hs]]. destruct pre as [|c' pre].
      * left. exists post. exact Hs.
      * right. simpl in Hs. injection Hs as _ Hs. exists pre, post. exact Hs.
Qed.

Lemma List_filter_true {A : Type} (l : list A) :
  List.filter (fun _ => true) l = l.
Proof. induction l as [|x l IH]; simpl; [|rewrite IH]; reflexivity. Qed.

Lemma List_filter_filter {A : Type} (p q : A -> bool) (l : list A) :
  List.filter q (List.filter p l) = List.filter (fun x => p x && q x) l.
Proof.
  induction l as [|x l IH]; simpl; [reflexivity|].
  destruct (p x); simpl; [destruct (q x)|]; rewrite IH; reflexivity.
Qed.

Section FilteredView.
Context `{Host}.

Lemma applyFilter_filter (result : list DiscountRecord)
    (entry : string * option (list string)) :
  applyFilter result entry
  = List.filter (fun record => entryAccepts record entry) result.
Proof.
  unfold applyFilter, entryAccepts.
  destruct entry.2 as [[|v vs]|]; auto using List_filter_true.
Qed.

Lemma foldl_applyFilter (entries : list (string * option (list string)))
    (result : list DiscountRecord) :
  foldl applyFilter result entries
  = List.filter (fun record => forallb (entryAccepts record) entries) result.
Proof.
  revert result. induction entries as [|entry entries IH]; intros result; simpl.
  - symmetry. apply List_filter_true.
  - rewrite IH, applyFilter_filter, List_filter_filter. reflexivity.
Qed.

Lemma filteredData_filter (st : Store) :
  filteredData st
  = List.filter
      (fun record => forallb (entryAccepts record) (map_to_list (filters st)))
      (rawData st).
Proof.
  unfold filteredData. destruct (decide (map_to_list (filters st) = [])) as [E|_].
  - rewrite E. symmetry. apply List_filter_true.
  - apply foldl_applyFilter.
Qed.

(** The order in which the entries are visited does not matter, so the
    view does not depend on the order of [Object.entries]. *)
Lemma filteredData_any_order (st : Store)
    (entries : list (string * option (list string))) :
  entries ≡ₚ map_to_list (filters st) ->
  foldl applyFilter (rawData st) entries = filteredData st.
Proof.
  intros Hperm. rewrite foldl_applyFilter, filteredData_filter.
  apply filter_ext. intros record. apply Bool.eq_iff_eq_true.
  rewrite !forallb_forall. split; intros Hall entry Hin; apply Hall.
  - apply list_elem_of_In. rewrite Hperm. apply list_elem_of_In, Hin.
  - apply list_elem_of_In. rewrite <- Hperm. apply list_elem_of_In, Hin.
Qed.

Lemma matchesSome_spec field values record :
  matchesSome field values record = true
  <-> acceptedBy Js.stringOrEmpty field values record.
Proof.
  unfold matchesSome, acceptedBy. rewrite existsb_exists. split.
  - intros [v [Hin Hinc]]. apply includes_spec in Hinc as [pre [post Hs]].
    exists v, pre, post. split; [apply list_elem_of_In, Hin | exact Hs].
  - intros (v & pre & post & Hin & Hs). exists v.
    split; [apply list_elem_of_In, Hin|]. apply includes_spec. eauto.
Qed.

Lemma entries_accept_spec (fs : gmap string (option (list string))) record :
  forallb (entryAccepts record) (map_to_list fs) = true
  <-> passesFilters Js.stringOrEmpty fs record.
Proof.
  rewrite forallb_forall. unfold passesFilters. split.
  - intros Hall field values Hlook Hne.
    apply matchesSome_spec.
    specialize (Hall (field, Some values)). unfold entryAccepts in Hall.
    cbn [fst snd] in Hall. destruct values as [|v vs]; [congruence|].
    apply Hall, list_elem_of_In, elem_of_map_to_list, Hlook.
  - intros Hall [field ov] Hin.
    apply list_elem_of_In, elem_of_map_to_list in Hin.
    unfold entryAccepts. cbn [fst snd]. destruct ov as [[|v vs]|]; try reflexivity.
    apply matchesSome_spec, Hall; [exact Hin | discriminate].
Qed.

Lemma List_filter_all {A : Type} (p : A -> bool) (l : list A) :
  (forall x, p x = true) -> List.filter p l = l.
Proof.
  intros Hall. induction l as [|x l IH]; simpl; [reflexivity|].
  rewrite Hall, IH. reflexivity.
Qed.

(** The filtered view as the code has it. With no filter entry, and more
    generally with no active filter, it is the raw collection itself. In
    general it is the raw collection, in its order, restricted to the records
    that pass every active filter: for each field with accepted values, the
    field's value, turned into a string by [String(value || '')] (so that a
    missing value, an empty string and the number 0 all give the empty
    string), contains one of the accepted values, letter case apart. *)
Lemma filteredData_spec (st : Store) :
  (filters st = ∅ -> filteredData st = rawData st)
  /\ ((forall field values,
         filters st !! field = Some (Some values) -> values = []) ->
      filteredData st = rawData st)
  /\ exists keep : DiscountRecord -> bool,
       filteredData st = List.filter keep (rawData st)
       /\ forall record,
            keep record = true
            <-> passesFilters Js.stringOrEmpty (filters st) record.
Proof.
  split; [|split].
  - intros Hempty. unfold filteredData. rewrite Hempty, map_to_list_empty.
    reflexivity.
  - intros Hinactive. rewrite filteredData_filter. apply List_filter_all.
    intros record. apply entries_accept_spec.
    intros field values Hlook Hne. destruct (Hne (Hinactive _ _ Hlook)).
  - exists (fun record =>
              forallb (entryAccepts record) (map_to_list (filters st))).
    split; [apply filteredData_filter|].
    intros record. apply entries_accept_spec.
Qed.

End FilteredView.

(** ** Filter options: [getUniqueValues] *)

Section UniqueValues.
Context `{Host}.

Lemma isEmptyString_true (s : string) : isEmptyString s = true <-> s = "".
Proof. destruct s; simpl; split; congruence. Qed.

Lemma elem_of_setAdd (x value : string) (values : list string) :
  x ∈ setAdd value values <-> x = value \/ x ∈ values.
Proof.
  unfold setAdd. destruct (decide (value ∈ values)) as [Hin|Hnotin].
  - split; [auto | intros [->|Hx]; assumption].
  - rewrite elem_of_app, list_elem_of_singleton. tauto.
Qed.

(** What the loop of [getUniqueValues] has collected. *)
Lemma elem_of_collected (field x : string) (records : list DiscountRecord)
    (values : list string) :
  x ∈ foldl (collectValue field) values records
  <-> x ∈ values
      \/ (x <> "" /\ exists record,
            record ∈ records /\ uniqueValueOf field record = x).
Proof.
  revert values. induction records as [|r records IH]; intros values; simpl.
  - split; [auto | intros [Hx|(_ & r & Hr & _)]; [exact Hx | inversion Hr]].
  - rewrite IH. unfold collectValue.
    destruct (isEmptyString (uniqueValueOf field r)) eqn:Hv.
    + apply isEmptyString_true in Hv. split.
      * intros [Hx|(Hne & r' & Hr' & Hval)]; [auto|].
        right. split; [exact Hne|]. exists r'. split; [right|]; assumption.
      * intros [Hx|(Hne & r' & Hr' & Hval)]; [auto|].
        apply elem_of_cons in Hr' as [->|Hr']; [congruence|].
        right. split; [exact Hne|]. exists r'. split; assumption.
    + assert (Hne : uniqueValueOf field r <> "").
      { intros E. apply isEmptyString_true in E. congruence. }
      rewrite elem_of_setAdd. split.
      * intros [[->|Hx]|(Hnx & r' & Hr' & Hval)]; [|auto|].
        -- right. split; [exact Hne|]. exists r. split; [left|reflexivity].
        -- right. split; [exact Hnx|]. exists r'. split; [right|]; assumption.
      * intros [Hx|(Hnx & r' & Hr' & Hval)]; [auto|].
        apply elem_of_cons in Hr' as [->|Hr']; [left; left; congruence|].
        right. split; [exact Hnx|]. exists r'. split; assumption.
Qed.

Lemma elem_of_getUniqueValues (field x : string) (st : Store) :
  x ∈ getUniqueValues field st
  <-> x <> "" /\ exists record,
        record ∈ rawData st /\ uniqueValueOf field record = x.
Proof.
  unfold getUniqueValues. rewrite merge_sort_Permutation, elem_of_collected.
  split; [intros [Hx|Hx]; [inversion Hx | exact Hx] | auto].
Qed.

Lemma collectValue_skips (field : string) (record : DiscountRecord)
    (values : list string) :
  uniqueValueOf field record = "" -> collectValue field values record = values.
Proof. intros Hv. unfold collectValue. rewrite Hv. reflexivity. Qed.

Lemma getUniqueValues_skips (field : string) (st : Store)
    (before after : list DiscountRecord) (record : DiscountRecord) :
  uniqueValueOf field record = "" ->
  getUniqueValues field (setRawData st (before ++ record :: after))
  = getUniqueValues field (setRawData st (before ++ after)).
Proof.
  intros Hv. unfold getUniqueValues. simpl. rewrite !foldl_app. simpl.
  rewrite collectValue_skips by exact Hv. reflexivity.
Qed.

Lemma uniqueValueOf_plain (field : string) (record : DiscountRecord) :
  field <> "month" -> field <> "length" ->
  uniqueValueOf field record = Js.stringOrEmpty (getField record field).
Proof.
  intros Hm Hl. unfold uniqueValueOf.
  apply String.eqb_neq in Hm, Hl. rewrite Hm, Hl. reflexivity.
Qed.

(** C10. [getUniqueValues(field)] never lists the empty string. For a field
    that is not computed, a record whose value is the empty string or the
    number 0 adds nothing: the result is what it is without that record — so
    for a record with empty [comments] under 'comments' and for a record with
    [percent] 0 under 'percent'. Under 'length', a record whose dates are
    zero days apart puts "0" into the result. *)
Theorem getUniqueValues_drops_empty_and_zero (field : string) (st : Store) :
  ("" ∉ getUniqueValues field st)
  /\ (forall before record after,
        field <> "month" -> field <> "length" ->
        (getField record field = Js.VString ""
         \/ getField record field = Js.VNumber 0) ->
        getUniqueValues field (setRawData st (before ++ record :: after))
        = getUniqueValues field (setRawData st (before ++ after)))
  /\ (forall before record after,
        comments record = "" ->
        getUniqueValues "comments" (setRawData st (before ++ record :: after))
        = getUniqueValues "comments" (setRawData st (before ++ after)))
  /\ (forall before record after,
        percent record = 0 ->
        getUniqueValues "percent" (setRawData st (before ++ record :: after))
        = getUniqueValues "percent" (setRawData st (before ++ after)))
  /\ (forall record,
        record ∈ rawData st ->
        calculateDaysBetween (startDate record) (endDate record) = 0 ->
        "0" ∈ getUniqueValues "length" st).
Proof.
  split.
  { intros Hin. apply elem_of_getUniqueValues in Hin as [Hne _].
    apply Hne. reflexivity. }
  split.
  { intros before record after Hm Hl Hval. apply getUniqueValues_skips.
    rewrite uniqueValueOf_plain by assumption.
    destruct Hval as [-> | ->]; reflexivity. }
  split.
  { intros before record after Hc. apply getUniqueValues_skips.
    unfold uniqueValueOf. simpl. unfold getField. simpl. exact Hc. }
  split.
  { intros before record after Hp. apply getUniqueValues_skips.
    unfold uniqueValueOf. simpl. unfold getField. simpl. rewrite Hp.
    reflexivity. }
  intros record Hin Hzero. apply elem_of_getUniqueValues.
  split; [discriminate|]. exists record. split; [exact Hin|].
  unfold uniqueValueOf. simpl. rewrite Hzero. reflexivity.
Qed.

End UniqueValues.

(** ** The number 0 under a filter *)

Section ZeroUnderFilter.
Context `{Host}.

(** C1. The filtered view does not do what the claim says on the number 0.
    Take a stored record whose value in a field is the number 0 (a [percent]
    of 0, a computed [length] of 0) and the filter that accepts "0" on that
    field. The stringified value, "0", contains the accepted value, letter
    case apart, so the claim keeps the record; the code reads the value with
    [String(value || '')], finds the empty string, and leaves the record
    out. For [length] the store itself offers "0" as a filter option
    ([getUniqueValues] stringifies the computed length without the
    fallback), an option that then shows no record. *)
Theorem filteredData_drops_number_zero (st : Store) (field : string)
    (record : DiscountRecord) :
  record ∈ rawData st ->
  getField record field = Js.VNumber 0 ->
  filters st !! field = Some (Some ["0"]) ->
  acceptedBy Js.toString field ["0"] record
  /\ (record ∉ filteredData st)
  /\ (field = "length" ->
      calculateDaysBetween (startDate record) (endDate record) = 0 ->
      "0" ∈ getUniqueValues "length" st).
Proof.
  intros Hrec Hzero Hfilter. split; [|split].
  - exists "0", "", "". split; [left|]. rewrite Hzero.
    change (Js.toString (Js.VNumber 0)) with "0".
    rewrite toLowerCase_ascii by reflexivity. reflexivity.
  - intros Hin. rewrite filteredData_filter in Hin.
    apply list_elem_of_In, filter_In in Hin as [_ Hall].
    rewrite forallb_forall in Hall.
    specialize (Hall (field, Some ["0"])).
    unfold entryAccepts, matchesSome in Hall. cbn [fst snd existsb] in Hall.
    rewrite Hzero in Hall.
    change (Js.stringOrEmpty (Js.VNumber 0)) with "" in Hall.
    rewrite !toLowerCase_ascii in Hall by reflexivity.
    discriminate Hall.
    apply list_elem_of_In, elem_of_map_to_list, Hfilter.
  - intros -> Hdays. apply elem_of_getUniqueValues.
    split; [discriminate|]. exists record. split; [exact Hrec|].
    unfold uniqueValueOf. simpl. rewrite Hdays. reflexivity.
Qed.

End ZeroUnderFilter.

(** ** CSV export and its reader *)

Lemma append_cons (c : ascii) (s t : string) :
  String c s +:+ t = String c (s +:+ t).
Proof. reflexivity. Qed.

Lemma append_nil_r (s : string) : s +:+ "" = s.
Proof. induction s as [|c s IH]; [reflexivity|]. rewrite append_cons, IH. reflexivity. Qed.

Lemma append_assoc (s t u : string) : (s +:+ t) +:+ u = s +:+ (t +:+ u).
Proof.
  induction s as [|c s IH]; [reflexivity|]. rewrite !append_cons, IH. reflexivity.
Qed.

Lemma isPlain_cons (c : ascii) (s : string) :
  isPlain (String c s) = true ->
  Ascii.eqb c Csv.comma = false /\ Ascii.eqb c Csv.dquote = false
  /\ Ascii.eqb c Csv.newline = false /\ isPlain s = true.
Proof.
  unfold isPlain. simpl. rewrite !negb_true_iff, !orb_false_iff. tauto.
Qed.

Lemma read_plain_text (v acc : string) row rows rest :
  isPlain v = true ->
  Csv.read Csv.Plain acc row rows (v +:+ rest)
  = Csv.read Csv.Plain (acc +:+ v) row rows rest.
Proof.
  revert acc. induction v as [|c v IH]; intros acc Hplain.
  - rewrite append_nil_r. reflexivity.
  - apply isPlain_cons in Hplain as (Hc & Hq & Hn & Hv).
    rewrite append_cons. simpl. rewrite Hc, Hn, Hq.
    rewrite IH by exact Hv. rewrite append_assoc. reflexivity.
Qed.

Lemma read_plain_end (v : string) row rows rest :
  fieldEnd rest ->
  Csv.read Csv.Plain v row rows rest = afterField (v :: row) rows rest.
Proof.
  destruct rest as [|c rest]; simpl; [reflexivity|].
  intros [Hc|Hn]; [rewrite Hc; reflexivity|].
  rewrite Hn. destruct (Ascii.eqb c Csv.comma); reflexivity.
Qed.

Lemma read_quoteSeen_end (v : string) row rows rest :
  fieldEnd rest ->
  Csv.read Csv.QuoteSeen v row rows rest = afterField (v :: row) rows rest.
Proof.
  destruct rest as [|c rest]; simpl; [reflexivity|].
  intros [Hc|Hn].
  - apply Ascii.eqb_eq in Hc. subst c. reflexivity.
  - apply Ascii.eqb_eq in Hn. subst c. reflexivity.
Qed.

Lemma read_quoted_text (v acc : string) row rows rest :
  Csv.read Csv.Quoted acc row rows
    (Csv.doubleQuotes v +:+ String Csv.dquote rest)
  = Csv.read Csv.QuoteSeen (acc +:+ v) row rows rest.
Proof.
  revert acc. induction v as [|c v IH]; intros acc.
  - rewrite append_nil_r. reflexivity.
  - simpl Csv.doubleQuotes. destruct (Ascii.eqb c Csv.dquote) eqn:Hq.
    + apply Ascii.eqb_eq in Hq. subst c.
      rewrite !append_cons. simpl. rewrite IH, append_assoc. reflexivity.
    + rewrite append_cons. simpl. rewrite Hq, IH, append_assoc. reflexivity.
Qed.

Lemma readsAs_plain (v : string) : isPlain v = true -> readsAs v v.
Proof.
  intros Hplain row rows rest Hend.
  rewrite read_plain_text by exact Hplain. apply read_plain_end, Hend.
Qed.

(** What [escapeCSVValue] writes is read back as the value. *)
Lemma readsAs_escapeCSVValue (v : string) : readsAs (Csv.escapeCSVValue v) v.
Proof.
  unfold Csv.escapeCSVValue.
  destruct (Js.includesUnit v Csv.comma || Js.includesUnit v Csv.dquote
            || Js.includesUnit v Csv.newline) eqn:Hspecial.
  - intros row rows rest Hend.
    rewrite append_cons, append_assoc, append_cons. simpl.
    rewrite read_quoted_text. apply read_quoteSeen_end, Hend.
  - apply readsAs_plain. unfold isPlain. rewrite Hspecial. reflexivity.
Qed.

Lemma string_of_uint_excludes (d : Decimal.uint) (c : ascii) :
  JsDate.isDigit c = false ->
  Js.includesUnit (NilEmpty.string_of_uint d) c = false.
Proof.
  intros Hc. induction d as [|d IH|d IH|d IH|d IH|d IH|d IH|d IH|d IH|d IH|d IH];
    cbn [NilEmpty.string_of_uint Js.includesUnit]; [reflexivity|..];
    rewrite IH, orb_false_r;
    (match goal with
     | |- Ascii.eqb ?a c = false =>
         destruct (Ascii.eqb_spec a c) as [<-|]; [discriminate Hc | reflexivity]
     end).
Qed.

Lemma String_of_number_excludes (z : Z) (c : ascii) :
  JsDate.isDigit c = false -> Ascii.eqb "-" c = false ->
  Js.includesUnit (Js.String_of_number z) c = false.
Proof.
  intros Hd Hm. unfold Js.String_of_number, NilEmpty.string_of_int.
  destruct (Z.to_int z) as [d|d]; cbn [Js.includesUnit].
  - apply string_of_uint_excludes, Hd.
  - rewrite Hm. apply string_of_uint_excludes, Hd.
Qed.

(** A number written by [toString()] needs no quotes. *)
Lemma isPlain_String_of_number (z : Z) : isPlain (Js.String_of_number z) = true.
Proof.
  unfold isPlain.
  rewrite !String_of_number_excludes by reflexivity. reflexivity.
Qed.

(** A line of fields joined by commas is read as its values. *)
Lemma read_joined_fields (texts values : list string) :
  Forall2 readsAs texts values -> texts <> [] ->
  forall row rows rest,
    fieldEnd rest ->
    Csv.read Csv.Plain "" row rows (Js.join "," texts +:+ rest)
    = afterField (rev values ++ row) rows rest.
Proof.
  induction 1 as [|text v texts values Hread Hrest IH]; intros Hne row rows rest Hend;
    [congruence|].
  destruct Hrest as [|text2 v2 texts values Hread2 Hrest].
  - simpl. apply Hread, Hend.
  - change (Js.join "," (text :: text2 :: texts))
      with (text +:+ "," +:+ Js.join "," (text2 :: texts)).
    rewrite !append_assoc. rewrite Hread by (left; reflexivity).
    change (afterField (v :: row) rows
              ("," +:+ Js.join "," (text2 :: texts) +:+ rest))
      with (Csv.read Csv.Plain "" (v :: row) rows
              (Js.join "," (text2 :: texts) +:+ rest)).
    rewrite IH by (discriminate || exact Hend).
    f_equal. simpl. rewrite <- !app_assoc. reflexivity.
Qed.

(** Lines joined by line feeds are read as their rows. *)
Lemma read_joined_lines (lines : list (list string))
    (valuess : list (list string)) :
  Forall2 (fun texts values => Forall2 readsAs texts values /\ texts <> [])
    lines valuess ->
  lines <> [] ->
  forall rows,
    Csv.read Csv.Plain "" [] rows
      (Js.join (String Csv.newline "") (map (Js.join ",") lines))
    = Some (rev rows ++ valuess).
Proof.
  induction 1 as [|texts values lines valuess [Hline Hne1] Hrest IH];
    intros Hne rows; [congruence|].
  destruct Hrest as [|texts2 values2 lines valuess Hline2 Hrest].
  - simpl. rewrite <- (append_nil_r (Js.join "," texts)).
    rewrite (read_joined_fields texts values Hline Hne1) by exact I.
    simpl. rewrite app_nil_r, rev_involutive. reflexivity.
  - change (Js.join (String Csv.newline "")
              (map (Js.join ",") (texts :: texts2 :: lines)))
      with (Js.join "," texts +:+ String Csv.newline ""
            +:+ Js.join (String Csv.newline "")
                  (map (Js.join ",") (texts2 :: lines))).
    rewrite (read_joined_fields texts values Hline Hne1)
      by (right; reflexivity).
    change (afterField (rev values ++ []) rows
              (String Csv.newline "" +:+ ?r))
      with (Csv.read Csv.Plain "" [] (rev (rev values ++ []) :: rows) r).
    rewrite IH by discriminate.
    rewrite app_nil_r, rev_involutive. simpl. rewrite <- app_assoc. reflexivity.
Qed.

Section CsvRoundTrip.
Context `{Host}.

Lemma csvRow_readsAs (record : DiscountRecord) :
  exists texts,
    Csv.csvRow record = Js.join "," texts
    /\ Forall2 readsAs texts (Csv.fieldValues record) /\ texts <> [].
Proof.
  eexists. split; [reflexivity|]. split; [|discriminate].
  unfold Csv.fieldValues.
  repeat first
    [ apply Forall2_nil_2
    | apply Forall2_cons; split;
      [ first [ apply readsAs_escapeCSVValue
              | apply readsAs_plain, isPlain_String_of_number ] | ] ].
Qed.

Lemma headers_readsAs : Forall2 readsAs Csv.headers Csv.headers.
Proof.
  unfold Csv.headers.
  repeat first
    [ apply Forall2_nil_2
    | apply Forall2_cons; split; [apply readsAs_plain; reflexivity|] ].
Qed.

(** C8. For every list of records that is not empty, reading the text of
    [convertToCSV] gives back the header row and, for each record in order,
    its sixteen values as they were before escaping: free text is recovered
    whatever commas, double quotes and line feeds it holds. *)
Theorem convertToCSV_round_trip (record : DiscountRecord)
    (records : list DiscountRecord) :
  Csv.parseCSV (Csv.convertToCSV (record :: records))
  = Some (Csv.headers :: map Csv.fieldValues (record :: records)).
Proof.
  unfold Csv.parseCSV, Csv.convertToCSV.
  assert (Hrows :
    exists lines,
      map Csv.csvRow (record :: records) = map (Js.join ",") lines
      /\ Forall2 (fun texts values => Forall2 readsAs texts values /\ texts <> [])
           lines (map Csv.fieldValues (record :: records))).
  { induction (record :: records) as [|r rs (lines & Hmap & Hall)].
    - exists []. split; [reflexivity | constructor].
    - destruct (csvRow_readsAs r) as (texts & Hrow & Hread & Hne).
      exists (texts :: lines). simpl. rewrite Hrow, Hmap.
      split; [reflexivity|]. constructor; [split; assumption | exact Hall]. }
  destruct Hrows as (lines & Hmap & Hall). cbv zeta. rewrite Hmap.
  change (Js.join "," Csv.headers :: map (Js.join ",") lines)
    with (map (Js.join ",") (Csv.headers :: lines)).
  rewrite (read_joined_lines (Csv.headers :: lines)
             (Csv.headers :: map Csv.fieldValues (record :: records)));
    [reflexivity | | discriminate].
  constructor; [|exact Hall].
  split; [apply headers_readsAs | discriminate].
Qed.

End CsvRoundTrip.

(** ** Concrete instances *)

Lemma percentZeroStore_reachable : @reachable utcHost percentZeroStore.
Proof. repeat constructor. Qed.

Lemma percentZeroStore_filtered : @filteredData utcHost percentZeroStore = [].
Proof. vm_compute. reflexivity. Qed.

(** The number 0 under the filter [percent: ['0']]: the stored record has
    [percent] 0, whose string "0" contains the accepted value "0", and the
    filtered view leaves the record out. *)
Lemma filteredData_misses_percent_zero :
  @withComputedFields utcHost recordX ∈ rawData percentZeroStore
  /\ @passesFilters utcHost Js.toString (filters percentZeroStore)
       (@withComputedFields utcHost recordX)
  /\ @withComputedFields utcHost recordX
     ∉ @filteredData utcHost percentZeroStore.
Proof.
  split; [left|]. split.
  - intros field values Hlook _.
    change (filters percentZeroStore)
      with (<["percent" := Some ["0"]]> (∅ : gmap string (option (list string))))
      in Hlook.
    apply lookup_insert_Some in Hlook as [[<- [= <-]]|[_ Hlook]].
    + exists "0", "", "". split; [left | reflexivity].
    + rewrite lookup_empty in Hlook. discriminate.
  - rewrite percentZeroStore_filtered. apply not_elem_of_nil.
Qed.

Lemma filteredData_drops_number_zero_witness :
  @acceptedBy utcHost Js.toString "length" ["0"]
    (@withComputedFields utcHost recordZ)
  /\ (@withComputedFields utcHost recordZ
      ∉ @filteredData utcHost lengthZeroStore)
  /\ "0" ∈ @getUniqueValues utcHost "length" lengthZeroStore.
Proof.
  destruct (@filteredData_drops_number_zero utcHost lengthZeroStore "length"
              (@withComputedFields utcHost recordZ))
    as (Haccepted & Hdropped & Hoffered).
  - left.
  - reflexivity.
  - reflexivity.
  - split; [exact Haccepted|]. split; [exact Hdropped|].
    apply Hoffered; reflexivity.
Defined.

Lemma bulkUpdate_one_record_percent_witness :
  exists m',
    @Bulk.bulkUpdate utcHost _ [recordX] (percentOnly 50) keepRecord freshMachine
    = (inr tt, m')
    /\ Bulk.calls m'
       = Bulk.calls freshMachine ++ [Bulk.CallOnUpdate (withPercent recordX 50)]
    /\ Bulk.world m' = [withPercent recordX 50]
    /\ Bulk.operationProgress (Bulk.engine m') = 0
    /\ Bulk.isProcessing (Bulk.engine m') = false
    /\ Bulk.lastOperationResult (Bulk.engine m')
       = Some "Successfully updated 1 records"
    /\ Js.includes "Successfully updated 1 records" "Successfully updated 1"
       = true.
Proof.
  apply (@bulkUpdate_one_record_percent utcHost _ recordX keepRecord
           freshMachine [withPercent recordX 50]).
  reflexivity.
Defined.

Lemma computed_fields_never_drift_witness :
  @reachable utcHost percentZeroStore
  /\ @storeInSync utcHost percentZeroStore
  /\ forall op, @storeInSync utcHost (@runOp utcHost op percentZeroStore).
Proof.
  split.
  - apply reachable_step, reachable_step, reachable_initial.
  - apply (@computed_fields_never_drift utcHost percentZeroStore).
    apply reachable_step, reachable_step, reachable_initial.
Defined.

(** C4 as worded fails: [addRecord] twice with the same record gives a
    reachable store that holds the [clientId] X twice. *)
Lemma addRecord_twice_duplicates_clientId :
  @reachable utcHost
    (@runOp utcHost (OpAddRecord recordX)
       (@runOp utcHost (OpAddRecord recordX) initialStore))
  /\ ~ uniqueClientIds
         (@runOp utcHost (OpAddRecord recordX)
            (@runOp utcHost (OpAddRecord recordX) initialStore)).
Proof.
  split; [repeat constructor|].
  unfold uniqueClientIds. simpl. intros Hnd.
  apply NoDup_cons in Hnd as [Hnotin _]. apply Hnotin. left.
Qed.

Lemma clientId_unique_when_adds_are_fresh_witness :
  @reachableFreshAdds utcHost
    (@runOp utcHost (OpLoadData constantOracle 3) initialStore)
  /\ uniqueClientIds (@runOp utcHost (OpLoadData constantOracle 3) initialStore).
Proof.
  split.
  - apply (@reachableFreshAdds_step utcHost (OpLoadData constantOracle 3));
      [apply reachableFreshAdds_initial | exact I].
  - apply (@clientId_unique_when_adds_are_fresh utcHost
             (@runOp utcHost (OpLoadData constantOracle 3) initialStore)).
    apply (@reachableFreshAdds_step utcHost (OpLoadData constantOracle 3));
      [apply reachableFreshAdds_initial | exact I].
Defined.

Lemma loadData_failure_keeps_records_witness :
  @generateMockData utcHost failingOracle 3
  = inl (Js.ErrorObject "Invalid array length")
  /\ error (@loadData utcHost failingOracle 3 percentZeroStore)
     = Some "Invalid array length"
  /\ isLoading (@loadData utcHost failingOracle 3 percentZeroStore) = false
  /\ rawData (@loadData utcHost failingOracle 3 percentZeroStore)
     = rawData percentZeroStore.
Proof.
  split; [reflexivity|].
  apply (@loadData_failure_keeps_records utcHost failingOracle 3
           percentZeroStore (Js.ErrorObject "Invalid array length")).
  reflexivity.
Defined.

(** C7 as worded fails: the patch is accepted although its end date does not
    follow its start date, which is no date at all. *)
Lemma validateBulkUpdateData_accepts_month_13 :
  @Bulk.validateBulkUpdateData utcHost month13Patch = []
  /\ ~ @validAsSpecified utcHost month13Patch.
Proof.
  split; [reflexivity|].
  intros (_ & _ & _ & Hord).
  destruct (Hord "2024-13-01" "2024-01-01" eq_refl eq_refl)
    as (ts & te & Hs & _).
  discriminate Hs.
Qed.

(** [getMonthName] gives the empty string for the empty string and for
    every string that is no date. *)
Lemma getMonthName_unparseable `{Host} (dateString : string) :
  dateString = "" \/ JsDate.parse dateString = None ->
  getMonthName dateString = "".
Proof.
  unfold getMonthName. intros [-> | Hnone]; [reflexivity|].
  rewrite Hnone. destruct (isEmptyString dateString); reflexivity.
Qed.

(** C9 fails five hours west of UTC: the first day of May is read as
    midnight UTC, which is still April there. *)
Theorem getMonthName_first_of_month_west_of_utc :
  @getMonthName westHost "2024-05-01" = "April"
  /\ @getMonthName utcHost "2024-05-01" = "May".
Proof. split; reflexivity. Qed.

Lemma getUniqueValues_drops_empty_and_zero_witness :
  @getUniqueValues utcHost "percent" percentZeroStore = []
  /\ @getUniqueValues utcHost "comments" percentZeroStore = []
  /\ @getUniqueValues utcHost "length" percentZeroStore = ["9"]
  /\ "" ∉ @getUniqueValues utcHost "client" percentZeroStore.
Proof.
  split; [reflexivity|]. split; [reflexivity|]. split; [reflexivity|].
  apply (@getUniqueValues_drops_empty_and_zero utcHost "client" percentZeroStore).
Defined.

(** A record that starts and ends on the same day is listed under 'length'
    as "0", and under 'month' by the month of its start date. *)
Example getUniqueValues_same_day :
  let sameDay :=
    @runOp utcHost
      (OpUpdateRecord
         {| clientId := "X"; client := "SEGA"; platform := GOG;
            region := EUROPE; discount := "Summer Sale";
            startDate := "2024-05-10"; startTime := "09:00";
            endDate := "2024-05-10"; endTime := "18:00"; percent := 0;
            deadline := "2024-04-20"; implementationStatus := IMPL_PENDING;
            salesEventStatus := SALES_PLANNED; comments := "";
            month := None; length := None |})
      percentZeroStore in
  @getUniqueValues utcHost "length" sameDay = ["0"]
  /\ @getUniqueValues utcHost "month" sameDay = ["May"]
  /\ @getUniqueValues utcHost "percent" sameDay = [].
Proof. repeat split; reflexivity. Qed.

(** ** Calendar arithmetic: the date of a day number *)

Lemma isLeapYear_cases (y : Z) :
  (JsDate.isLeapYear y = true /\ y mod 4 = 0 /\ 1 <= y mod 100 <= 99)
  \/ (JsDate.isLeapYear y = true /\ y mod 400 = 0)
  \/ (JsDate.isLeapYear y = false /\ y mod 4 = 1)
  \/ (JsDate.isLeapYear y = false /\ y mod 4 = 2)
  \/ (JsDate.isLeapYear y = false /\ y mod 4 = 3)
  \/ (JsDate.isLeapYear y = false /\ y mod 100 = 0
      /\ 1 <= (y / 100) mod 4 <= 3).
Proof.
  unfold JsDate.isLeapYear.
  destruct (Z.eqb_spec (y mod 4) 0), (Z.eqb_spec (y mod 100) 0),
    (Z.eqb_spec (y mod 400) 0); simpl; Z.div_mod_to_equations; lia.
Qed.

(** One case of the lemma below: [Y] is the year counted from March, [mp]
    the month counted from March. The era, the year of the era and the
    month are recovered one after the other. *)
Ltac civil_case Y mp :=
  unfold JsDate.civilFromDays; cbv zeta;
  match goal with
  | |- context [(?N + 719468) / 146097] =>
      let Hera := fresh "Hera" in
      assert (Hera : (N + 719468) / 146097 = Y / 400)
        by (Z.div_mod_to_equations; lia);
      rewrite Hera; clear Hera;
      let Hyoe := fresh "Hyoe" in
      assert (Hyoe :
        forall doe, doe = N + 719468 - Y / 400 * 146097 ->
          (doe - doe / 1460 + doe / 36524 - doe / 146096) / 365
          = Y - Y / 400 * 400)
        by (intros; subst; Z.div_mod_to_equations; lia);
      rewrite (Hyoe _ eq_refl); clear Hyoe;
      let Hmp := fresh "Hmp" in
      assert (Hmp :
        forall doy,
          doy = N + 719468 - Y / 400 * 146097
                - (365 * (Y - Y / 400 * 400) + (Y - Y / 400 * 400) / 4
                   - (Y - Y / 400 * 400) / 100) ->
          (5 * doy + 2) / 153 = mp)
        by (intros; subst; Z.div_mod_to_equations; lia);
      rewrite (Hmp _ eq_refl); clear Hmp;
      let mval := eval compute in (if mp <? 10 then mp + 3 else mp - 9) in
      change (if mp <? 10 then mp + 3 else mp - 9) with mval;
      let b := eval compute in (mval <=? 2) in
      change (mval <=? 2) with b; cbv iota;
      repeat f_equal; Z.div_mod_to_equations; lia
  end.

(** The calendar date of the day number of a date is that date, in every
    year of the proleptic Gregorian calendar. *)
Lemma civilFromDays_makeDay (y m d : Z) :
  1 <= m <= 12 -> 1 <= d <= JsDate.daysInMonth y m ->
  JsDate.civilFromDays (JsDate.makeDay y m d) = (y, m, d).
Proof.
  intros Hm.
  assert (Hcases : m = 1 \/ m = 2 \/ m = 3 \/ m = 4 \/ m = 5 \/ m = 6 \/ m = 7
                   \/ m = 8 \/ m = 9 \/ m = 10 \/ m = 11 \/ m = 12) by lia.
  clear Hm.
  unfold JsDate.makeDay, JsDate.daysBeforeMonth, JsDate.dayFromYear,
    JsDate.daysInMonth.
  destruct Hcases as [->|[->|[->|[->|[->|[->|[->|[->|[->|[->|[->| ->]]]]]]]]]]];
    (destruct (isLeapYear_cases y)
       as [(Hl & H4 & H100)|[(Hl & H400)|[(Hl & H4)|[(Hl & H4)|[(Hl & H4)
           |(Hl & H100 & H400)]]]]]);
    rewrite ?Hl; clear Hl; intros Hd.
  all: lazymatch goal with
       | |- _ = (_, 1, _) => civil_case (y - 1) 10
       | |- _ = (_, 2, _) => civil_case (y - 1) 11
       | |- _ = (_, 3, _) => civil_case y 0
       | |- _ = (_, 4, _) => civil_case y 1
       | |- _ = (_, 5, _) => civil_case y 2
       | |- _ = (_, 6, _) => civil_case y 3
       | |- _ = (_, 7, _) => civil_case y 4
       | |- _ = (_, 8, _) => civil_case y 5
       | |- _ = (_, 9, _) => civil_case y 6
       | |- _ = (_, 10, _) => civil_case y 7
       | |- _ = (_, 11, _) => civil_case y 8
       | |- _ = (_, 12, _) => civil_case y 9
       end.
Qed.

(** ** The month name of a calendar date *)

Section MonthNames.
Context `{Host}.

Lemma matchesDatePattern_not_empty (s : string) :
  JsDate.matchesDatePattern s = true -> isEmptyString s = false.
Proof. destruct s; [discriminate | reflexivity]. Qed.

(** A string yyyy-mm-dd that names a day of the calendar is parsed as
    midnight UTC of that day. *)
Lemma parse_calendar_date (s : string) (y m d : Z) :
  JsDate.matchesDatePattern s = true -> JsDate.isoFields s = (y, m, d) ->
  1 <= m <= 12 -> 1 <= d <= JsDate.daysInMonth y m ->
  JsDate.parse s = Some (JsDate.makeDay y m d * JsDate.msPerDay).
Proof.
  intros Hpat Hfields Hm Hd. unfold JsDate.parse. rewrite Hpat, Hfields.
  assert (Hd31 : JsDate.daysInMonth y m <= 31).
  { unfold JsDate.daysInMonth.
    destruct (JsDate.isLeapYear y);
      assert (Hc : m = 1 \/ m = 2 \/ m = 3 \/ m = 4 \/ m = 5 \/ m = 6 \/ m = 7
                   \/ m = 8 \/ m = 9 \/ m = 10 \/ m = 11 \/ m = 12) by lia;
      destruct Hc as [->|[->|[->|[->|[->|[->|[->|[->|[->|[->|[->| ->]]]]]]]]]]];
      lia. }
  replace ((1 <=? m) && (m <=? 12) && (1 <=? d) && (d <=? 31)) with true
    by (symmetry; rewrite !andb_true_iff, !Z.leb_le; lia).
  replace (d <=? JsDate.daysInMonth y m) with true
    by (symmetry; apply Z.leb_le; lia).
  reflexivity.
Qed.

(** X1. At UTC and east of it (an offset of less than a day),
    [getMonthName] gives the name of the month written in the date, for
    every day of the calendar written yyyy-mm-dd. *)
Lemma getMonthName_at_or_east_of_utc (s : string) (y m d : Z) :
  (forall t, 0 <= LocalTZA t < JsDate.msPerDay) ->
  JsDate.matchesDatePattern s = true -> JsDate.isoFields s = (y, m, d) ->
  1 <= m <= 12 -> 1 <= d <= JsDate.daysInMonth y m ->
  getMonthName s = JsDate.monthLong m.
Proof.
  intros Heast Hpat Hfields Hm Hd. unfold getMonthName.
  rewrite (matchesDatePattern_not_empty s Hpat).
  rewrite (parse_calendar_date s y m d Hpat Hfields Hm Hd).
  unfold JsDate.toLocaleMonthLong, JsDate.monthFromTime, JsDate.dayOfTime.
  set (t := JsDate.makeDay y m d * JsDate.msPerDay).
  specialize (Heast t).
  replace ((t + LocalTZA t) / JsDate.msPerDay) with (JsDate.makeDay y m d).
  - rewrite civilFromDays_makeDay by assumption. reflexivity.
  - subst t. unfold JsDate.msPerDay in *. Z.div_mod_to_equations. lia.
Qed.

Lemma makeDay_first_pred (y m : Z) :
  1 <= m <= 12 ->
  JsDate.makeDay y m 1 - 1
  = let '(y', m', d') := lastDayBefore y m in JsDate.makeDay y' m' d'.
Proof.
  intros Hm.
  assert (Hc : m = 1 \/ m = 2 \/ m = 3 \/ m = 4 \/ m = 5 \/ m = 6 \/ m = 7
               \/ m = 8 \/ m = 9 \/ m = 10 \/ m = 11 \/ m = 12) by lia.
  clear Hm.
  destruct Hc as [->|[->|[->|[->|[->|[->|[->|[->|[->|[->|[->| ->]]]]]]]]]]];
    unfold lastDayBefore; cbn [Z.eqb Pos.eqb]; cbv iota;
    repeat match goal with
           | |- context [Z.pos ?p - 1] =>
               let v := eval compute in (Z.pos p - 1) in
               change (Z.pos p - 1) with v
           end;
    unfold JsDate.makeDay, JsDate.daysBeforeMonth, JsDate.daysInMonth.
  2-12: destruct (JsDate.isLeapYear y); lia.
  unfold JsDate.dayFromYear.
  destruct (isLeapYear_cases (y - 1))
    as [(Hl & H4 & H100)|[(Hl & H400)|[(Hl & H4)|[(Hl & H4)|[(Hl & H4)
        |(Hl & H100 & H400)]]]]];
    rewrite Hl; clear Hl; Z.div_mod_to_equations; lia.
Qed.

(** X2. West of UTC (an offset of at most a day), [getMonthName] gives
    the name of the month before for the first day of every month: the date
    is read as midnight UTC, which is still the day before in local time. *)
Lemma getMonthName_west_of_utc_first_day (s : string) (y m : Z) :
  (forall t, - JsDate.msPerDay <= LocalTZA t < 0) ->
  JsDate.matchesDatePattern s = true -> JsDate.isoFields s = (y, m, 1) ->
  1 <= m <= 12 ->
  getMonthName s = JsDate.monthLong (if m =? 1 then 12 else m - 1).
Proof.
  intros Hwest Hpat Hfields Hm. unfold getMonthName.
  rewrite (matchesDatePattern_not_empty s Hpat).
  assert (Hd : 1 <= 1 <= JsDate.daysInMonth y m).
  { unfold JsDate.daysInMonth.
    destruct (JsDate.isLeapYear y);
      assert (Hc : m = 1 \/ m = 2 \/ m = 3 \/ m = 4 \/ m = 5 \/ m = 6 \/ m = 7
                   \/ m = 8 \/ m = 9 \/ m = 10 \/ m = 11 \/ m = 12) by lia;
      destruct Hc as [->|[->|[->|[->|[->|[->|[->|[->|[->|[->|[->| ->]]]]]]]]]]];
      lia. }
  rewrite (parse_calendar_date s y m 1 Hpat Hfields Hm Hd).
  unfold JsDate.toLocaleMonthLong, JsDate.monthFromTime, JsDate.dayOfTime.
  set (t := JsDate.makeDay y m 1 * JsDate.msPerDay).
  specialize (Hwest t).
  replace ((t + LocalTZA t) / JsDate.msPerDay) with (JsDate.makeDay y m 1 - 1)
    by (subst t; unfold JsDate.msPerDay in *; Z.div_mod_to_equations; lia).
  rewrite makeDay_first_pred by exact Hm. unfold lastDayBefore.
  destruct (Z.eqb_spec m 1) as [->|Hne].
  - rewrite civilFromDays_makeDay by (simpl; lia). reflexivity.
  - rewrite civilFromDays_makeDay; [reflexivity | lia |].
    unfold JsDate.daysInMonth.
    destruct (JsDate.isLeapYear y);
      assert (Hc : m = 2 \/ m = 3 \/ m = 4 \/ m = 5 \/ m = 6 \/ m = 7
                   \/ m = 8 \/ m = 9 \/ m = 10 \/ m = 11 \/ m = 12) by lia;
      destruct Hc as [->|[->|[->|[->|[->|[->|[->|[->|[->|[->| ->]]]]]]]]]];
      simpl; lia.
Qed.

End MonthNames.

(** * Further properties of the code *)

(** ** The record store: loading *)

Section LoadProperties.
Context `{Host}.

Lemma generateFrom_lookup oracle i n records :
  generateFrom oracle i n = inr records ->
  List.length records = n
  /\ forall k d, (k < n)%nat -> oracle (i + k)%nat = inr d ->
       records !! k = Some (generateDiscountRecord (i + k) d).
Proof.
  revert i records. induction n as [|n IH]; simpl; intros i records Hgen.
  - injection Hgen as <-. split; [reflexivity | intros; lia].
  - destruct (oracle i) as [e|d0] eqn:Hi; [discriminate|].
    destruct (generateFrom oracle (S i) n) as [e|rest] eqn:Hrest; [discriminate|].
    injection Hgen as <-. destruct (IH _ _ Hrest) as [Hlen Hlook].
    split; [simpl; congruence|].
    intros [|k] d Hk Hd.
    + rewrite Nat.add_0_r in *. simpl. congruence.
    + simpl. replace (i + S k)%nat with (S i + k)%nat in * by lia.
      apply Hlook; [lia | exact Hd].
Qed.

Lemma generateFrom_succeeds oracle i n :
  (forall k, (k < n)%nat -> exists d, oracle (i + k)%nat = inr d) ->
  exists records, generateFrom oracle i n = inr records.
Proof.
  revert i. induction n as [|n IH]; simpl; intros i Hall; [eauto|].
  destruct (Hall 0%nat ltac:(lia)) as [d Hd]. rewrite Nat.add_0_r in Hd.
  rewrite Hd. destruct (IH (S i)) as [rest ->]; [|eauto].
  intros k Hk. replace (S i + k)%nat with (i + S k)%nat by lia.
  apply Hall. lia.
Qed.

(** X3. When the host fails at none of the first [count] records,
    [loadData(count)] replaces the collection by exactly [count] records
    (none for a count of zero or less), the record of index [k] being the
    generated record [k] with its computed fields; [error] is cleared,
    [isLoading] is false again and the filters are left as they were. *)
Theorem loadData_success (oracle : Oracle) (count : Z) (st : Store) :
  (forall k, (k < Z.to_nat count)%nat -> exists d, oracle k = inr d) ->
  totalRecords (loadData oracle count st) = Z.to_nat count
  /\ (forall k d, (k < Z.to_nat count)%nat -> oracle k = inr d ->
        rawData (loadData oracle count st) !! k
        = Some (withComputedFields (generateDiscountRecord k d)))
  /\ error (loadData oracle count st) = None
  /\ isLoading (loadData oracle count st) = false
  /\ filters (loadData oracle count st) = filters st.
Proof.
  intros Hall.
  destruct (generateFrom_succeeds oracle 0 (Z.to_nat count) Hall)
    as [records Hgen].
  destruct (generateFrom_lookup _ _ _ _ Hgen) as [Hlen Hlook].
  unfold loadData, totalRecords. rewrite generate_cases.
  unfold generateMockData. rewrite Hgen. simpl.
  split; [rewrite length_map; exact Hlen|].
  split; [|repeat split].
  intros k d Hk Hd.
  change (map withComputedFields records !! k)
    with ((withComputedFields <$> records) !! k).
  rewrite list_lookup_fmap, (Hlook k d Hk Hd). reflexivity.
Qed.

Lemma randomChoice_In {A : Type} (array : list A) (pick : nat) (dflt : A) :
  array <> [] -> randomChoice array pick dflt ∈ array.
Proof.
  intros Hne. unfold randomChoice. apply list_elem_of_In, nth_In.
  apply Nat.mod_upper_bound. destruct array; [congruence | discriminate].
Qed.

Lemma randomInt_range (min max : Z) (pick : nat) :
  min <= max -> min <= randomInt min max pick <= max.
Proof.
  intros Hle. unfold randomInt.
  pose proof (Z.mod_pos_bound (Z.of_nat pick) (max - min + 1)). lia.
Qed.

(** X4. Every generated record, whatever the draws: its [percent] lies in
    5..75, its [client] is one of the fifteen known clients, its [clientId]
    is built from that client and the index, its region is one the generator
    allows for its platform (Global alone for Steam), its comment is not
    empty when the implementation failed or the sales event was cancelled,
    and it carries no computed field yet. *)
Theorem generateDiscountRecord_fields (index : nat) (d : Draw) :
  let record := generateDiscountRecord index d in
  5 <= percent record <= 75
  /\ client record ∈ CLIENT_OPTIONS
  /\ clientId record = makeClientId (client record) index
  /\ region record ∈ getValidRegions (platform record)
  /\ (platform record = STEAM -> region record = GLOBAL)
  /\ (implementationStatus record = IMPL_FAILED
      \/ salesEventStatus record = SALES_CANCELLED ->
      comments record <> "")
  /\ month record = None /\ length record = None.
Proof.
  cbv zeta. split; [apply randomInt_range; lia|].
  split; [apply randomChoice_In; discriminate|].
  split; [reflexivity|].
  assert (Hregion :
    region (generateDiscountRecord index d)
    ∈ getValidRegions (platform (generateDiscountRecord index d))).
  { apply randomChoice_In.
    destruct (platform (generateDiscountRecord index d)); discriminate. }
  split; [exact Hregion|].
  split.
  { intros Hsteam. rewrite Hsteam in Hregion. simpl in Hregion.
    apply list_elem_of_singleton in Hregion. exact Hregion. }
  split; [|split; reflexivity].
  unfold generateDiscountRecord, comments, implementationStatus,
    salesEventStatus, generateComment.
  set (impl := randomChoice ImplementationStatus_values _ _).
  set (sales := randomChoice SalesEventStatus_values _ _).
  intros Hwhy Hempty.
  assert (Hin :
    forall options : list string,
      options <> [] -> Forall (fun c => c <> "") options ->
      randomChoice options (commentPick d) "" <> "").
  { intros options Hne Hall.
    eapply Forall_forall in Hall; [exact Hall|].
    apply randomChoice_In, Hne. }
  destruct Hwhy as [Himpl|Hsales].
  - rewrite Himpl in Hempty. revert Hempty. apply Hin; [discriminate|].
    repeat constructor; discriminate.
  - rewrite Hsales in Hempty. destruct impl; revert Hempty;
      (apply Hin; [discriminate | repeat constructor; discriminate]).
Qed.

End LoadProperties.

(** ** The record store: filters and the filtered view *)

Section FilterInvariant.
Context `{Host}.

Lemma List_filter_sublist {A : Type} (p : A -> bool) (l : list A) :
  List.filter p l `sublist_of` l.
Proof.
  induction l as [|x l IH]; simpl; [constructor|].
  destruct (p x); [apply sublist_skip | apply sublist_cons]; exact IH.
Qed.

(** X5. The filtered view is a sub-list of the raw collection: it holds
    only stored records, in their stored order, none more often than it is
    stored; so [filteredRecords] never exceeds [totalRecords]. *)
Theorem filteredData_sublist (st : Store) :
  filteredData st `sublist_of` rawData st
  /\ (filteredRecords st <= totalRecords st)%nat.
Proof.
  assert (Hsub : filteredData st `sublist_of` rawData st).
  { rewrite filteredData_filter. apply List_filter_sublist. }
  split; [exact Hsub|]. apply sublist_length, Hsub.
Qed.

Lemma forallb_Permutation {A : Type} (p : A -> bool) (l k : list A) :
  l ≡ₚ k -> forallb p l = forallb p k.
Proof.
  induction 1 as [|x l k _ IH|x y l|l k j _ IH1 _ IH2]; simpl.
  - reflexivity.
  - rewrite IH. reflexivity.
  - destruct (p x), (p y); reflexivity.
  - congruence.
Qed.

Lemma entries_insert (fs : gmap string (option (list string)))
    (field : string) (values : option (list string))
    (record : DiscountRecord) :
  forallb (entryAccepts record) (map_to_list (<[field := values]> fs))
  = entryAccepts record (field, values)
    && forallb (entryAccepts record) (map_to_list (delete field fs)).
Proof.
  rewrite <- insert_delete_eq.
  rewrite (forallb_Permutation _ _ _
             (map_to_list_insert (delete field fs) field values
                (lookup_delete_eq fs field))).
  reflexivity.
Qed.

(** The view after a filter was set. *)
Lemma filteredData_updateFilter (field v : string) (vs : list string)
    (st : Store) :
  filteredData (updateFilter field (Some (v :: vs)) st)
  = List.filter (matchesSome field (v :: vs))
      (filteredData (updateFilter field None st)).
Proof.
  rewrite !filteredData_filter, List_filter_filter. simpl.
  apply filter_ext. intros record. rewrite entries_insert.
  apply andb_comm.
Qed.


Lemma platform_filter_matches (p : Platform) (record : DiscountRecord) :
  matchesSome "platform" [Platform_value p] record = true
  <-> platform record = p.
Proof.
  unfold matchesSome, getField. simpl.
  destruct p, (platform record); simpl;
    rewrite !toLowerCase_ascii by reflexivity;
    split; intros Heq; first [reflexivity | discriminate].
Qed.

(** X7. With no other filter, a filter on 'platform' that accepts the name
    of one platform shows exactly the stored records of that platform: no
    platform's name is contained in another's. *)
Theorem filter_by_platform (p : Platform) (st : Store)
    (record : DiscountRecord) :
  record ∈ filteredData
             (updateFilter "platform" (Some [Platform_value p])
                (clearFilters st))
  <-> record ∈ rawData st /\ platform record = p.
Proof.
  rewrite filteredData_updateFilter.
  change (filteredData (updateFilter "platform" None (clearFilters st)))
    with (rawData st).
  rewrite list_elem_of_In, filter_In, <- list_elem_of_In.
  rewrite platform_filter_matches. reflexivity.
Qed.

Lemma runOp_filtersWellFormed op st :
  filtersWellFormed st -> filtersWellFormed (runOp op st).
Proof.
  intros Hst. destruct op; simpl; try exact Hst.
  - unfold loadData. rewrite generate_cases.
    destruct (generateMockData oracle count); exact Hst.
  - unfold updateFilter. destruct values as [[|v vs]|];
      intros f x Hlook; simpl in Hlook.
    + apply lookup_delete_Some in Hlook as [_ Hlook]. eapply Hst, Hlook.
    + apply lookup_insert_Some in Hlook as [[_ <-]|[_ Hlook]];
        [eauto | eapply Hst, Hlook].
    + apply lookup_delete_Some in Hlook as [_ Hlook]. eapply Hst, Hlook.
  - intros f x Hlook. simpl in Hlook. rewrite lookup_empty in Hlook.
    discriminate.
  - unfold updateRecord.
    destruct (findIndex (clientId updatedRecord) (rawData st)); exact Hst.
  - unfold deleteRecord. destruct (findIndex id (rawData st)); exact Hst.
Qed.

(** X8. In every state the store can reach, each filter entry holds a list
    of accepted values that is not empty (never null, never an empty list):
    the filter panel's [activeFilters] are exactly the store's filters, and
    [hasActiveFilters] is true exactly when some field has a filter. *)
Theorem reachable_filters_active (st : Store) :
  reachable st ->
  filtersWellFormed st
  /\ Some <$> activeFilters st = filters st
  /\ (hasActiveFilters st = true <-> exists field, is_Some (filters st !! field)).
Proof.
  intros Hreach.
  assert (Hwf : filtersWellFormed st).
  { induction Hreach as [|op st Hreach IH].
    - intros f x Hlook. simpl in Hlook. rewrite lookup_empty in Hlook.
      discriminate.
    - apply runOp_filtersWellFormed, IH. }
  split; [exact Hwf|]. split.
  - apply map_eq. intros field. unfold activeFilters.
    rewrite lookup_fmap, lookup_omap.
    destruct (filters st !! field) as [values|] eqn:Hlook; [|reflexivity].
    destruct (Hwf _ _ Hlook) as (v & vs & ->). reflexivity.
  - unfold hasActiveFilters.
    rewrite negb_true_iff, bool_decide_eq_false, map_to_list_empty_iff.
    split.
    + intros Hne. apply map_choose in Hne as (field & x & Hlook).
      exists field. eauto.
    + intros [field [x Hlook]] Hempty. rewrite Hempty, lookup_empty in Hlook.
      discriminate.
Qed.

End FilterInvariant.

Lemma List_filter_all_in {A : Type} (p : A -> bool) (l : list A) :
  (forall x, x ∈ l -> p x = true) -> List.filter p l = l.
Proof.
  induction l as [|x l IH]; simpl; intros Hall; [reflexivity|].
  rewrite (Hall x) by (left; reflexivity).
  rewrite IH; [reflexivity|]. intros y Hy. apply Hall. right. exact Hy.
Qed.

(** ** The record store: update and delete by [clientId] *)

Lemma findIndex_None (id : string) (records : list DiscountRecord) :
  findIndex id records = None <-> id ∉ map clientId records.
Proof.
  induction records as [|r rs IH]; simpl.
  - split; [intros _; apply not_elem_of_nil | reflexivity].
  - destruct (String.eqb_spec (clientId r) id) as [Heq|Hne].
    + subst id. split; [discriminate | intros Hnotin; destruct Hnotin; left].
    + rewrite not_elem_of_cons, <- IH.
      destruct (findIndex id rs); simpl; split.
      * discriminate.
      * intros [_ Hn]. discriminate Hn.
      * intros _. split; [congruence | reflexivity].
      * reflexivity.
Qed.

(** The first record with the [clientId] splits the collection. *)
Lemma findIndex_Some (id : string) (records : list DiscountRecord)
    (index : nat) :
  findIndex id records = Some index ->
  exists before found after,
    records = before ++ found :: after
    /\ List.length before = index /\ clientId found = id
    /\ id ∉ map clientId before.
Proof.
  revert index. induction records as [|r rs IH]; simpl; intros index Hfind;
    [discriminate|].
  destruct (String.eqb_spec (clientId r) id) as [Heq|Hne].
  - injection Hfind as <-. exists [], r, rs.
    repeat split; [exact Heq | apply not_elem_of_nil].
  - destruct (findIndex id rs) as [j|]; [|discriminate].
    injection Hfind as <-.
    destruct (IH j eq_refl) as (before & found & after & -> & Hlen & Hid & Hnot).
    exists (r :: before), found, after. simpl.
    repeat split; [congruence | exact Hid |].
    apply not_elem_of_cons. split; [congruence | exact Hnot].
Qed.

Section UpdateDelete.
Context `{Host}.

(** X9. [updateRecord(r)]: when no stored record has [r]'s [clientId] the
    store is left as it is; otherwise the first record with that [clientId]
    is replaced, in place, by [r] with its computed fields recomputed, and
    every other record and the number of records stay as they were. With
    unique ids the stored records are then [r] (recomputed) and the records
    of the other ids. *)
Theorem updateRecord_replaces (r : DiscountRecord) (st : Store) :
  (clientId r ∉ map clientId (rawData st) -> updateRecord r st = st)
  /\ (clientId r ∈ map clientId (rawData st) ->
      exists before old after,
        rawData st = before ++ old :: after
        /\ clientId old = clientId r
        /\ (clientId r ∉ map clientId before)
        /\ rawData (updateRecord r st)
           = before ++ withComputedFields r :: after)
  /\ totalRecords (updateRecord r st) = totalRecords st
  /\ (uniqueClientIds st -> clientId r ∈ map clientId (rawData st) ->
      forall r',
        r' ∈ rawData (updateRecord r st)
        <-> r' = withComputedFields r
            \/ (r' ∈ rawData st /\ clientId r' <> clientId r)).
Proof.
  assert (Hfound :
    clientId r ∈ map clientId (rawData st) ->
    exists before old after,
      rawData st = before ++ old :: after
      /\ clientId old = clientId r
      /\ (clientId r ∉ map clientId before)
      /\ rawData (updateRecord r st)
         = before ++ withComputedFields r :: after).
  { intros Hin. unfold updateRecord.
    destruct (findIndex (clientId r) (rawData st)) as [index|] eqn:Hfind.
    - destruct (findIndex_Some _ _ _ Hfind)
        as (before & old & after & Hsplit & Hlen & Hid & Hnot).
      exists before, old, after. repeat split; try assumption.
      simpl. rewrite Hsplit, <- Hlen.
      rewrite insert_app_r_alt by lia. rewrite Nat.sub_diag. reflexivity.
    - apply findIndex_None in Hfind. contradiction. }
  split; [|split; [exact Hfound|split]].
  - intros Hnotin. apply findIndex_None in Hnotin. unfold updateRecord.
    rewrite Hnotin. reflexivity.
  - unfold updateRecord, totalRecords.
    destruct (findIndex (clientId r) (rawData st)); [|reflexivity].
    simpl. apply length_insert.
  - intros Huniq Hin r'.
    destruct (Hfound Hin) as (before & old & after & Hsplit & Hid & Hnot & ->).
    unfold uniqueClientIds in Huniq. rewrite Hsplit in Huniq |- *.
    rewrite map_app in Huniq. simpl in Huniq.
    apply NoDup_app in Huniq as (_ & _ & Hafter).
    apply NoDup_cons in Hafter as [Hold _]. rewrite Hid in Hold.
    rewrite !elem_of_app, !elem_of_cons. split.
    + intros [Hb|[->|Ha]]; [right|left; reflexivity|right].
      * split; [auto|]. intros Heq. apply Hnot. rewrite <- Heq.
        apply list_elem_of_fmap. eauto.
      * split; [auto|]. intros Heq. apply Hold. rewrite <- Heq.
        apply list_elem_of_fmap. eauto.
    + intros [->|[[Hb|[->|Ha]] Hne]]; auto. congruence.
Qed.

(** X10. [deleteRecord(id)]: an unknown id leaves the store as it is; a
    known id removes exactly the first record that has it, so one record
    less is stored; and on a store with unique ids it does what
    [deleteRecords([id])] does. *)
Theorem deleteRecord_removes_first (id : string) (st : Store) :
  (id ∉ map clientId (rawData st) -> deleteRecord id st = st)
  /\ (id ∈ map clientId (rawData st) ->
      exists before old after,
        rawData st = before ++ old :: after
        /\ clientId old = id /\ (id ∉ map clientId before)
        /\ rawData (deleteRecord id st) = before ++ after
        /\ S (totalRecords (deleteRecord id st)) = totalRecords st)
  /\ (uniqueClientIds st -> deleteRecord id st = deleteRecords [id] st).
Proof.
  assert (Hfound :
    id ∈ map clientId (rawData st) ->
    exists before old after,
      rawData st = before ++ old :: after
      /\ clientId old = id /\ (id ∉ map clientId before)
      /\ rawData (deleteRecord id st) = before ++ after
      /\ S (totalRecords (deleteRecord id st)) = totalRecords st).
  { intros Hin. unfold deleteRecord, totalRecords.
    destruct (findIndex id (rawData st)) as [index|] eqn:Hfind.
    - destruct (findIndex_Some _ _ _ Hfind)
        as (before & old & after & Hsplit & Hlen & Hid & Hnot).
      exists before, old, after. repeat split; try assumption.
      + simpl. rewrite Hsplit, <- Hlen.
        rewrite delete_middle. reflexivity.
      + simpl. rewrite Hsplit, <- Hlen, delete_middle.
        rewrite !length_app. simpl. lia.
    - apply findIndex_None in Hfind. contradiction. }
  assert (Hkeep :
    forall records : list DiscountRecord,
      id ∉ map clientId records ->
      List.filter (fun record => negb (includesId [id] (clientId record)))
        records = records).
  { intros records Hnot. apply List_filter_all_in. intros x Hx.
    unfold includesId. simpl. rewrite orb_false_r.
    destruct (String.eqb_spec (clientId x) id) as [Heq|Hne]; [|reflexivity].
    destruct Hnot. rewrite <- Heq. apply list_elem_of_fmap. eauto. }
  split; [|split; [exact Hfound|]].
  - intros Hnotin. apply findIndex_None in Hnotin. unfold deleteRecord.
    rewrite Hnotin. reflexivity.
  - intros Huniq.
    destruct (decide (id ∈ map clientId (rawData st))) as [Hin|Hnotin].
    + destruct (Hfound Hin)
        as (before & old & after & Hsplit & Hid & Hnot & Hraw & _).
      unfold uniqueClientIds in Huniq. rewrite Hsplit, map_app in Huniq.
      simpl in Huniq. apply NoDup_app in Huniq as (_ & _ & Hafter).
      apply NoDup_cons in Hafter as [Hold _]. rewrite Hid in Hold.
      assert (Hst : deleteRecord id st = setRawData st (before ++ after)).
      { unfold deleteRecord in *.
        destruct (findIndex id (rawData st)); simpl in Hraw.
        - rewrite Hraw. reflexivity.
        - rewrite Hsplit in Hraw.
          apply (f_equal (@List.length _)) in Hraw.
          rewrite !length_app in Hraw. simpl in Hraw. lia. }
      rewrite Hst. unfold deleteRecords. f_equal.
      rewrite Hsplit, List.filter_app. cbn [List.filter].
      replace (negb (includesId [id] (clientId old))) with false
        by (unfold includesId; simpl; rewrite Hid, String.eqb_refl;
            reflexivity).
      rewrite !Hkeep by assumption. reflexivity.
    + unfold deleteRecords. rewrite Hkeep by exact Hnotin.
      apply findIndex_None in Hnotin. unfold deleteRecord. rewrite Hnotin.
      destruct st; reflexivity.
Qed.

Lemma includesId_spec (clientIds : list string) (id : string) :
  includesId clientIds id = true <-> id ∈ clientIds.
Proof.
  unfold includesId. rewrite existsb_exists. split.
  - intros [x [Hin Heq]]. apply String.eqb_eq in Heq. subst x.
    apply list_elem_of_In, Hin.
  - intros Hin. exists id. split; [apply list_elem_of_In, Hin|].
    apply String.eqb_refl.
Qed.

(** X11. [deleteRecords(ids)] keeps, in their order, exactly the records
    whose [clientId] is not among [ids]; ids that are not stored are
    ignored; deleting nothing changes nothing, and deleting [ids1] and then
    [ids2] is deleting both lists at once. *)
Theorem deleteRecords_removes_ids (clientIds : list string) (st : Store) :
  (forall record,
     record ∈ rawData (deleteRecords clientIds st)
     <-> record ∈ rawData st /\ clientId record ∉ clientIds)
  /\ rawData (deleteRecords clientIds st) `sublist_of` rawData st
  /\ ((forall id, id ∈ clientIds -> id ∉ map clientId (rawData st)) ->
      deleteRecords clientIds st = st)
  /\ deleteRecords [] st = st
  /\ (forall more,
        deleteRecords more (deleteRecords clientIds st)
        = deleteRecords (clientIds ++ more) st).
Proof.
  split; [|split; [|split; [|split]]].
  - intros record. unfold deleteRecords. simpl.
    rewrite list_elem_of_In, filter_In, <- list_elem_of_In.
    rewrite negb_true_iff, <- not_true_iff_false, includesId_spec.
    reflexivity.
  - apply List_filter_sublist.
  - intros Hnone. unfold deleteRecords.
    rewrite List_filter_all_in; [destruct st; reflexivity|].
    intros x Hx. apply negb_true_iff, not_true_iff_false.
    rewrite includesId_spec. intros Hin. apply (Hnone _ Hin).
    apply list_elem_of_fmap. eauto.
  - unfold deleteRecords. simpl. rewrite List_filter_true.
    destruct st; reflexivity.
  - intros more. unfold deleteRecords. simpl. f_equal.
    rewrite List_filter_filter. apply filter_ext. intros record.
    unfold includesId. rewrite existsb_app, negb_orb. reflexivity.
Qed.

End UpdateDelete.

(** ** Filter options are sorted and without duplicates *)

Section UniqueValuesOrder.
Context `{Host}.





End UniqueValuesOrder.

(** ** How a result is shown *)

Lemma includesUnit_app (a b : string) (c : ascii) :
  Js.includesUnit (a +:+ b) c = Js.includesUnit a c || Js.includesUnit b c.
Proof.
  induction a as [|x a IH]; [reflexivity|].
  rewrite append_cons. cbn [Js.includesUnit]. rewrite IH, orb_assoc.
  reflexivity.
Qed.

Lemma String_of_nat_excludes (n : nat) (c : ascii) :
  JsDate.isDigit c = false -> Js.includesUnit (Js.String_of_nat n) c = false.
Proof. apply string_of_uint_excludes. Qed.

(** A text that starts outside [a] cannot start with a unit [a] lacks. *)
Lemma includes_skip_prefix (a b : string) (c : ascii) (sub : string) :
  Js.includesUnit a c = false ->
  Js.includes (a +:+ b) (String c sub) = Js.includes b (String c sub).
Proof.
  induction a as [|x a IH]; intros Ha; [reflexivity|].
  cbn [Js.includesUnit] in Ha. apply orb_false_iff in Ha as [Hx Ha].
  rewrite append_cons. cbn [Js.includes Js.startsWith].
  rewrite (IH Ha).
  replace (Ascii.eqb c x) with false; [reflexivity|].
  symmetry. rewrite <- Hx. apply Ascii.eqb_sym.
Qed.

Lemma resultClass_plain_text (st : Bulk.State) (text : string) :
  Bulk.lastOperationResult st = Some text ->
  isEmptyString text = false ->
  Js.includesUnit text "E" = false ->
  resultClass st = "success".
Proof.
  intros Hres Hfull Hplain. unfold resultClass. rewrite Hres, Hfull.
  pose proof (includes_skip_prefix text "" "E" "rror" Hplain) as Hskip.
  rewrite append_nil_r in Hskip. rewrite Hskip. reflexivity.
Qed.

(** ** The bulk operation engine: outcomes *)

Section EngineOutcomes.
Context `{Host} {W : Type}.

Local Abbreviation Machine := (@Bulk.Machine W).
Local Abbreviation M := (@Bulk.M W).

(** Run the first step of the computation in the goal, which only writes
    one of the three refs. *)
Ltac run_with tac :=
  match goal with
  | |- context [Bulk.bind ?c ?k ?m] =>
      let m1 := fresh "m" in
      let Hw := fresh "Hw" in
      let Hc := fresh "Hc" in
      let Hq := fresh "Hq" in
      assert (Hq : quiet W c) by tac;
      destruct (quiet_then c k m Hq) as (m1 & -> & Hw & Hc);
      clear Hq; cbv beta
  end.

Ltac run_set :=
  run_with
    ltac:(first
            [ apply quiet_setIsProcessing
            | apply quiet_setOperationProgress
            | apply quiet_setLastOperationResult
            | destruct (_ =? _)%nat; apply quiet_ret ]).

Ltac run_deleteTicks :=
  run_with ltac:(apply quiet_forEach; intros ?; apply quiet_deleteTick).

Ltac run_exportTicks :=
  run_with
    ltac:(apply quiet_forEach; intros ?; apply quiet_bind;
          [apply quiet_setOperationProgress | apply quiet_ret]).

(** The loop of [bulkUpdate] over a first part of the selection on which the
    callback returns. *)
Lemma updateLoop_app (updateData : BulkUpdateData)
    (cb : Bulk.Callback DiscountRecord) (total : nat)
    (done rest : list DiscountRecord) :
  (forall record w, record ∈ done ->
     (cb (Bulk.applyUpdate record updateData) w).1 = None) ->
  forall (processed : nat) (m : Machine),
    exists m1 : Machine,
      Bulk.updateLoop updateData cb total (done ++ rest) processed m
      = Bulk.updateLoop updateData cb total rest
          (processed + List.length done) m1
      /\ Bulk.calls m1
         = Bulk.calls m
           ++ map (fun record =>
                     Bulk.CallOnUpdate (Bulk.applyUpdate record updateData))
                done
      /\ Bulk.world m1 = worldAfterUpdates cb updateData done (Bulk.world m).
Proof.
  induction done as [|record done IH]; intros Hcb processed m.
  - exists m. simpl. rewrite Nat.add_0_r, app_nil_r. repeat split.
  - change ((record :: done) ++ rest) with (record :: (done ++ rest)).
    rewrite updateLoop_cons. unfold Bulk.bind at 1. unfold Bulk.invoke.
    pose proof (Hcb record (Bulk.world m) ltac:(left)) as Hnone.
    destruct (cb (Bulk.applyUpdate record updateData) (Bulk.world m))
      as [outcome w1] eqn:Hcall.
    simpl in Hnone. subst outcome. cbv beta iota zeta.
    run_set. run_set.
    destruct (IH (fun r w Hr => Hcb r w ltac:(right; exact Hr))
                (S processed) m1) as (m2 & E & Hc2 & Hw2).
    exists m2. rewrite E. split; [f_equal; simpl; lia|]. split.
    + rewrite Hc2, Hc0, Hc. simpl. rewrite <- app_assoc. reflexivity.
    + rewrite Hw2, Hw0, Hw. simpl. rewrite Hcall. reflexivity.
Qed.

(** X13. [bulkUpdate] on a selection that is not empty, with a callback
    that never throws: the callback is called once per selected record, in
    the order of the selection, with the record merged with the patch; the
    operation resolves; the caller's state is what the calls made of it; the
    indicator is reset and the result counts the records. *)
Theorem bulkUpdate_calls_every_record (record : DiscountRecord)
    (rest : list DiscountRecord) (updateData : BulkUpdateData)
    (cb : Bulk.Callback DiscountRecord) (m : Machine) :
  (forall r w, (cb r w).1 = None) ->
  exists m' : Machine,
    Bulk.bulkUpdate (record :: rest) updateData cb m = (inr tt, m')
    /\ Bulk.calls m'
       = Bulk.calls m
         ++ map (fun r => Bulk.CallOnUpdate (Bulk.applyUpdate r updateData))
              (record :: rest)
    /\ Bulk.world m'
       = worldAfterUpdates cb updateData (record :: rest) (Bulk.world m)
    /\ Bulk.operationProgress (Bulk.engine m') = 0
    /\ Bulk.isProcessing (Bulk.engine m') = false
    /\ Bulk.lastOperationResult (Bulk.engine m')
       = Some ("Successfully updated "
               +:+ Js.String_of_nat (S (List.length rest)) +:+ " records").
Proof. exact (bulkUpdate_all_records record rest updateData cb m). Qed.

(** X14. No rollback: when the callback returns for the first records of
    the selection and throws at the next one, [bulkUpdate] has called it on
    those records and on the failing one, in order, and on none after it;
    what the callback committed stays committed; the error is passed on to
    the caller; [lastOperationResult] names it and the indicator is reset. *)
Theorem bulkUpdate_stops_at_failure (done : list DiscountRecord)
    (failing : DiscountRecord) (rest : list DiscountRecord)
    (updateData : BulkUpdateData) (cb : Bulk.Callback DiscountRecord)
    (m : Machine) (err : Js.Thrown) (w' : W) :
  (forall record w, record ∈ done ->
     (cb (Bulk.applyUpdate record updateData) w).1 = None) ->
  cb (Bulk.applyUpdate failing updateData)
    (worldAfterUpdates cb updateData done (Bulk.world m))
  = (Some err, w') ->
  exists m' : Machine,
    Bulk.bulkUpdate (done ++ failing :: rest) updateData cb m = (inl err, m')
    /\ Bulk.calls m'
       = Bulk.calls m
         ++ map (fun r => Bulk.CallOnUpdate (Bulk.applyUpdate r updateData))
              (done ++ [failing])
    /\ Bulk.world m' = w'
    /\ Bulk.lastOperationResult (Bulk.engine m')
       = Some ("Error during bulk update: "
               +:+ Js.messageOr "Unknown error occurred" err)
    /\ Bulk.isProcessing (Bulk.engine m') = false
    /\ Bulk.operationProgress (Bulk.engine m') = 0.
Proof.
  intros Hdone Hfail. unfold Bulk.bulkUpdate.
  replace (List.length (done ++ failing :: rest) =? 0)%nat with false
    by (symmetry; apply Nat.eqb_neq; rewrite length_app; simpl; lia).
  run_set. run_set. run_set.
  unfold Bulk.tryCatchFinally, Bulk.bind at 1. cbv zeta.
  match goal with
  | |- context [Bulk.updateLoop ?u ?c ?t (done ++ failing :: rest) ?p ?m0] =>
      destruct (updateLoop_app u c t done (failing :: rest) Hdone p m0)
        as (m3 & E & Hc3 & Hw3)
  end.
  rewrite E, updateLoop_cons. unfold Bulk.bind at 1. unfold Bulk.invoke.
  rewrite Hw3, Hw1, Hw0, Hw, Hfail. cbv beta iota zeta.
  eexists. split; [reflexivity|]. simpl.
  split; [|repeat split].
  rewrite Hc3, Hc1, Hc0, Hc, map_app, <- app_assoc. reflexivity.
Qed.

(** The engine's state after a [try] whose finalizer resets the indicator. *)
Lemma tryCatchFinally_resets {A : Type} (body : M A)
    (handler : Js.Thrown -> M A) (m : Machine) :
  let m' :=
    (Bulk.tryCatchFinally body handler
       (Bulk.bind (Bulk.setIsProcessing false)
          (fun _ => Bulk.setOperationProgress 0)) m).2 in
  Bulk.isProcessing (Bulk.engine m') = false
  /\ Bulk.operationProgress (Bulk.engine m') = 0.
Proof.
  unfold Bulk.tryCatchFinally.
  destruct (match body m with
            | (inl e, m0) => handler e m0
            | (inr a, m0) => (inr a, m0)
            end) as [r m1].
  split; reflexivity.
Qed.

(** X15. The indicator never sticks: after [bulkUpdate], [bulkDelete] or
    [exportToCSV] on a selection that is not empty, [isProcessing] is false
    and [operationProgress] is 0, whatever the callbacks do (return or throw,
    at any record) and whatever the engine's state was. *)
Theorem operations_reset_indicator (record : DiscountRecord)
    (rest : list DiscountRecord) (m : Machine) :
  (forall updateData (cb : Bulk.Callback DiscountRecord),
     let m' := (Bulk.bulkUpdate (record :: rest) updateData cb m).2 in
     Bulk.isProcessing (Bulk.engine m') = false
     /\ Bulk.operationProgress (Bulk.engine m') = 0)
  /\ (forall cb : Bulk.Callback (list string),
        let m' := (Bulk.bulkDelete (record :: rest) cb m).2 in
        Bulk.isProcessing (Bulk.engine m') = false
        /\ Bulk.operationProgress (Bulk.engine m') = 0)
  /\ (forall (save : Bulk.Callback (string * string)) isoNow filename,
        let m' :=
          (Bulk.exportToCSV save isoNow (record :: rest) filename m).2 in
        Bulk.isProcessing (Bulk.engine m') = false
        /\ Bulk.operationProgress (Bulk.engine m') = 0).
Proof.
  split; [|split]; intros; subst m';
    [unfold Bulk.bulkUpdate | unfold Bulk.bulkDelete | unfold Bulk.exportToCSV];
    change (List.length (record :: rest) =? 0)%nat with false; cbv iota;
    run_set; run_set; run_set; apply tryCatchFinally_resets.
Qed.

(** X16. [exportToCSV] on a selection that is not empty, with a download
    that succeeds: the download is asked for exactly once, with the text of
    [convertToCSV] and with the given file name, or, when no name or an empty
    one is given, with the name generated from the prefix
    'filtered-discounts'; the result names the number of records and the
    file. *)
Theorem exportToCSV_downloads_once (record : DiscountRecord)
    (rest : list DiscountRecord) (save : Bulk.Callback (string * string))
    (isoNow : string) (filename : option string) (m : Machine) :
  let exportFilename :=
    match filename with
    | Some (String c name) => String c name
    | Some EmptyString | None =>
        Csv.generateFilename isoNow "filtered-discounts"
    end in
  (forall text w, (save (text, exportFilename) w).1 = None) ->
  exists m' : Machine,
    Bulk.exportToCSV save isoNow (record :: rest) filename m = (inr tt, m')
    /\ Bulk.calls m'
       = Bulk.calls m
         ++ [Bulk.CallDownloadCSV (Csv.convertToCSV (record :: rest))
               exportFilename]
    /\ Bulk.world m'
       = (save (Csv.convertToCSV (record :: rest), exportFilename)
            (Bulk.world m)).2
    /\ Bulk.lastOperationResult (Bulk.engine m')
       = Some ("Successfully exported "
               +:+ Js.String_of_nat (S (List.length rest))
               +:+ " records to " +:+ exportFilename)
    /\ Bulk.isProcessing (Bulk.engine m') = false
    /\ Bulk.operationProgress (Bulk.engine m') = 0.
Proof.
  intros exportFilename Hsave. unfold Bulk.exportToCSV.
  change (List.length (record :: rest) =? 0)%nat with false. cbv iota.
  run_set. run_set. run_set.
  unfold Bulk.tryCatchFinally. run_exportTicks. cbv zeta.
  assert (Hname :
    default (Csv.generateFilename isoNow "filtered-discounts")
      (Bulk.truthyString filename) = exportFilename).
  { subst exportFilename. destruct filename as [[|c name]|]; reflexivity. }
  rewrite Hname. unfold Bulk.downloadCSV, Bulk.bind, Bulk.invoke.
  pose proof (Hsave (Csv.convertToCSV (record :: rest)) (Bulk.world m3))
    as Hnone.
  destruct (save (Csv.convertToCSV (record :: rest), exportFilename)
              (Bulk.world m3)) as [outcome w1] eqn:Hcall.
  simpl in Hnone. subst outcome. cbv beta iota zeta.
  eexists. split; [reflexivity|]. cbn [Bulk.calls Bulk.world Bulk.engine
    Bulk.lastOperationResult Bulk.isProcessing Bulk.operationProgress fst snd
    List.length].
  split; [rewrite Hc2, Hc1, Hc0, Hc; reflexivity|].
  split; [|repeat split].
  rewrite <- Hw, <- Hw0, <- Hw1, <- Hw2, Hcall. reflexivity.
Qed.

(** What [bulkDelete] leaves on a selection that is not empty. *)
Lemma bulkDelete_run (record : DiscountRecord)
    (rest : list DiscountRecord) (cb : Bulk.Callback (list string))
    (m : Machine) :
  let clientIds := map clientId (record :: rest) in
  let m' := (Bulk.bulkDelete (record :: rest) cb m).2 in
  Bulk.world m' = (cb clientIds (Bulk.world m)).2
  /\ Bulk.isProcessing (Bulk.engine m') = false
  /\ Bulk.operationProgress (Bulk.engine m') = 0
  /\ match (cb clientIds (Bulk.world m)).1 with
     | None =>
         (Bulk.bulkDelete (record :: rest) cb m).1 = inr tt
         /\ Bulk.lastOperationResult (Bulk.engine m')
            = Some ("Successfully deleted "
                    +:+ Js.String_of_nat (S (List.length rest))
                    +:+ " records")
     | Some err =>
         (Bulk.bulkDelete (record :: rest) cb m).1 = inl err
         /\ Bulk.lastOperationResult (Bulk.engine m')
            = Some ("Error during bulk delete: "
                    +:+ Js.messageOr "Unknown error occurred" err)
     end.
Proof.
  intros clientIds m'. subst m'. unfold Bulk.bulkDelete.
  change (List.length (record :: rest) =? 0)%nat with false. cbv iota.
  run_set. run_set. run_set.
  unfold Bulk.tryCatchFinally. cbv zeta. run_deleteTicks.
  unfold Bulk.bind, Bulk.invoke. fold clientIds.
  rewrite Hw2, Hw1, Hw0, Hw.
  destruct (cb clientIds (Bulk.world m)) as [[err|] w1]; simpl;
    rewrite ?length_map; repeat split.
Qed.

(** X17. [bulkDelete] on a selection that is not empty: when the callback
    returns, the operation resolves, the caller's state is what the one call
    made of it and the result counts the records; when the callback throws,
    the operation rejects with what was thrown and the result names the
    error. Either way the indicator is reset. *)
Theorem bulkDelete_outcome (record : DiscountRecord)
    (rest : list DiscountRecord) (cb : Bulk.Callback (list string))
    (m : Machine) :
  let clientIds := map clientId (record :: rest) in
  let m' := (Bulk.bulkDelete (record :: rest) cb m).2 in
  Bulk.world m' = (cb clientIds (Bulk.world m)).2
  /\ Bulk.isProcessing (Bulk.engine m') = false
  /\ Bulk.operationProgress (Bulk.engine m') = 0
  /\ match (cb clientIds (Bulk.world m)).1 with
     | None =>
         (Bulk.bulkDelete (record :: rest) cb m).1 = inr tt
         /\ Bulk.lastOperationResult (Bulk.engine m')
            = Some ("Successfully deleted "
                    +:+ Js.String_of_nat (S (List.length rest))
                    +:+ " records")
     | Some err =>
         (Bulk.bulkDelete (record :: rest) cb m).1 = inl err
         /\ Bulk.lastOperationResult (Bulk.engine m')
            = Some ("Error during bulk delete: "
                    +:+ Js.messageOr "Unknown error occurred" err)
     end.
Proof. exact (bulkDelete_run record rest cb m). Qed.

(** X18. How the panel shows the last result after an operation on a
    selection that is not empty: after [bulkUpdate] and [bulkDelete], as an
    error exactly when the operation rejected, as a success when it resolved;
    after [exportToCSV], as an error when it rejected, and when it resolved as
    an error all the same if the name of the file contains 'Error', as a
    success otherwise. *)
Theorem resultClass_after_operation (record : DiscountRecord)
    (rest : list DiscountRecord) (m : Machine) :
  (forall updateData (cb : Bulk.Callback DiscountRecord),
     let run := Bulk.bulkUpdate (record :: rest) updateData cb m in
     resultClass (Bulk.engine run.2)
     = match run.1 with inl _ => "error" | inr _ => "success" end)
  /\ (forall cb : Bulk.Callback (list string),
        let run := Bulk.bulkDelete (record :: rest) cb m in
        resultClass (Bulk.engine run.2)
        = match run.1 with inl _ => "error" | inr _ => "success" end)
  /\ (forall (save : Bulk.Callback (string * string)) isoNow filename,
        let run :=
          Bulk.exportToCSV save isoNow (record :: rest) filename m in
        let exportFilename :=
          default (Csv.generateFilename isoNow "filtered-discounts")
            (Bulk.truthyString filename) in
        resultClass (Bulk.engine run.2)
        = match run.1 with
          | inl _ => "error"
          | inr _ =>
              if Js.includes exportFilename "Error" then "error"
              else "success"
          end).
Proof.
  split; [|split].
  - intros updateData cb run. subst run. unfold Bulk.bulkUpdate.
    change (List.length (record :: rest) =? 0)%nat with false. cbv iota.
    run_set. run_set. run_set.
    unfold Bulk.tryCatchFinally, Bulk.bind. cbv zeta.
    destruct (Bulk.updateLoop updateData cb _ (record :: rest) 0%nat m2)
      as [[err|processed] m3]; [reflexivity|].
    cbn [Bulk.setLastOperationResult Bulk.setIsProcessing
         Bulk.setOperationProgress fst snd Bulk.engine
         Bulk.lastOperationResult].
    eapply resultClass_plain_text; [reflexivity | reflexivity |].
    rewrite !includesUnit_app, String_of_nat_excludes by reflexivity.
    reflexivity.
  - intros cb run. subst run.
    destruct (bulkDelete_run record rest cb m) as (_ & _ & _ & Hout).
    cbv zeta in Hout.
    destruct ((cb (map clientId (record :: rest)) (Bulk.world m)).1)
      as [err|]; destruct Hout as [-> Hres]; [unfold resultClass|];
      [rewrite Hres; reflexivity|].
    eapply resultClass_plain_text; [exact Hres | reflexivity |].
    rewrite !includesUnit_app, String_of_nat_excludes by reflexivity.
    reflexivity.
  - intros save isoNow filename run exportFilename. subst run.
    unfold Bulk.exportToCSV.
    change (List.length (record :: rest) =? 0)%nat with false. cbv iota.
    run_set. run_set. run_set.
    unfold Bulk.tryCatchFinally. run_exportTicks. cbv zeta.
    fold exportFilename.
    unfold Bulk.downloadCSV, Bulk.bind, Bulk.invoke.
    destruct (save (Csv.convertToCSV (record :: rest), exportFilename)
                (Bulk.world m3)) as [[err|] w1]; [reflexivity|].
    cbn [Bulk.setLastOperationResult Bulk.setIsProcessing
         Bulk.setOperationProgress fst snd Bulk.engine
         Bulk.lastOperationResult resultClass].
    unfold resultClass. cbn [Bulk.lastOperationResult].
    change (isEmptyString
              ("Successfully exported "
               +:+ Js.String_of_nat (List.length (record :: rest))
               +:+ " records to " +:+ exportFilename)) with false.
    cbv iota.
    rewrite <- !append_assoc.
    rewrite (includes_skip_prefix _ exportFilename "E" "rror"); [reflexivity|].
    rewrite !includesUnit_app, String_of_nat_excludes by reflexivity.
    reflexivity.
Qed.

End EngineOutcomes.

(** ** BulkActions.vue: the engine wired to the store *)

Section Wiring.
Context `{Host}.

Lemma insert_found_map (id : string) (x : DiscountRecord)
    (records : list DiscountRecord) :
  NoDup (map clientId records) ->
  match findIndex id records with
  | Some index => <[index := x]> records
  | None => records
  end
  = map (fun old => if String.eqb id (clientId old) then x else old) records.
Proof.
  induction records as [|r rs IH]; intros Hnd; [reflexivity|].
  simpl in Hnd. apply NoDup_cons in Hnd as [Hnotin Hnd]. simpl.
  rewrite (String.eqb_sym id). 
  destruct (String.eqb_spec (clientId r) id) as [Heq|Hne].
  - simpl. f_equal. subst id.
    rewrite <- (IH Hnd).
    destruct (findIndex (clientId r) rs) as [j|] eqn:Hfind; [|reflexivity].
    apply findIndex_lookup in Hfind.
    destruct Hnotin. apply list_elem_of_lookup. exists j. exact Hfind.
  - rewrite <- (IH Hnd).
    destruct (findIndex id rs) as [j|]; reflexivity.
Qed.

Lemma updateRecord_map (r : DiscountRecord) (st : Store) :
  uniqueClientIds st ->
  rawData (updateRecord r st)
  = map (fun old =>
           if String.eqb (clientId r) (clientId old)
           then withComputedFields r else old)
      (rawData st).
Proof.
  intros Huniq. rewrite <- (insert_found_map _ _ _ Huniq).
  unfold updateRecord.
  destruct (findIndex (clientId r) (rawData st)); reflexivity.
Qed.

Lemma worldAfterUpdates_app {W : Type} (cb : @Bulk.Callback W DiscountRecord)
    (updateData : BulkUpdateData) (l1 l2 : list DiscountRecord) (w : W) :
  worldAfterUpdates cb updateData (l1 ++ l2) w
  = worldAfterUpdates cb updateData l2 (worldAfterUpdates cb updateData l1 w).
Proof.
  revert w. induction l1 as [|r l1 IH]; intros w; [reflexivity|].
  simpl. apply IH.
Qed.

Lemma afterBulkUpdate_clientId selectedRows updateForm old :
  clientId (afterBulkUpdate selectedRows updateForm old) = clientId old.
Proof.
  unfold afterBulkUpdate.
  destruct (List.find _ (rev selectedRows)) as [row|] eqn:Hfind;
    [|reflexivity].
  apply find_some in Hfind as [_ Heq]. apply String.eqb_eq in Heq.
  exact Heq.
Qed.

(** The store after the callback of [handleBulkUpdate] was given the merged
    record of each selected row. *)
Lemma commitUpdate_all (updateForm : BulkUpdateData)
    (selectedRows : list DiscountRecord) (st : Store) :
  uniqueClientIds st ->
  let st' := worldAfterUpdates commitUpdate updateForm selectedRows st in
  rawData st' = map (afterBulkUpdate selectedRows updateForm) (rawData st)
  /\ filters st' = filters st /\ isLoading st' = isLoading st
  /\ error st' = error st.
Proof.
  intros Huniq. induction selectedRows as [|row rows IH] using rev_ind.
  - simpl. rewrite map_id. repeat split.
  - cbv zeta in *. rewrite worldAfterUpdates_app. simpl.
    destruct IH as (Hraw & Hf & Hl & He).
    set (st1 := worldAfterUpdates commitUpdate updateForm rows st) in *.
    assert (Huniq1 : uniqueClientIds st1).
    { unfold uniqueClientIds. rewrite Hraw, map_map.
      erewrite map_ext; [exact Huniq|].
      intros old. apply afterBulkUpdate_clientId. }
    split.
    + rewrite (updateRecord_map _ _ Huniq1), Hraw, map_map.
      apply map_ext. intros old.
      rewrite afterBulkUpdate_clientId.
      unfold afterBulkUpdate at 2. rewrite rev_app_distr. simpl.
      change (clientId (Bulk.applyUpdate row updateForm)) with (clientId row).
      destruct (String.eqb (clientId row) (clientId old)); reflexivity.
    + unfold updateRecord.
      destruct (findIndex _ (rawData st1)); simpl; auto.
Qed.

(** X19. [handleBulkUpdate] with a form that passes validation, on a
    selection that is not empty and a store with unique [clientId]s: no
    validation error is shown; every stored record whose [clientId] is that
    of a selected row is replaced, in place, by the last such row merged with
    the form and with its computed fields recomputed, and the other records,
    the order, the [clientId]s and the filters stay as they were; so a percent
    given in the form is the percent of every stored record that was
    selected. The result counts the selected rows. *)
Theorem handleBulkUpdate_commits (record : DiscountRecord)
    (rest : list DiscountRecord) (updateForm : BulkUpdateData)
    (m : @Bulk.Machine Store) :
  Bulk.validateBulkUpdateData updateForm = [] ->
  uniqueClientIds (Bulk.world m) ->
  let result := handleBulkUpdate (record :: rest) updateForm m in
  let st' := Bulk.world result.2 in
  result.1 = []
  /\ rawData st'
     = map (afterBulkUpdate (record :: rest) updateForm)
         (rawData (Bulk.world m))
  /\ map clientId (rawData st') = map clientId (rawData (Bulk.world m))
  /\ filters st' = filters (Bulk.world m)
  /\ (storeInSync (Bulk.world m) -> storeInSync st')
  /\ (forall p stored,
        BulkUpdate.discountPercent updateForm = Some p ->
        stored ∈ rawData st' ->
        clientId stored ∈ map clientId (record :: rest) ->
        percent stored = p)
  /\ Bulk.lastOperationResult (Bulk.engine result.2)
     = Some ("Successfully updated "
             +:+ Js.String_of_nat (S (List.length rest)) +:+ " records").
Proof.
  intros Hvalid Huniq result st'. subst st' result.
  unfold handleBulkUpdate. rewrite Hvalid. cbv iota beta zeta.
  change (0 <? List.length (@nil string))%nat with false. cbv iota.
  destruct (bulkUpdate_all_records record rest updateForm commitUpdate m
              ltac:(reflexivity))
    as (m' & E & _ & Hw & _ & _ & Hres).
  rewrite E. cbn [fst snd].
  destruct (commitUpdate_all updateForm (record :: rest) (Bulk.world m) Huniq)
    as (Hraw & Hf & _ & _).
  rewrite <- Hw in Hraw, Hf.
  split; [reflexivity|]. split; [exact Hraw|].
  split.
  { rewrite Hraw, map_map. apply map_ext. intros old.
    apply afterBulkUpdate_clientId. }
  split; [exact Hf|]. split.
  { unfold storeInSync. rewrite Hraw. intros Hsync.
    apply Forall_forall. intros r Hin.
    apply list_elem_of_In, in_map_iff in Hin as (old & <- & Hold).
    unfold afterBulkUpdate.
    destruct (List.find _ _); [apply withComputedFields_inSync|].
    rewrite Forall_forall in Hsync. apply Hsync, list_elem_of_In, Hold. }
  split; [|exact Hres].
  intros p stored Hp Hin Hsel. rewrite Hraw in Hin.
  apply list_elem_of_In, in_map_iff in Hin as (old & <- & Hold).
  rewrite afterBulkUpdate_clientId in Hsel. unfold afterBulkUpdate.
  destruct (List.find _ _) as [row|] eqn:Hfind.
  - simpl. rewrite Hp. reflexivity.
  - apply list_elem_of_In, in_map_iff in Hsel as (row & Hid & Hrow).
    pose proof (find_none _ _ Hfind row) as Hnone.
    rewrite <- in_rev in Hnone. specialize (Hnone Hrow).
    rewrite Hid, String.eqb_refl in Hnone. discriminate.
Qed.

(** X20. A form that fails validation never reaches the engine or the
    store: [handleBulkUpdate] shows the messages and leaves the machine as it
    was. A percent outside 0-100 is such a form, whatever else it holds. *)
Theorem handleBulkUpdate_rejects_percent (selectedRows : list DiscountRecord)
    (updateForm : BulkUpdateData) (m : @Bulk.Machine Store) (p : Z) :
  BulkUpdate.discountPercent updateForm = Some p ->
  p < 0 \/ 100 < p ->
  let result := handleBulkUpdate selectedRows updateForm m in
  result.2 = m
  /\ result.1 = Bulk.validateBulkUpdateData updateForm
  /\ "Discount percent must be between 0 and 100" ∈ result.1.
Proof.
  intros Hp Hout result. subst result. unfold handleBulkUpdate.
  assert (Hmsg : exists more,
            Bulk.validateBulkUpdateData updateForm
            = "Discount percent must be between 0 and 100" :: more).
  { rewrite validateBulkUpdateData_checks, Hp.
    replace ((p <? 0) || (100 <? p)) with true
      by (symmetry; apply orb_true_iff; rewrite !Z.ltb_lt; exact Hout).
    eexists. reflexivity. }
  destruct Hmsg as (more & ->). cbv zeta. simpl.
  repeat split. left.
Qed.

(** X21. [handleBulkDelete]: nothing happens when the dialog is declined.
    Once confirmed, on a selection that is not empty, the store is what
    [deleteRecords] makes of it with the [clientId]s of the selected rows:
    no stored record has a selected [clientId] any more, every other record
    is kept, and the result counts the rows selected (not the records
    removed). *)
Theorem handleBulkDelete_removes_selection (record : DiscountRecord)
    (rest : list DiscountRecord) (m : @Bulk.Machine Store) :
  let m' := handleBulkDelete true (record :: rest) m in
  handleBulkDelete false (record :: rest) m = m
  /\ Bulk.world m'
     = deleteRecords (map clientId (record :: rest)) (Bulk.world m)
  /\ (forall stored,
        stored ∈ rawData (Bulk.world m')
        <-> stored ∈ rawData (Bulk.world m)
            /\ clientId stored ∉ map clientId (record :: rest))
  /\ Bulk.lastOperationResult (Bulk.engine m')
     = Some ("Successfully deleted "
             +:+ Js.String_of_nat (S (List.length rest)) +:+ " records")
  /\ Bulk.isProcessing (Bulk.engine m') = false.
Proof.
  intros m'. subst m'. split; [reflexivity|].
  unfold handleBulkDelete. cbv iota. simpl negb. cbv iota.
  destruct (bulkDelete_run record rest commitDelete m)
    as (Hw & Hproc & _ & Hout).
  cbv zeta in *. simpl in Hout. destruct Hout as [_ Hres].
  split; [exact Hw|]. split; [|split; [exact Hres | exact Hproc]].
  intros stored. rewrite Hw. unfold commitDelete, deleteRecords. simpl.
  rewrite list_elem_of_In, filter_In, negb_true_iff, <- list_elem_of_In.
  apply and_iff_compat_l.
  rewrite <- not_true_iff_false. apply not_iff_compat.
  exact (includesId_spec (map clientId (record :: rest)) (clientId stored)).
Qed.

End Wiring.

(** ** Lengths in days and the validation of dates *)

Section DateProperties.
Context `{Host}.

Lemma ceilDiv_positive (a : Z) : 0 < ceilDiv a (1000 * 3600 * 24) <-> 0 < a.
Proof. unfold ceilDiv. Z.div_mod_to_equations. lia. Qed.

Lemma ceilDiv_days (n : Z) :
  ceilDiv (n * JsDate.msPerDay) (1000 * 3600 * 24) = n.
Proof. unfold ceilDiv, JsDate.msPerDay. Z.div_mod_to_equations. lia. Qed.

(** The length is positive exactly when both strings are read as dates and
    the end is after the start. *)
Lemma calculateDaysBetween_positive (startDate endDate : string) :
  0 < calculateDaysBetween startDate endDate
  <-> startDate <> "" /\ endDate <> ""
      /\ exists start end_,
           JsDate.parse startDate = Some start
           /\ JsDate.parse endDate = Some end_ /\ start < end_.
Proof.
  unfold calculateDaysBetween.
  destruct startDate as [|c1 s1]; [simpl; split; [lia | intros [[] _]; reflexivity]|].
  destruct endDate as [|c2 s2];
    [simpl; split; [lia | intros (_ & [] & _); reflexivity]|].
  cbn [isEmptyString orb].
  destruct (JsDate.parse (String c1 s1)) as [start|];
    [destruct (JsDate.parse (String c2 s2)) as [end_|]|].
  - cbv zeta. pose proof (ceilDiv_positive (end_ - start)) as Hpos. split.
    + intros Hlen. repeat split; try discriminate.
      exists start, end_. repeat split. lia.
    + intros (_ & _ & start' & end' & [= <-] & [= <-] & Hlt). lia.
  - split; [lia | intros (_ & _ & ? & ? & _ & [=] & _)].
  - split; [lia | intros (_ & _ & ? & ? & [=] & _)].
Qed.

(** X22. [calculateDaysBetween] is never negative; it is positive exactly
    when both strings are read as dates and the end is after the start, so
    it is 0 for an empty or unreadable date, for a date with itself and for
    an end before the start; of two dates at most one direction is
    positive. *)
Theorem calculateDaysBetween_sign (startDate endDate : string) :
  0 <= calculateDaysBetween startDate endDate
  /\ (0 < calculateDaysBetween startDate endDate
      <-> startDate <> "" /\ endDate <> ""
          /\ exists start end_,
               JsDate.parse startDate = Some start
               /\ JsDate.parse endDate = Some end_ /\ start < end_)
  /\ calculateDaysBetween startDate startDate = 0
  /\ (0 < calculateDaysBetween startDate endDate ->
      calculateDaysBetween endDate startDate = 0).
Proof.
  assert (Hnonneg : forall s e, 0 <= calculateDaysBetween s e).
  { intros s e. unfold calculateDaysBetween.
    destruct (isEmptyString s || isEmptyString e); [lia|].
    destruct (JsDate.parse s); [destruct (JsDate.parse e)|]; lia. }
  assert (Hzero : forall s e,
            ~ 0 < calculateDaysBetween s e -> calculateDaysBetween s e = 0).
  { intros s e Hnot. specialize (Hnonneg s e). lia. }
  split; [apply Hnonneg|]. split; [apply calculateDaysBetween_positive|].
  split.
  - apply Hzero. rewrite calculateDaysBetween_positive.
    intros (_ & _ & start & end_ & Hs & He & Hlt).
    rewrite Hs in He. injection He as <-. lia.
  - intros Hpos. apply Hzero. rewrite calculateDaysBetween_positive in *.
    destruct Hpos as (_ & _ & start & end_ & Hs & He & Hlt).
    intros (_ & _ & start' & end' & He' & Hs' & Hlt').
    rewrite He in He'. rewrite Hs in Hs'.
    injection He' as <-. injection Hs' as <-. lia.
Qed.

(** X23. For two days of the calendar written yyyy-mm-dd the length is the
    number of days from the first to the second, 0 when the second is not
    later, in every time zone. *)
Theorem calculateDaysBetween_calendar_dates (startDate endDate : string)
    (y1 m1 d1 y2 m2 d2 : Z) :
  JsDate.matchesDatePattern startDate = true ->
  JsDate.isoFields startDate = (y1, m1, d1) ->
  1 <= m1 <= 12 -> 1 <= d1 <= JsDate.daysInMonth y1 m1 ->
  JsDate.matchesDatePattern endDate = true ->
  JsDate.isoFields endDate = (y2, m2, d2) ->
  1 <= m2 <= 12 -> 1 <= d2 <= JsDate.daysInMonth y2 m2 ->
  calculateDaysBetween startDate endDate
  = Z.max 0 (JsDate.makeDay y2 m2 d2 - JsDate.makeDay y1 m1 d1).
Proof.
  intros Hp1 Hf1 Hm1 Hd1 Hp2 Hf2 Hm2 Hd2. unfold calculateDaysBetween.
  rewrite (matchesDatePattern_not_empty _ Hp1),
    (matchesDatePattern_not_empty _ Hp2).
  rewrite (parse_calendar_date _ _ _ _ Hp1 Hf1 Hm1 Hd1),
    (parse_calendar_date _ _ _ _ Hp2 Hf2 Hm2 Hd2).
  cbn [orb]. cbv zeta. rewrite <- Z.mul_sub_distr_r, ceilDiv_days.
  reflexivity.
Qed.

Lemma monthLong_not_empty (m : Z) : JsDate.monthLong m <> "".
Proof.
  unfold JsDate.monthLong.
  repeat match goal with
         | |- context [match ?x with _ => _ end] => destruct x
         end; discriminate.
Qed.

(** X24. [isValidDateString] on a string of the form yyyy-mm-dd: true for
    every day of the calendar; false, on every host, when the month is not
    01-12 or the day not 01-31; and a string it accepts has a month name and
    is accepted by [getMonthName]. A string that is not of the form is
    refused whatever the host reads in it. *)
Theorem isValidDateString_calendar (dateString : string) (y m d : Z) :
  JsDate.isoFields dateString = (y, m, d) ->
  (JsDate.matchesDatePattern dateString = false ->
   isValidDateString dateString = false)
  /\ (JsDate.matchesDatePattern dateString = true ->
      1 <= m <= 12 -> 1 <= d <= JsDate.daysInMonth y m ->
      isValidDateString dateString = true)
  /\ (m < 1 \/ 12 < m \/ d < 1 \/ 31 < d ->
      isValidDateString dateString = false)
  /\ (isValidDateString dateString = true -> getMonthName dateString <> "").
Proof.
  intros Hfields. split; [|split; [|split]].
  - intros Hpat. unfold isValidDateString. rewrite Hpat.
    destruct (isEmptyString dateString); reflexivity.
  - intros Hpat Hm Hd. unfold isValidDateString.
    rewrite (matchesDatePattern_not_empty _ Hpat), Hpat.
    rewrite (parse_calendar_date _ _ _ _ Hpat Hfields Hm Hd). reflexivity.
  - intros Hout. unfold isValidDateString.
    destruct (isEmptyString dateString); [reflexivity|].
    destruct (JsDate.matchesDatePattern dateString) eqn:Hpat; [|reflexivity].
    unfold JsDate.parse. rewrite Hpat, Hfields.
    replace ((1 <=? m) && (m <=? 12) && (1 <=? d) && (d <=? 31)) with false;
      [reflexivity|].
    symmetry. apply not_true_iff_false.
    rewrite !andb_true_iff, !Z.leb_le. lia.
  - unfold isValidDateString, getMonthName.
    destruct (isEmptyString dateString); [discriminate|].
    destruct (JsDate.matchesDatePattern dateString); [|discriminate].
    destruct (JsDate.parse dateString); [|discriminate].
    intros _. apply monthLong_not_empty.
Qed.

Lemma Platform_value_not_empty (p : Platform) :
  isEmptyString (Platform_value p) = false.
Proof. destruct p; reflexivity. Qed.

(** What [validateRecord] decides. *)
Lemma validateRecord_true_iff (record : DiscountRecord) :
  validateRecord record = true
  <-> clientId record <> "" /\ client record <> ""
      /\ 0 <= percent record <= 100
      /\ (startDate record <> "" -> endDate record <> "" ->
          forall start end_,
            JsDate.parse (startDate record) = Some start ->
            JsDate.parse (endDate record) = Some end_ -> start < end_).
Proof.
  unfold validateRecord. rewrite Platform_value_not_empty, orb_false_r.
  rewrite <- !isEmptyString_true.
  destruct (isEmptyString (clientId record));
    [split; [discriminate | intros [Hc _]; destruct Hc; reflexivity]|].
  destruct (isEmptyString (client record));
    [split; [discriminate | intros (_ & Hc & _); destruct Hc; reflexivity]|].
  cbn [orb].
  destruct (Z.ltb_spec (percent record) 0);
    [split; [discriminate | intros (_ & _ & Hp & _); lia]|].
  destruct (Z.ltb_spec 100 (percent record));
    [split; [discriminate | intros (_ & _ & Hp & _); lia]|].
  cbn [orb].
  destruct (isEmptyString (startDate record));
    [split; [intros _; repeat split; try discriminate; try lia;
             intros Hs; destruct Hs; reflexivity
            | reflexivity]|].
  destruct (isEmptyString (endDate record));
    [split; [intros _; repeat split; try discriminate; try lia;
             intros _ He; destruct He; reflexivity
            | reflexivity]|].
  cbn [negb andb].
  destruct (Bulk.dateLe (JsDate.parse (endDate record))
              (JsDate.parse (startDate record))) eqn:Hle.
  - split; [discriminate|]. intros (_ & _ & _ & Hord).
    apply not_false_iff_true in Hle. destruct Hle.
    apply dateLe_false_iff. intros x y Hx Hy.
    apply (Hord ltac:(discriminate) ltac:(discriminate) y x Hy Hx).
  - split; [|reflexivity]. intros _.
    repeat split; try discriminate; try lia.
    intros _ _ start end_ Hs He.
    rewrite dateLe_false_iff in Hle. apply (Hle end_ start He Hs).
Qed.

(** X25. A record that [validateRecord] accepts has a [clientId] and a
    client, a percent from 0 to 100 and, when both dates are given and read
    as dates, a length of at least one day once its computed fields are set.
    The check of the platform never fails, and dates that are not read as
    dates are let through. *)
Theorem validateRecord_accepts (record : DiscountRecord) :
  validateRecord record = true ->
  clientId record <> "" /\ client record <> ""
  /\ 0 <= percent record <= 100
  /\ (forall start end_,
        startDate record <> "" -> endDate record <> "" ->
        JsDate.parse (startDate record) = Some start ->
        JsDate.parse (endDate record) = Some end_ ->
        start < end_
        /\ exists days,
             length (withComputedFields record) = Some days /\ 1 <= days).
Proof.
  intros Hvalid. apply validateRecord_true_iff in Hvalid
    as (Hid & Hclient & Hpercent & Hord).
  split; [exact Hid|]. split; [exact Hclient|]. split; [exact Hpercent|].
  intros start end_ Hs He Hstart Hend.
  pose proof (Hord Hs He start end_ Hstart Hend) as Hlt.
  split; [exact Hlt|].
  eexists. split; [reflexivity|].
  assert (Hpos : 0 < calculateDaysBetween (startDate record)
                       (endDate record)); [|lia].
  apply calculateDaysBetween_positive. repeat split; try assumption.
  exists start, end_. repeat split; assumption.
Qed.

(** X26. A form that passes [validateBulkUpdateData] and gives both dates
    or neither keeps a record acceptable: when [validateRecord] accepts a
    record, it accepts the record merged with the form. *)
Theorem valid_form_keeps_record_valid (record : DiscountRecord)
    (updateForm : BulkUpdateData) :
  Bulk.validateBulkUpdateData updateForm = [] ->
  (is_Some (Bulk.truthyString (BulkUpdate.startDate updateForm))
   <-> is_Some (Bulk.truthyString (BulkUpdate.endDate updateForm))) ->
  validateRecord record = true ->
  validateRecord (Bulk.applyUpdate record updateForm) = true.
Proof.
  intros Hform Hboth Hrecord.
  rewrite validateBulkUpdateData_checks in Hform.
  apply app_eq_nil in Hform as [Hpercent Hform].
  apply app_eq_nil in Hform as [_ Hform].
  apply app_eq_nil in Hform as [_ Horder].
  apply validateRecord_true_iff in Hrecord as (Hid & Hclient & Hp & Hord).
  apply validateRecord_true_iff. cbn [Bulk.applyUpdate clientId client
    percent startDate endDate].
  split; [exact Hid|]. split; [exact Hclient|]. split.
  - destruct (BulkUpdate.discountPercent updateForm) as [p|]; [|exact Hp].
    simpl. destruct (Z.ltb_spec p 0); [discriminate Hpercent|].
    destruct (Z.ltb_spec 100 p); [discriminate Hpercent|]. lia.
  - destruct (Bulk.truthyString (BulkUpdate.startDate updateForm)) as [s|];
      destruct (Bulk.truthyString (BulkUpdate.endDate updateForm)) as [e|];
      cbn [default from_option].
    + intros _ _ start end_ Hs He.
      destruct (Bulk.dateLe (JsDate.parse e) (JsDate.parse s)) eqn:Hle;
        [discriminate Horder|].
      rewrite dateLe_false_iff in Hle. apply (Hle end_ start He Hs).
    + destruct Hboth as [Hboth _]. destruct (Hboth ltac:(eauto)) as [? [=]].
    + destruct Hboth as [_ Hboth]. destruct (Hboth ltac:(eauto)) as [? [=]].
    + exact Hord.
Qed.

End DateProperties.

Lemma get_colonsToDashes (s : string) (i : nat) :
  get i (Csv.colonsToDashes s)
  = option_map (fun c => if Ascii.eqb c ":" then "-"%char else c) (get i s).
Proof.
  revert i. induction s as [|c s IH]; intros [|i]; simpl; try reflexivity.
  apply IH.
Qed.

Lemma get_substring_0 (n : nat) (s : string) (i : nat) :
  get i (substring 0 n s) = if (i <? n)%nat then get i s else None.
Proof.
  destruct (Nat.ltb_spec i n) as [Hlt|Hge].
  - rewrite (substring_correct1 s 0 n i Hlt), Nat.add_0_r. reflexivity.
  - apply substring_correct2, Hge.
Qed.

(** X27. The name [generateFilename] makes is the prefix, a dash, the first
    19 units of the time stamp (all of it when it is shorter) with every
    colon turned into a dash and every other unit kept, and '.csv'; it holds
    a colon only if the prefix does. *)
Theorem generateFilename_shape (isoNow prefix : string) :
  exists timestamp,
    Csv.generateFilename isoNow prefix
    = prefix +:+ "-" +:+ timestamp +:+ ".csv"
    /\ String.length timestamp = Nat.min 19 (String.length isoNow)
    /\ (forall i,
          get i timestamp
          = if (i <? 19)%nat
            then match get i isoNow with
                 | Some c => Some (if Ascii.eqb c ":" then "-"%char else c)
                 | None => None
                 end
            else None)
    /\ Js.includesUnit timestamp ":" = false
    /\ Js.includesUnit (Csv.generateFilename isoNow prefix) ":"
       = Js.includesUnit prefix ":".
Proof.
  assert (Hcolon : forall s, Js.includesUnit (Csv.colonsToDashes s) ":" = false).
  { induction s as [|c s IH]; [reflexivity|].
    cbn [Csv.colonsToDashes Js.includesUnit]. rewrite IH, orb_false_r.
    destruct (Ascii.eqb_spec c ":") as [->|Hne]; [reflexivity|].
    apply Ascii.eqb_neq, Hne. }
  assert (Hlen : forall s, String.length (Csv.colonsToDashes s) = String.length s).
  { induction s as [|c s IH]; [reflexivity|]. simpl. rewrite IH. reflexivity. }
  assert (Hsub : forall n s, String.length (substring 0 n s)
                             = Nat.min n (String.length s)).
  { induction n as [|n IH]; intros [|c s]; simpl; try reflexivity.
    rewrite IH. reflexivity. }
  exists (Csv.colonsToDashes (substring 0 19 isoNow)).
  split; [reflexivity|]. split; [rewrite Hlen; apply Hsub|].
  split.
  { intros i. rewrite get_colonsToDashes, get_substring_0.
    destruct (i <? 19)%nat; reflexivity. }
  split; [apply Hcolon|].
  unfold Csv.generateFilename. cbv zeta.
  rewrite !includesUnit_app, Hcolon. cbn [Js.includesUnit].
  change (Ascii.eqb "-" ":") with false. simpl.
  rewrite !orb_false_r. reflexivity.
Qed.

(** An ISO time stamp gives the name the application shows. *)
Example generateFilename_ex :
  Csv.generateFilename "2024-05-10T12:34:56.789Z" "selected-discounts"
  = "selected-discounts-2024-05-10T12-34-56.csv".
Proof. reflexivity. Qed.

(** ** Calendar arithmetic: every day number is a date *)

Lemma daysInMonth_bounds (y m : Z) :
  1 <= m <= 12 -> 28 <= JsDate.daysInMonth y m <= 31.
Proof.
  intros Hm. unfold JsDate.daysInMonth.
  assert (Hc : m = 1 \/ m = 2 \/ m = 3 \/ m = 4 \/ m = 5 \/ m = 6 \/ m = 7
               \/ m = 8 \/ m = 9 \/ m = 10 \/ m = 11 \/ m = 12) by lia.
  destruct (JsDate.isLeapYear y);
    destruct Hc as [->|[->|[->|[->|[->|[->|[->|[->|[->|[->|[->| ->]]]]]]]]]]];
    lia.
Qed.

Lemma makeDay_pred_exists (y m d : Z) :
  1 <= m <= 12 -> 1 <= d <= JsDate.daysInMonth y m ->
  exists y' m' d',
    1 <= m' <= 12 /\ 1 <= d' <= JsDate.daysInMonth y' m'
    /\ JsDate.makeDay y' m' d' = JsDate.makeDay y m d - 1.
Proof.
  intros Hm Hd. destruct (Z.eq_dec d 1) as [->|Hne].
  - rewrite (makeDay_first_pred y m Hm). unfold lastDayBefore.
    destruct (Z.eqb_spec m 1) as [->|Hm1].
    + exists (y - 1), 12, 31. repeat split; simpl; lia.
    + exists y, (m - 1), (JsDate.daysInMonth y (m - 1)).
      pose proof (daysInMonth_bounds y (m - 1) ltac:(lia)).
      repeat split; lia.
  - exists y, m, (d - 1). unfold JsDate.makeDay. repeat split; lia.
Qed.

Lemma makeDay_succ_exists (y m d : Z) :
  1 <= m <= 12 -> 1 <= d <= JsDate.daysInMonth y m ->
  exists y' m' d',
    1 <= m' <= 12 /\ 1 <= d' <= JsDate.daysInMonth y' m'
    /\ JsDate.makeDay y' m' d' = JsDate.makeDay y m d + 1.
Proof.
  intros Hm Hd. destruct (Z.eq_dec d (JsDate.daysInMonth y m)) as [->|Hne].
  - destruct (Z.eq_dec m 12) as [->|Hm12].
    + exists (y + 1), 1, 1.
      pose proof (makeDay_first_pred (y + 1) 1 ltac:(lia)) as Hpred.
      unfold lastDayBefore in Hpred. simpl in Hpred.
      replace (y + 1 - 1) with y in Hpred by lia.
      repeat split; simpl; lia.
    + exists y, (m + 1), 1.
      pose proof (makeDay_first_pred y (m + 1) ltac:(lia)) as Hpred.
      unfold lastDayBefore in Hpred.
      destruct (Z.eqb_spec (m + 1) 1) as [Heq|_]; [lia|].
      replace (m + 1 - 1) with m in Hpred by lia.
      pose proof (daysInMonth_bounds y (m + 1) ltac:(lia)).
      repeat split; lia.
  - exists y, m, (d + 1). unfold JsDate.makeDay. repeat split; lia.
Qed.

Lemma makeDay_surjective (n : Z) :
  exists y m d,
    1 <= m <= 12 /\ 1 <= d <= JsDate.daysInMonth y m
    /\ JsDate.makeDay y m d = n.
Proof.
  induction n as [|n IH|n IH] using Z.peano_ind.
  - exists 1970, 1, 1. repeat split; simpl; lia.
  - destruct IH as (y & m & d & Hm & Hd & <-).
    destruct (makeDay_succ_exists y m d Hm Hd) as (y' & m' & d' & ? & ? & E).
    exists y', m', d'. repeat split; try lia.
  - destruct IH as (y & m & d & Hm & Hd & <-).
    destruct (makeDay_pred_exists y m d Hm Hd) as (y' & m' & d' & ? & ? & E).
    exists y', m', d'. repeat split; try lia.
Qed.

(** The calendar date of a day number is a day of the calendar, and the
    day number of that day is the number. *)
Lemma civilFromDays_valid (n : Z) :
  exists y m d,
    JsDate.civilFromDays n = (y, m, d)
    /\ 1 <= m <= 12 /\ 1 <= d <= JsDate.daysInMonth y m
    /\ JsDate.makeDay y m d = n.
Proof.
  destruct (makeDay_surjective n) as (y & m & d & Hm & Hd & <-).
  exists y, m, d. split; [apply civilFromDays_makeDay; assumption|].
  repeat split; lia.
Qed.

Lemma dayFromYear_succ (y : Z) :
  JsDate.dayFromYear (y + 1)
  = JsDate.dayFromYear y + 365 + (if JsDate.isLeapYear y then 1 else 0).
Proof.
  unfold JsDate.dayFromYear.
  destruct (isLeapYear_cases y)
    as [(Hl & H4 & H100)|[(Hl & H400)|[(Hl & H4)|[(Hl & H4)|[(Hl & H4)
        |(Hl & H100 & H400)]]]]];
    rewrite Hl; clear Hl; Z.div_mod_to_equations; lia.
Qed.

Lemma dayFromYear_monotone (y1 y2 : Z) :
  y1 <= y2 -> JsDate.dayFromYear y1 <= JsDate.dayFromYear y2.
Proof.
  intros Hle. replace y2 with (y1 + Z.of_nat (Z.to_nat (y2 - y1))) by lia.
  induction (Z.to_nat (y2 - y1)) as [|k IH].
  - rewrite Z.add_0_r. lia.
  - replace (y1 + Z.of_nat (S k)) with (y1 + Z.of_nat k + 1) by lia.
    rewrite dayFromYear_succ.
    destruct (JsDate.isLeapYear (y1 + Z.of_nat k)); lia.
Qed.

Lemma makeDay_within_year (y m d : Z) :
  1 <= m <= 12 -> 1 <= d <= JsDate.daysInMonth y m ->
  JsDate.dayFromYear y <= JsDate.makeDay y m d < JsDate.dayFromYear (y + 1).
Proof.
  intros Hm. rewrite dayFromYear_succ.
  unfold JsDate.makeDay, JsDate.daysBeforeMonth, JsDate.daysInMonth.
  assert (Hc : m = 1 \/ m = 2 \/ m = 3 \/ m = 4 \/ m = 5 \/ m = 6 \/ m = 7
               \/ m = 8 \/ m = 9 \/ m = 10 \/ m = 11 \/ m = 12) by lia.
  destruct (JsDate.isLeapYear y);
    destruct Hc as [->|[->|[->|[->|[->|[->|[->|[->|[->|[->|[->| ->]]]]]]]]]]];
    lia.
Qed.

(** ** Decimal numerals as [String(n)] writes them *)

Lemma allDigits_string_of_uint (u : Decimal.uint) :
  JsDate.allDigits (NilEmpty.string_of_uint u) = true.
Proof. induction u; simpl; [reflexivity | exact IHu ..]. Qed.

Lemma length_string_of_uint (u : Decimal.uint) :
  String.length (NilEmpty.string_of_uint u) = Decimal.nb_digits u.
Proof. induction u; simpl; congruence. Qed.

(** Reading digits after [acc] shifts [acc] by their number. *)
Lemma numberOfDigitsFrom_string_of_uint (u : Decimal.uint) (acc : Z) :
  JsDate.numberOfDigitsFrom acc (NilEmpty.string_of_uint u)
  = acc * 10 ^ Z.of_nat (Decimal.nb_digits u)
    + JsDate.numberOfDigitsFrom 0 (NilEmpty.string_of_uint u)
  /\ 0 <= JsDate.numberOfDigitsFrom 0 (NilEmpty.string_of_uint u)
     < 10 ^ Z.of_nat (Decimal.nb_digits u).
Proof.
  revert acc. induction u as [|u IH|u IH|u IH|u IH|u IH|u IH|u IH|u IH|u IH|u IH];
    intros acc; [simpl; lia|..];
    (cbn [NilEmpty.string_of_uint JsDate.numberOfDigitsFrom Decimal.nb_digits];
    rewrite Nat2Z.inj_succ, Z.pow_succ_r by lia;
    match goal with
    | |- context [JsDate.digitValue ?c] =>
        let v := eval compute in (JsDate.digitValue c) in
        change (JsDate.digitValue c) with v
    end;
    destruct (IH (10 * acc + 0)) as [_ Hb];
    match goal with
    | |- context [JsDate.numberOfDigitsFrom (10 * acc + ?k)] =>
        destruct (IH (10 * acc + k)) as [-> _];
        destruct (IH (10 * 0 + k)) as [-> _]
    end;
    set (P := 10 ^ Z.of_nat (Decimal.nb_digits u)) in *;
    (split; [ring | lia])).
Qed.

Lemma numberOfDigitsFrom_of_uint_acc (u : Decimal.uint) (acc : positive) :
  JsDate.numberOfDigitsFrom (Z.pos acc) (NilEmpty.string_of_uint u)
  = Z.pos (Pos.of_uint_acc u acc).
Proof.
  revert acc. induction u; intros acc;
    cbn [NilEmpty.string_of_uint JsDate.numberOfDigitsFrom Pos.of_uint_acc];
    [reflexivity|..];
    rewrite <- IHu; f_equal;
    match goal with
    | |- context [JsDate.digitValue ?c] =>
        let v := eval compute in (JsDate.digitValue c) in
        change (JsDate.digitValue c) with v
    end; lia.
Qed.

Lemma numberOfDigits_string_of_uint (u : Decimal.uint) :
  JsDate.numberOfDigits (NilEmpty.string_of_uint u) = Z.of_uint u.
Proof.
  unfold JsDate.numberOfDigits, Z.of_uint.
  induction u; simpl; [reflexivity | exact IHu | ..];
    apply numberOfDigitsFrom_of_uint_acc.
Qed.

(** What [String(n)] writes reads back as [n]. *)
Lemma numberOfDigits_String_of_number (z : Z) :
  0 <= z ->
  JsDate.allDigits (Js.String_of_number z) = true
  /\ JsDate.numberOfDigits (Js.String_of_number z) = z.
Proof.
  intros Hz. unfold Js.String_of_number.
  pose proof (DecimalZ.of_to z) as Hback.
  destruct (Z.to_int z) as [u|u] eqn:Hu.
  - simpl. split; [apply allDigits_string_of_uint|].
    rewrite numberOfDigits_string_of_uint. exact Hback.
  - destruct z; simpl in Hu; try discriminate Hu. lia.
Qed.

Lemma unorm_D0_Nil (u l : Decimal.uint) :
  Decimal.unorm u = Decimal.D0 l -> l = Decimal.Nil.
Proof.
  unfold Decimal.unorm. destruct (Decimal.nzhead u) eqn:Hhead;
    intros Heq; try discriminate Heq.
  - injection Heq as <-. reflexivity.
  - destruct (DecimalFacts.nzhead_nonzero _ _ Hhead).
Qed.

(** A numeral without leading zero is at least the power of ten of its
    length. *)
Lemma of_uint_lower_bound (p : positive) :
  10 ^ (Z.of_nat (Decimal.nb_digits (Pos.to_uint p)) - 1)
  <= JsDate.numberOfDigitsFrom 0 (NilEmpty.string_of_uint (Pos.to_uint p)).
Proof.
  pose proof (DecimalPos.Unsigned.to_of (Pos.to_uint p)) as Hnorm.
  rewrite DecimalPos.Unsigned.of_to in Hnorm. simpl in Hnorm.
  pose proof (DecimalPos.Unsigned.to_uint_nonzero p) as Hnz.
  destruct (Pos.to_uint p) as [|u|u|u|u|u|u|u|u|u|u] eqn:Hu;
    [simpl; lia
    |symmetry in Hnorm; apply unorm_D0_Nil in Hnorm; subst u;
     destruct Hnz; reflexivity
    |..];
    (cbn [NilEmpty.string_of_uint JsDate.numberOfDigitsFrom
          Decimal.nb_digits];
     match goal with
     | |- context [JsDate.digitValue ?c] =>
         let v := eval compute in (10 * 0 + JsDate.digitValue c) in
         change (10 * 0 + JsDate.digitValue c) with v;
         destruct (numberOfDigitsFrom_string_of_uint u v) as [-> Hb]
     end;
     replace (Z.of_nat (S (Decimal.nb_digits u)) - 1)
       with (Z.of_nat (Decimal.nb_digits u)) by lia;
     lia).
Qed.

Lemma year_digits (y : Z) :
  1000 <= y <= 9999 -> digitsOf 4 y (Js.String_of_number y) = true.
Proof.
  intros Hy. unfold digitsOf.
  destruct (numberOfDigits_String_of_number y ltac:(lia)) as [Hdigits Hvalue].
  rewrite Hdigits, Hvalue, Z.eqb_refl, !andb_true_r.
  apply Nat.eqb_eq.
  destruct y as [|p|p]; try lia.
  unfold Js.String_of_number in *. simpl in *.
  rewrite length_string_of_uint.
  pose proof (of_uint_lower_bound p) as Hlow.
  destruct (numberOfDigitsFrom_string_of_uint (Pos.to_uint p) 0) as [_ Hup].
  unfold JsDate.numberOfDigits in Hvalue. rewrite Hvalue in Hlow, Hup.
  set (n := Decimal.nb_digits (Pos.to_uint p)) in *.
  destruct (Nat.lt_trichotomy n 4) as [Hlt|[Heq|Hgt]]; [|exact Heq|].
  - pose proof (Z.pow_le_mono_r 10 (Z.of_nat n) 3 ltac:(lia) ltac:(lia)).
    change (10 ^ 3) with 1000 in *. lia.
  - pose proof (Z.pow_le_mono_r 10 4 (Z.of_nat n - 1) ltac:(lia) ltac:(lia)).
    change (10 ^ 4) with 10000 in *. lia.
Qed.

(** ** Dates as [formatDate] writes them *)

Lemma two_digits (z : Z) :
  1 <= z <= 31 ->
  digitsOf 2 z (Js.padStart0 2 (Js.String_of_number z)) = true.
Proof.
  intros Hz.
  assert (Hall :
    forallb (fun k =>
               digitsOf 2 (Z.of_nat k)
                 (Js.padStart0 2 (Js.String_of_number (Z.of_nat k))))
      (seq 1 31) = true) by (vm_compute; reflexivity).
  rewrite forallb_forall in Hall.
  specialize (Hall (Z.to_nat z)). rewrite Z2Nat.id in Hall by lia.
  apply Hall, in_seq. lia.
Qed.

(** Four digits, a dash, two digits, a dash, two digits: the pattern and
    its fields. *)
Lemma date_text_fields (ys ms ds : string) (y m d : Z) :
  digitsOf 4 y ys = true -> digitsOf 2 m ms = true ->
  digitsOf 2 d ds = true ->
  JsDate.matchesDatePattern (ys +:+ "-" +:+ ms +:+ "-" +:+ ds) = true
  /\ JsDate.isoFields (ys +:+ "-" +:+ ms +:+ "-" +:+ ds) = (y, m, d).
Proof.
  unfold digitsOf. rewrite !andb_true_iff, !Z.eqb_eq, !Nat.eqb_eq.
  intros [[Hly Hdy] Hy] [[Hlm Hdm] Hm] [[Hld Hdd] Hd].
  destruct ys as [|y1 [|y2 [|y3 [|y4 [|? ?]]]]]; try discriminate Hly.
  destruct ms as [|m1 [|m2 [|? ?]]]; try discriminate Hlm.
  destruct ds as [|d1 [|d2 [|? ?]]]; try discriminate Hld.
  cbn [JsDate.allDigits] in Hdy, Hdm, Hdd.
  apply andb_prop in Hdy as [Hy1 Hdy]. apply andb_prop in Hdy as [Hy2 Hdy].
  apply andb_prop in Hdy as [Hy3 Hdy]. apply andb_prop in Hdy as [Hy4 _].
  apply andb_prop in Hdm as [Hm1 Hdm]. apply andb_prop in Hdm as [Hm2 _].
  apply andb_prop in Hdd as [Hd1 Hdd]. apply andb_prop in Hdd as [Hd2 _].
  change (String y1 (String y2 (String y3 (String y4 ""))) +:+ "-"
          +:+ String m1 (String m2 "") +:+ "-" +:+ String d1 (String d2 ""))
    with (String y1 (String y2 (String y3 (String y4 (String "-"
            (String m1 (String m2 (String "-"
               (String d1 (String d2 "")))))))))).
  split.
  - unfold JsDate.matchesDatePattern.
    cbn [String.length substring get JsDate.allDigits JsDate.isDash Nat.eqb].
    rewrite Hy1, Hy2, Hy3, Hy4, Hm1, Hm2, Hd1, Hd2. reflexivity.
  - unfold JsDate.isoFields. cbn [substring].
    rewrite <- Hy, <- Hm, <- Hd. reflexivity.
Qed.

Section FormatDate.
Context `{Host}.

Lemma formatDate_parse (t : Z) :
  fourDigitYear t ->
  JsDate.matchesDatePattern (formatDate t) = true
  /\ JsDate.parse (formatDate t)
     = Some (JsDate.dayOfTime (t + LocalTZA t) * JsDate.msPerDay).
Proof.
  intros Hyear. unfold formatDate.
  destruct (civilFromDays_valid (JsDate.dayOfTime (t + LocalTZA t)))
    as (y & m & d & -> & Hm & Hd & Hday).
  assert (Hy : 1000 <= y <= 9999).
  { pose proof (makeDay_within_year y m d Hm Hd) as Hwithin.
    rewrite Hday in Hwithin.
    assert (Hn : -354285 <= JsDate.dayOfTime (t + LocalTZA t) < 2932897).
    { unfold fourDigitYear in Hyear. unfold JsDate.dayOfTime, JsDate.msPerDay.
      Z.div_mod_to_equations. lia. }
    change (-354285) with (JsDate.dayFromYear 1000) in Hn.
    change 2932897 with (JsDate.dayFromYear 10000) in Hn.
    split.
    - destruct (Z.le_gt_cases 1000 y) as [Hle|Hgt]; [exact Hle|].
      pose proof (dayFromYear_monotone (y + 1) 1000 ltac:(lia)). lia.
    - destruct (Z.le_gt_cases y 9999) as [Hle|Hgt]; [exact Hle|].
      pose proof (dayFromYear_monotone 10000 y ltac:(lia)). lia. }
  pose proof (daysInMonth_bounds y m Hm) as Hdim.
  destruct (date_text_fields _ _ _ y m d (year_digits y Hy)
              (two_digits m ltac:(lia)) (two_digits d ltac:(lia)))
    as [Hpat Hfields].
  split; [exact Hpat|].
  rewrite (parse_calendar_date _ y m d Hpat Hfields Hm Hd), Hday.
  reflexivity.
Qed.

(** X28. What [formatDate] writes for a time whose local year has four
    digits is a valid date string, read back as midnight UTC of the local
    day; at UTC and east of it (an offset of less than a day) its month name
    is the month of the time, in local time. *)
Theorem formatDate_round_trip (t : Z) :
  fourDigitYear t ->
  isValidDateString (formatDate t) = true
  /\ JsDate.parse (formatDate t)
     = Some (JsDate.dayOfTime (t + LocalTZA t) * JsDate.msPerDay)
  /\ ((forall u, 0 <= LocalTZA u < JsDate.msPerDay) ->
      getMonthName (formatDate t) = JsDate.toLocaleMonthLong t).
Proof.
  intros Hyear. destruct (formatDate_parse t Hyear) as [Hpat Hparse].
  split; [|split; [exact Hparse|]].
  - unfold isValidDateString.
    rewrite (matchesDatePattern_not_empty _ Hpat), Hpat, Hparse.
    reflexivity.
  - intros Heast. unfold getMonthName.
    rewrite (matchesDatePattern_not_empty _ Hpat), Hparse.
    unfold JsDate.toLocaleMonthLong, JsDate.monthFromTime.
    set (day := JsDate.dayOfTime (t + LocalTZA t)).
    specialize (Heast (day * JsDate.msPerDay)).
    replace (JsDate.dayOfTime
               (day * JsDate.msPerDay + LocalTZA (day * JsDate.msPerDay)))
      with day; [reflexivity|].
    unfold JsDate.dayOfTime, JsDate.msPerDay in *.
    Z.div_mod_to_equations. lia.
Qed.

End FormatDate.

(** ** The dates of a generated record *)

Section GeneratedDates.
Context `{Host}.

Lemma CLIENT_OPTIONS_not_empty (c : string) :
  c ∈ CLIENT_OPTIONS -> c <> "".
Proof.
  intros Hin Hempty. subst c. apply list_elem_of_In in Hin.
  simpl in Hin. repeat destruct Hin as [Hin|Hin]; try discriminate Hin.
  exact Hin.
Qed.

(** The length between two formatted times a whole number of days apart, on
    a host whose offset from UTC is constant. *)
Lemma calculateDaysBetween_formatDate (offset t k : Z) :
  (forall u, LocalTZA u = offset) ->
  fourDigitYear t -> fourDigitYear (t + k * 24 * 60 * 60 * 1000) ->
  calculateDaysBetween (formatDate t)
    (formatDate (t + k * 24 * 60 * 60 * 1000))
  = Z.max 0 k
  /\ exists start,
       JsDate.parse (formatDate t) = Some start
       /\ JsDate.parse (formatDate (t + k * 24 * 60 * 60 * 1000))
          = Some (start + k * JsDate.msPerDay).
Proof.
  intros Hoffset Ht Hk.
  destruct (formatDate_parse t Ht) as [Hp1 Hparse1].
  destruct (formatDate_parse _ Hk) as [Hp2 Hparse2].
  rewrite !Hoffset in Hparse1, Hparse2.
  assert (Hday :
    JsDate.dayOfTime (t + k * 24 * 60 * 60 * 1000 + offset)
    = JsDate.dayOfTime (t + offset) + k).
  { unfold JsDate.dayOfTime, JsDate.msPerDay. Z.div_mod_to_equations. lia. }
  rewrite Hday in Hparse2. split.
  - unfold calculateDaysBetween.
    rewrite (matchesDatePattern_not_empty _ Hp1),
      (matchesDatePattern_not_empty _ Hp2), Hparse1, Hparse2.
    cbn [orb]. cbv zeta.
    replace ((JsDate.dayOfTime (t + offset) + k) * JsDate.msPerDay
             - JsDate.dayOfTime (t + offset) * JsDate.msPerDay)
      with (k * JsDate.msPerDay) by lia.
    rewrite ceilDiv_days. reflexivity.
  - eexists. split; [exact Hparse1|]. rewrite Hparse2. f_equal. lia.
Qed.

(** X29. The dates of a generated record, on a host whose offset from UTC
    is constant and with a clock whose year before and year after lie in the
    years 1000-9999: the three dates are valid date strings; once the
    computed fields are set, the length is the number of days drawn for the
    sale, from 1 to 30; the deadline lies 1 to 14 days before the start; and
    [validateRecord] accepts the record. *)
Theorem generated_record_dates (index : nat) (d : Draw) (offset : Z) :
  (forall t, LocalTZA t = offset) ->
  fourDigitYear (now d - 365 * JsDate.msPerDay) ->
  fourDigitYear (now d + 365 * JsDate.msPerDay) ->
  let record := withComputedFields (generateDiscountRecord index d) in
  isValidDateString (startDate record) = true
  /\ isValidDateString (endDate record) = true
  /\ isValidDateString (deadline record) = true
  /\ length record = Some (randomInt 1 30 (endDaysPick d))
  /\ 1 <= randomInt 1 30 (endDaysPick d) <= 30
  /\ calculateDaysBetween (deadline record) (startDate record)
     = randomInt 1 14 (deadlineDaysPick d)
  /\ 1 <= randomInt 1 14 (deadlineDaysPick d) <= 14
  /\ validateRecord record = true.
Proof.
  intros Hoffset Hbefore Hafter record.
  pose proof (randomInt_range 1 30 (endDaysPick d) ltac:(lia)) as Hdays.
  pose proof (randomInt_range 1 14 (deadlineDaysPick d) ltac:(lia)) as Hlead.
  pose proof (randomInt_range 5 75 (percentPick d) ltac:(lia)) as Hpercent.
  set (days := randomInt 1 30 (endDaysPick d)) in *.
  set (lead := randomInt 1 14 (deadlineDaysPick d)) in *.
  set (start :=
         now d - 6 * 30 * 24 * 60 * 60 * 1000
         + Z.of_nat (startPick d)
           mod (now d + 6 * 30 * 24 * 60 * 60 * 1000
                - (now d - 6 * 30 * 24 * 60 * 60 * 1000))).
  assert (Hstart :
    now d - 6 * 30 * 24 * 60 * 60 * 1000 <= start
    < now d + 6 * 30 * 24 * 60 * 60 * 1000).
  { subst start.
    pose proof (Z.mod_pos_bound (Z.of_nat (startPick d))
                  (now d + 6 * 30 * 24 * 60 * 60 * 1000
                   - (now d - 6 * 30 * 24 * 60 * 60 * 1000)) ltac:(lia)).
    lia. }
  unfold fourDigitYear in Hbefore, Hafter.
  rewrite Hoffset in Hbefore, Hafter. unfold JsDate.msPerDay in Hbefore, Hafter.
  assert (Hy : forall k, -14 <= k <= 30 ->
                 fourDigitYear (start + k * 24 * 60 * 60 * 1000)).
  { intros k Hk. unfold fourDigitYear. rewrite Hoffset. lia. }
  assert (Hy0 : fourDigitYear start).
  { unfold fourDigitYear. rewrite Hoffset. lia. }
  assert (Hstart_text : startDate record = formatDate start) by reflexivity.
  assert (Hend_text :
    endDate record = formatDate (start + days * 24 * 60 * 60 * 1000))
    by reflexivity.
  assert (Hdeadline_text :
    deadline record = formatDate (start - lead * 24 * 60 * 60 * 1000))
    by reflexivity.
  destruct (calculateDaysBetween_formatDate offset start days Hoffset Hy0
              (Hy days ltac:(lia))) as (Hlen & ts & Hps & Hpe).
  assert (Hyd : fourDigitYear (start - lead * 24 * 60 * 60 * 1000)).
  { replace (start - lead * 24 * 60 * 60 * 1000)
      with (start + (- lead) * 24 * 60 * 60 * 1000) by lia.
    apply Hy. lia. }
  destruct (calculateDaysBetween_formatDate offset
              (start - lead * 24 * 60 * 60 * 1000) lead Hoffset Hyd)
    as (Hlead_len & _).
  { replace (start - lead * 24 * 60 * 60 * 1000 + lead * 24 * 60 * 60 * 1000)
      with start by lia. exact Hy0. }
  replace (start - lead * 24 * 60 * 60 * 1000 + lead * 24 * 60 * 60 * 1000)
    with start in Hlead_len by lia.
  assert (Hvalid : forall t, fourDigitYear t ->
                     isValidDateString (formatDate t) = true).
  { intros t Ht. destruct (formatDate_parse t Ht) as [Hpat Hparse].
    unfold isValidDateString.
    rewrite (matchesDatePattern_not_empty _ Hpat), Hpat, Hparse.
    reflexivity. }
  rewrite Hstart_text, Hend_text, Hdeadline_text.
  split; [apply Hvalid, Hy0|]. split; [apply Hvalid, Hy; lia|].
  split; [apply Hvalid, Hyd|].
  split.
  { change (length record)
      with (Some (calculateDaysBetween (formatDate start)
                    (formatDate (start + days * 24 * 60 * 60 * 1000)))).
    rewrite Hlen. f_equal. lia. }
  split; [exact Hdays|].
  split; [rewrite Hlead_len; lia|]. split; [exact Hlead|].
  apply validateRecord_true_iff.
  split; [discriminate|].
  split.
  { apply CLIENT_OPTIONS_not_empty.
    change (client record)
      with (randomChoice CLIENT_OPTIONS (clientPick d) "").
    apply randomChoice_In. discriminate. }
  split.
  { change (percent record) with (randomInt 5 75 (percentPick d)). lia. }
  rewrite Hstart_text, Hend_text. intros _ _ s e Hs He.
  rewrite Hps in Hs. rewrite Hpe in He.
  injection Hs as <-. injection He as <-. unfold JsDate.msPerDay. lia.
Qed.

End GeneratedDates.

(** ** The regions of the generator and of the grid's editor *)

Section Regions.
Context `{Host}.

(** X30. The generator and the editor of the Region column disagree on
    the regions of a platform: a generated Steam record is always Global,
    though the editor offers four regions for Steam; and for every index the
    generator can produce a record whose region the editor does not offer
    for its platform (Epic Games Store in Europe). *)
Theorem generator_and_editor_regions (index : nat) :
  (forall d,
     platform (generateDiscountRecord index d) = STEAM ->
     region (generateDiscountRecord index d) = GLOBAL)
  /\ List.length (regionEditorValues (Some STEAM)) = 4%nat
  /\ exists d,
       platform (generateDiscountRecord index d) = EPIC
       /\ region (generateDiscountRecord index d) = EUROPE
       /\ (region (generateDiscountRecord index d)
           ∉ regionEditorValues
               (Some (platform (generateDiscountRecord index d)))).
Proof.
  split; [|split; [reflexivity|]].
  - intros d Hsteam.
    assert (Hregion :
      region (generateDiscountRecord index d)
      ∈ getValidRegions (platform (generateDiscountRecord index d))).
    { apply randomChoice_In.
      destruct (platform (generateDiscountRecord index d)); discriminate. }
    rewrite Hsteam in Hregion. apply list_elem_of_singleton in Hregion.
    exact Hregion.
  - exists {| now := 0; startPick := 0; endDaysPick := 0; platformPick := 1;
              regionPick := 2; clientPick := 0; implementationPick := 0;
              salesPick := 0; templatePick := 0; genrePick := 0;
              namePercentPick := 0; nameWithGenre := false;
              nameWithPercent := false; startHourPick := 0;
              startMinutePick := 0; endHourPick := 0; endMinutePick := 0;
              percentPick := 0; deadlineDaysPick := 0; commentPick := 0 |}.
    split; [reflexivity|]. split; [reflexivity|].
    change (EUROPE ∉ [GLOBAL]). intros Hin.
    apply list_elem_of_singleton in Hin. discriminate Hin.
Qed.

End Regions.

(** ** Concrete instances of the further properties *)

Lemma getMonthName_at_or_east_of_utc_witness :
  @getMonthName utcHost "2024-05-10" = JsDate.monthLong 5.
Proof.
  apply (@getMonthName_at_or_east_of_utc utcHost "2024-05-10" 2024 5 10).
  - intros t. unfold JsDate.msPerDay. simpl. lia.
  - reflexivity.
  - reflexivity.
  - lia.
  - simpl. lia.
Defined.

Lemma getMonthName_west_of_utc_first_day_witness :
  @getMonthName westHost "2024-05-01"
  = JsDate.monthLong (if 5 =? 1 then 12 else 5 - 1).
Proof.
  apply (@getMonthName_west_of_utc_first_day westHost "2024-05-01" 2024 5).
  - intros t. unfold JsDate.msPerDay. simpl. lia.
  - reflexivity.
  - reflexivity.
  - lia.
Defined.

Lemma loadData_success_witness :
  totalRecords (@loadData utcHost constantOracle 2 percentZeroStore) = 2%nat
  /\ error (@loadData utcHost constantOracle 2 percentZeroStore) = None
  /\ filters (@loadData utcHost constantOracle 2 percentZeroStore)
     = filters percentZeroStore.
Proof.
  destruct (@loadData_success utcHost constantOracle 2 percentZeroStore)
    as (Htotal & _ & Herror & _ & Hfilters).
  - intros k _. exists constantDraw. reflexivity.
  - split; [exact Htotal|]. split; [exact Herror | exact Hfilters].
Defined.

Lemma reachable_filters_active_witness :
  filtersWellFormed percentZeroStore
  /\ Some <$> activeFilters percentZeroStore = filters percentZeroStore.
Proof.
  destruct (@reachable_filters_active utcHost percentZeroStore)
    as (Hwf & Hactive & _).
  - apply reachable_step, reachable_step, reachable_initial.
  - split; [exact Hwf | exact Hactive].
Defined.

Lemma bulkUpdate_calls_every_record_witness :
  exists m',
    @Bulk.bulkUpdate utcHost _ [recordX; recordY] (percentOnly 50) keepRecord
      freshMachine
    = (inr tt, m')
    /\ Bulk.world m' = [withPercent recordY 50; withPercent recordX 50].
Proof.
  destruct (@bulkUpdate_calls_every_record utcHost _ recordX [recordY]
              (percentOnly 50) keepRecord freshMachine)
    as (m' & Hrun & _ & Hworld & _).
  - intros r w. reflexivity.
  - exists m'. split; [exact Hrun | exact Hworld].
Defined.

Lemma bulkUpdate_stops_at_failure_witness :
  exists m',
    @Bulk.bulkUpdate utcHost _ ([recordY] ++ [recordX; recordY]) renameOnly
      keepUnlessFree freshMachine
    = (inl (Js.ErrorObject "Nothing to discount"), m')
    /\ List.length (Bulk.calls m') = 2%nat
    /\ List.length (Bulk.world m') = 1%nat
    /\ Bulk.lastOperationResult (Bulk.engine m')
       = Some "Error during bulk update: Nothing to discount".
Proof.
  destruct (@bulkUpdate_stops_at_failure utcHost _ [recordY] recordX [recordY]
              renameOnly keepUnlessFree freshMachine
              (Js.ErrorObject "Nothing to discount")
              [Bulk.applyUpdate recordY renameOnly])
    as (m' & Hrun & Hcalls & Hworld & Hresult & _).
  - intros record w Hin. apply list_elem_of_singleton in Hin.
    rewrite Hin. reflexivity.
  - reflexivity.
  - exists m'. split; [exact Hrun|].
    split; [rewrite Hcalls; reflexivity|].
    split; [rewrite Hworld; reflexivity | exact Hresult].
Defined.

Lemma exportToCSV_downloads_once_witness :
  exists m',
    @Bulk.exportToCSV utcHost _ saveFile "2024-05-10T12:34:56.789Z" [recordX]
      None freshMachine
    = (inr tt, m')
    /\ Bulk.calls m'
       = [Bulk.CallDownloadCSV (@Csv.convertToCSV utcHost [recordX])
            "filtered-discounts-2024-05-10T12-34-56.csv"]
    /\ Bulk.lastOperationResult (Bulk.engine m')
       = Some "Successfully exported 1 records to filtered-discounts-2024-05-10T12-34-56.csv".
Proof.
  destruct (@exportToCSV_downloads_once utcHost _ recordX [] saveFile
              "2024-05-10T12:34:56.789Z" None freshMachine)
    as (m' & Hrun & Hcalls & _ & Hresult & _).
  - intros text w. reflexivity.
  - exists m'. split; [exact Hrun|].
    split; [exact Hcalls | exact Hresult].
Defined.

Lemma handleBulkUpdate_commits_witness :
  rawData
    (Bulk.world
       (@handleBulkUpdate utcHost [recordX] (percentOnly 50) storeMachine).2)
  = map (@afterBulkUpdate utcHost [recordX] (percentOnly 50))
      (rawData percentZeroStore)
  /\ map percent
       (rawData
          (Bulk.world
             (@handleBulkUpdate utcHost [recordX] (percentOnly 50)
                storeMachine).2))
     = [50].
Proof.
  destruct (@handleBulkUpdate_commits utcHost recordX [] (percentOnly 50)
              storeMachine)
    as (_ & Hraw & _).
  - reflexivity.
  - apply NoDup_singleton.
  - split; [exact Hraw|]. rewrite Hraw. reflexivity.
Defined.

Lemma handleBulkUpdate_rejects_percent_witness :
  (@handleBulkUpdate utcHost [recordX] percent150Patch storeMachine).2
  = storeMachine
  /\ (@handleBulkUpdate utcHost [recordX] percent150Patch storeMachine).1
     = ["Discount percent must be between 0 and 100"].
Proof.
  destruct (@handleBulkUpdate_rejects_percent utcHost [recordX]
              percent150Patch storeMachine 150)
    as (Hsame & Herrors & _).
  - reflexivity.
  - right. lia.
  - split; [exact Hsame|]. rewrite Herrors. reflexivity.
Defined.

Lemma calculateDaysBetween_calendar_dates_witness :
  @calculateDaysBetween westHost "2024-02-28" "2024-03-01"
  = Z.max 0 (JsDate.makeDay 2024 3 1 - JsDate.makeDay 2024 2 28).
Proof.
  apply (@calculateDaysBetween_calendar_dates westHost "2024-02-28"
           "2024-03-01" 2024 2 28 2024 3 1).
  - reflexivity.
  - reflexivity.
  - lia.
  - simpl. lia.
  - reflexivity.
  - reflexivity.
  - lia.
  - simpl. lia.
Defined.

Lemma isValidDateString_calendar_witness :
  @isValidDateString utcHost "2024-13-01" = false.
Proof.
  destruct (@isValidDateString_calendar utcHost "2024-13-01" 2024 13 1)
    as (_ & _ & Hout & _).
  - reflexivity.
  - apply Hout. lia.
Defined.

Lemma validateRecord_accepts_witness :
  0 <= percent recordY <= 100
  /\ exists days,
       length (@withComputedFields utcHost recordY) = Some days /\ 1 <= days.
Proof.
  destruct (@validateRecord_accepts utcHost recordY)
    as (_ & _ & Hpercent & Hdates).
  - reflexivity.
  - split; [exact Hpercent|].
    destruct (Hdates 1732492800000 1733097600000) as [_ Hdays].
    + discriminate.
    + discriminate.
    + reflexivity.
    + reflexivity.
    + exact Hdays.
Defined.

Lemma valid_form_keeps_record_valid_witness :
  @validateRecord utcHost (Bulk.applyUpdate recordY (percentOnly 50)) = true.
Proof.
  apply (@valid_form_keeps_record_valid utcHost recordY (percentOnly 50)).
  - reflexivity.
  - split; intros [x Hx]; discriminate Hx.
  - reflexivity.
Defined.

Lemma formatDate_round_trip_witness :
  @isValidDateString utcHost (@formatDate utcHost 1715299200000) = true
  /\ @JsDate.parse utcHost (@formatDate utcHost 1715299200000)
     = Some (JsDate.dayOfTime (1715299200000 + 0) * JsDate.msPerDay).
Proof.
  destruct (@formatDate_round_trip utcHost 1715299200000)
    as (Hvalid & Hparse & _).
  - unfold fourDigitYear. simpl. lia.
  - split; [exact Hvalid | exact Hparse].
Defined.

Lemma generated_record_dates_witness :
  @validateRecord utcHost
    (@withComputedFields utcHost (@generateDiscountRecord utcHost 7 constantDraw))
  = true
  /\ length
       (@withComputedFields utcHost
          (@generateDiscountRecord utcHost 7 constantDraw))
     = Some (randomInt 1 30 (endDaysPick constantDraw)).
Proof.
  destruct (@generated_record_dates utcHost 7 constantDraw 0)
    as (_ & _ & _ & Hlength & _ & _ & _ & Hvalid).
  - intros t. reflexivity.
  - unfold fourDigitYear, JsDate.msPerDay. simpl. lia.
  - unfold fourDigitYear, JsDate.msPerDay. simpl. lia.
  - split; [exact Hvalid | exact Hlength].
Defined.
